(** * user_data: a shallow embedding of [cg3Dguru/user_data/core.py]

    The module wraps the attribute API of a 3D host application (through
    [pymel.core], imported as [pm]).  Python values become Rocq values,
    exceptions become the [Raise] case of [result], dictionaries become
    [gmap]s, mutable list objects live in an explicit heap so that two
    names for one list stay two names for one list, and the host scene is
    a state that every host call threads through. *)

From Stdlib Require Import ZArith Lia Ascii DecimalString DecimalZ Sorted.
From stdpp Require Import base option list sorting gmap strings.

Open Scope Z_scope.

(** ** Exceptions and results *)

(** The text handed to [pm.error]; the formatted message is kept as its
    format arguments. *)
Inductive pm_message :=
| InvalidCompoundType (attr_type : string)
| MakeElementsWithChildren
| MaxChildren
| WrongChildCount (attr_type : string)
| NodeIsNone
| AttrConflict (conflicts : list string) (class_name : string)
               (record_names : list string)
| NoGetAttributes (class_name : string)
| UtilsConflict.

Inductive exn :=
| RuntimeError (msg : pm_message)              (* raised by [pm.error] *)
| HostError (what : string)                    (* raised by a host command *)
| TypeError
| ValueError
| IndexError
| AttributeError (attr : string)
| RecursionError
| VersionUpdateException (data_name : string)
                         (old_version new_version : list Z).

Inductive result (A : Type) :=
| Ok (a : A)
| Raise (e : exn).
Arguments Ok {A} a.
Arguments Raise {A} e.

Definition bind {A B} (r : result A) (k : A -> result B) : result B :=
  match r with
  | Ok a => k a
  | Raise e => Raise e
  end.

Notation "'let*' x ':=' r 'in' k" := (bind r (fun x => k))
  (at level 10, x pattern, r at level 100, k at level 200).

Definition pm_error {A} (m : pm_message) : result A := Raise (RuntimeError m).

(** ** The Python built-ins the module relies on *)

Module Py.

(** A [str] is the sequence of its code points, taken to be below 256.
    The interpreter's optional limit on the length of decimal strings
    ([int_max_str_digits]) is taken to be off, as it is in every Python
    before 3.11. *)

(** [str(n)] for an [int]. *)
Definition str (n : Z) : string := NilZero.string_of_int (Z.to_int n).

(** The white space [int] skips: tab to carriage return, the space, the
    next-line control and the no-break space. *)
Definition isspace (c : ascii) : bool :=
  let n := nat_of_ascii c in
  (Nat.leb 9 n && Nat.leb n 13) || Nat.eqb n 32 || Nat.eqb n 133
  || Nat.eqb n 160.

Definition isdigit (c : ascii) : bool :=
  let n := nat_of_ascii c in Nat.leb 48 n && Nat.leb n 57.

Fixpoint lstrip (s : string) : string :=
  match s with
  | String c rest => if isspace c then lstrip rest else s
  | EmptyString => s
  end.

Fixpoint rstrip (s : string) : string :=
  match s with
  | EmptyString => EmptyString
  | String c rest =>
      match rstrip rest with
      | EmptyString => if isspace c then EmptyString else String c EmptyString
      | kept => String c kept
      end
  end.

(** The digits of a literal: one digit or more, with single underscores
    allowed between two digits.  [after_digit] says whether the
    character before was a digit. *)
Fixpoint grouped (after_digit : bool) (s : string) : option string :=
  match s with
  | EmptyString => if after_digit then Some EmptyString else None
  | String c rest =>
      if Ascii.eqb c "_"%char then
        if after_digit then grouped false rest else None
      else if isdigit c then
        match grouped true rest with
        | Some tail => Some (String c tail)
        | None => None
        end
      else None
  end.

Definition digits (s : string) : result Z :=
  match grouped false s with
  | Some d =>
      match NilZero.uint_of_string d with
      | Some u => Ok (Z.of_uint u)
      | None => Raise ValueError
      end
  | None => Raise ValueError
  end.

(** [int(s)]: white space around the literal is skipped; the literal is
    an optional sign followed at once by the digits. *)
Definition int (s : string) : result Z :=
  match rstrip (lstrip s) with
  | String c rest =>
      if Ascii.eqb c "-"%char then let* n := digits rest in Ok (- n)
      else if Ascii.eqb c "+"%char then digits rest
      else digits (String c rest)
  | EmptyString => Raise ValueError
  end.

(** [s.split(sep)] for a one-character separator. *)
Fixpoint split (sep : ascii) (s : string) : list string :=
  match s with
  | EmptyString => [EmptyString]
  | String c rest =>
      if Ascii.eqb c sep then EmptyString :: split sep rest
      else match split sep rest with
           | w :: ws => String c w :: ws
           | [] => [String c EmptyString]
           end
  end.

(** [sep.join(items)] *)
Fixpoint join (sep : string) (items : list string) : string :=
  match items with
  | [] => ""
  | [x] => x
  | x :: rest => x +:+ sep +:+ join sep rest
  end.

(** [a, b = items] *)
Definition unpack2 {A} (items : list A) : result (A * A) :=
  match items with
  | [a; b] => Ok (a, b)
  | _ => Raise ValueError
  end.

(** [tuple(map(int, items))] *)
Fixpoint map_int (items : list string) : result (list Z) :=
  match items with
  | [] => Ok []
  | x :: rest =>
      let* n := int x in
      let* ns := map_int rest in
      Ok (n :: ns)
  end.

(** [a < b] on tuples of integers: the first position where the two
    differ decides; when one is a prefix of the other the shorter one is
    the smaller. *)
Fixpoint tuple_lt (a b : list Z) : bool :=
  match a, b with
  | [], [] => false
  | [], _ :: _ => true
  | _ :: _, [] => false
  | x :: a', y :: b' => if x =? y then tuple_lt a' b' else x <? y
  end.

(** [range(0, n)] *)
Definition range (n : Z) : list Z := seqZ 0 n.

(** [c in s] for a character. *)
Fixpoint contains (c : ascii) (s : string) : bool :=
  match s with
  | EmptyString => false
  | String a rest => Ascii.eqb a c || contains c rest
  end.

(** What a class or instance attribute can evaluate to, as far as this
    module looks at it: a tuple of integers, or the object that
    [@property] builds. *)
Inductive object :=
| Tuple (items : list Z)
| Property.

(** Iterating, as [map(str, x)] does with its second argument. *)
Definition iter (x : object) : result (list Z) :=
  match x with
  | Tuple items => Ok items
  | Property => Raise TypeError
  end.

End Py.

(** ** Attribute descriptors *)

(** Values of keyword arguments. *)
Inductive pyval :=
| PyNone
| PyBool (b : bool)
| PyInt (z : Z)
| PyStr (s : string).

(** [key in flags] *)
Definition has_key (flags : gmap string pyval) (key : string) : bool :=
  bool_decide (is_Some (flags !! key)).

Module Attr.

Record t := Make {
  name : string;
  attr_type : string;
  _flags : gmap string pyval
}.

Definition invalid : list string :=
  ["longName"; "ln"; "attributeType"; "at"; "dataType"; "dt"; "p";
   "parent"; "numberOfchildren"; "nc"].

(** [for key in invalid: if key in flags: flags.pop(key)] *)
Definition _clear_invalid_flags (flags : gmap string pyval)
  : gmap string pyval :=
  foldl (fun fl key => if has_key fl key then delete key fl else fl)
        flags invalid.

Definition __init__ (name attr_type : string) (kwargs : gmap string pyval)
  : t :=
  Make name attr_type (_clear_invalid_flags kwargs).

(** [Attr.data_types]; the source writes ['short3' 'doubleArray'] with no
    comma between the two literals, which Python joins into one string. *)
Definition data_types : list string :=
  ["string"; "stringArray"; "matrix"; "fltMatrix"; "reflectanceRGB";
   "spectrumRGB"; "float2"; "float3"; "double2"; "double3"; "long2";
   "long3"; "short2"; "short3doubleArray"; "floatArray"; "Int32Array";
   "vectorArray"; "nurbsCurve"; "nurbsSurface"; "mesh"; "lattice";
   "pointArray"].

End Attr.

(** A Python list object is named by its address; [heap] holds the
    contents.  The list [[]] that is the default value of the [children]
    parameter of [Compound.__init__] is created once, when the [def] is
    executed, and lives at [default_children]. *)
Abbreviation loc := nat (only parsing).

Module Compound.

Record t := Make {
  base : Attr.t;
  _target_size : nat;
  _children : loc
}.

Definition name (c : t) := Attr.name (base c).
Definition attr_type (c : t) := Attr.attr_type (base c).
Definition _flags (c : t) := Attr._flags (base c).

End Compound.

(** What a children list can hold: [Attr] instances and [Compound]
    instances. *)
Inductive descriptor :=
| AnAttr (a : Attr.t)
| ACompound (c : Compound.t).

Abbreviation heap := (gmap nat (list descriptor)) (only parsing).

Definition deref (h : heap) (l : loc) : list descriptor :=
  default [] (h !! l).

Module CompoundOps.
Import Compound.

Definition compound_types : gmap string nat :=
  list_to_map
    [("compound", 0%nat);
     ("reflectance", 3%nat); ("spectrum", 3%nat);
     ("float2", 2%nat); ("float3", 3%nat);
     ("double2", 2%nat); ("double3", 3%nat);
     ("long2", 2%nat); ("long3", 3%nat);
     ("short2", 2%nat); ("short3", 3%nat)].

Definition default_children : loc := 0%nat.

(** [len(self._children)] *)
Definition count (h : heap) (self : t) : nat :=
  length (deref h (_children self)).

Definition get_children (h : heap) (self : t) : list descriptor :=
  deref h (_children self).

(** [add_child]: the guard compares the size before the append with
    [>]; the append mutates the list object in place. *)
Definition add_child (h : heap) (self : t) (child : descriptor)
  : result heap :=
  let kids := deref h (_children self) in
  if negb (Nat.eqb (_target_size self) 0)
     && Nat.ltb (_target_size self) (length kids)
  then pm_error MaxChildren
  else Ok (<[_children self := kids ++ [child]]> h).

(** [self.attr_type[0]] *)
Definition first_char (s : string) : result ascii :=
  match s with
  | EmptyString => Raise IndexError
  | String c _ => Ok c
  end.

Definition xyz : list string := ["X"; "Y"; "Z"].
Definition rgb : list string := ["R"; "G"; "B"].

Definition suffix_of (self : t) : list string :=
  if has_key (_flags self) "usedAsColor" || has_key (_flags self) "uac"
     || String.eqb (attr_type self) "spectrum"
     || String.eqb (attr_type self) "reflectance"
  then rgb else xyz.

Definition child_type (self : t) : result string :=
  let* c := first_char (attr_type self) in
  Ok (if Ascii.eqb c "f"%char then "float"
      else if Ascii.eqb c "l"%char then "long"
      else if Ascii.eqb c "s"%char then "short"
      else "double").

(** The body of [for i in range(0, self._target_size)], run for the
    values of [i] in [indices]. *)
Fixpoint make_loop (self : t) (suffix : list string) (type : string)
         (indices : list nat) (h : heap) : result heap :=
  match indices with
  | [] => Ok h
  | i :: rest =>
      match suffix !! i with
      | None => Raise IndexError
      | Some sfx =>
          let attr := Attr.__init__ (name self +:+ sfx) type ∅ in
          let* h' := add_child h self (AnAttr attr) in
          make_loop self suffix type rest h'
      end
  end.

Definition _make_elements (h : heap) (self : t) : result heap :=
  let suffix := suffix_of self in
  let* type := child_type self in
  make_loop self suffix type (seq 0 (_target_size self)) h.

(** [Compound.__init__]; [children = None] stands for a call that does
    not pass [children], which binds the parameter to its default
    object. *)
Definition __init__ (h : heap) (name attr_type : string)
           (children : option loc) (make_elements : bool)
           (kwargs : gmap string pyval) : result (t * heap) :=
  let super := Attr.__init__ name attr_type kwargs in
  match compound_types !! attr_type with
  | None => pm_error (InvalidCompoundType attr_type)
  | Some size =>
      let self := Make super size (default default_children children) in
      if negb (Nat.eqb size 0) && make_elements then
        if negb (Nat.eqb (length (deref h (_children self))) 0)
        then pm_error MakeElementsWithChildren
        else let* h' := _make_elements h self in Ok (self, h')
      else Ok (self, h)
  end.

(** The test of [validate], on the target size and the number of
    children. *)
Definition valid_size (target_size children : nat) : bool :=
  if Nat.eqb target_size 0 then Nat.ltb 0 children
  else Nat.eqb children target_size.

Definition validate (h : heap) (self : t) : result unit :=
  if negb (valid_size (_target_size self) (count h self))
  then pm_error (WrongChildCount (attr_type self))
  else Ok tt.

End CompoundOps.

(** [create_attr(name, attr_type)], a function of the module: a
    [Compound] for a type of the table, with the constructor's defaults,
    and an [Attr] otherwise. *)
Definition create_attr (h : heap) (name attr_type : string)
  : result (descriptor * heap) :=
  if bool_decide (is_Some (CompoundOps.compound_types !! attr_type)) then
    let* made := CompoundOps.__init__ h name attr_type None true ∅ in
    Ok (ACompound made.1, made.2)
  else Ok (AnAttr (Attr.__init__ name attr_type ∅), h).


(** ** The host scene

    Everything below [pm.] belongs to the host application.  The model
    keeps what this module observes of it: which nodes exist, which
    attributes a node has and how they nest, and the elements of the
    multi-element string attribute that holds the records.  Values of
    other attributes are not part of the state. *)

Module Host.

(** One element of a multi attribute of strings. *)
Record plug := Plug { value : option string; locked : bool }.

Record node := Node {
  attrs : list (string * option string);   (* long name, parent *)
  multi : gmap Z plug                       (* of the records attribute *)
}.

Abbreviation scene := (gmap nat node) (only parsing).

(** A host call runs in the scene and may raise; the scene it leaves
    behind is kept in both cases. *)
Definition M (A : Type) := scene -> result A * scene.

Definition ret {A} (a : A) : M A := fun s => (Ok a, s).

Definition raise {A} (e : exn) : M A := fun s => (Raise e, s).

Definition mbind {A B} (m : M A) (k : A -> M B) : M B :=
  fun s =>
    match m s with
    | (Ok a, s') => k a s'
    | (Raise e, s') => (Raise e, s')
    end.

Definition lift {A} (r : result A) : M A := fun s => (r, s).

(** [try: m except: handler] with a bare [except]. *)
Definition try_except {A} (m : M A) (handler : M A) : M A :=
  fun s =>
    match m s with
    | (Ok a, s') => (Ok a, s')
    | (Raise _, s') => handler s'
    end.

Definition names (nd : node) : list string := (attrs nd).*1.

(** A handle is true when its node exists. *)
Definition objExists (n : nat) : M bool :=
  fun s => (Ok (bool_decide (is_Some (s !! n))), s).

Definition hasAttr (n : nat) (name : string) : M bool :=
  fun s =>
    match s !! n with
    | Some nd => (Ok (bool_decide (name ∈ names nd)), s)
    | None => (Ok false, s)
    end.

(** [pm.addAttr(node, ln = name, ..., parent = p)]: the name must be new
    on the node and the parent, when given, must be there. *)
Definition addAttr (n : nat) (name : string) (parent : option string)
  : M unit :=
  fun s =>
    match s !! n with
    | None => (Raise (HostError "no such node"), s)
    | Some nd =>
        if bool_decide (name ∈ names nd)
        then (Raise (HostError "attribute name clash"), s)
        else if match parent with
                | Some p => bool_decide (p ∈ names nd)
                | None => true
                end
        then (Ok tt,
              <[n := Node (attrs nd ++ [(name, parent)]) (multi nd)]> s)
        else (Raise (HostError "no such parent"), s)
    end.

(** The attributes that stay when [name] and all below it go.  Parents
    come before their children in [attrs]. *)
Fixpoint prune (gone : list string) (l : list (string * option string))
  : list (string * option string) :=
  match l with
  | [] => []
  | (a, p) :: rest =>
      if bool_decide (a ∈ gone)
         || match p with
            | Some q => bool_decide (q ∈ gone)
            | None => false
            end
      then prune (a :: gone) rest
      else (a, p) :: prune gone rest
  end.

Definition deleteAttr (n : nat) (name : string) : M unit :=
  fun s =>
    match s !! n with
    | None => (Raise (HostError "no such node"), s)
    | Some nd =>
        if bool_decide (name ∈ names nd)
        then (Ok tt, <[n := Node (prune [name] (attrs nd)) (multi nd)]> s)
        else (Raise (HostError "no such attribute"), s)
    end.

(** [createNode]: a new handle, a node with the attributes every node
    of the default type is born with. *)
Definition builtin_attrs : list (string * option string) :=
  [("message", None); ("caching", None); ("frozen", None);
   ("isHistoricallyInteresting", None); ("nodeState", None);
   ("binMembership", None); ("affectedBy", None); ("affects", None)].

Definition new_handle (s : scene) : nat := fresh (dom s).

Definition createNode : M nat :=
  fun s =>
    let n := new_handle s in
    (Ok n, <[n := Node builtin_attrs ∅]> s).

Definition delete (n : nat) : M unit :=
  fun s =>
    match s !! n with
    | Some _ => (Ok tt, base.delete n s)
    | None => (Raise (HostError "no such node"), s)
    end.

(** [node.attr(name)]: a handle on an attribute that is there. *)
Definition attr (n : nat) (name : string) : M string :=
  fun s =>
    match s !! n with
    | Some nd =>
        if bool_decide (name ∈ names nd) then (Ok name, s)
        else (Raise (HostError "no such attribute"), s)
    | None => (Raise (HostError "no such node"), s)
    end.

(** A handle on [records[index]], the records attribute of node
    [owner]. *)
Record element := Element { owner : nat; index : Z }.

(** [getArrayIndices()]: the indices in use, in increasing order. *)
Definition getArrayIndices (n : nat) : M (list Z) :=
  fun s =>
    match s !! n with
    | Some nd => (Ok (merge_sort Z.le (elements (dom (multi nd)))), s)
    | None => (Raise (HostError "no such node"), s)
    end.

Definition update_plug (e : element) (f : option plug -> result plug)
  : M unit :=
  fun s =>
    match s !! owner e with
    | None => (Raise (HostError "no such node"), s)
    | Some nd =>
        match f (multi nd !! index e) with
        | Ok p =>
            (Ok tt,
             <[owner e := Node (attrs nd) (<[index e := p]> (multi nd))]> s)
        | Raise x => (Raise x, s)
        end
    end.

(** [e.get()]: [None] for an element that holds nothing. *)
Definition get (e : element) : M (option string) :=
  fun s =>
    match s !! owner e with
    | Some nd => (Ok (p ← multi nd !! index e; value p), s)
    | None => (Raise (HostError "no such node"), s)
    end.

(** [e.set(v)]: refused on a locked element. *)
Definition set (e : element) (v : string) : M unit :=
  update_plug e (fun old =>
    match old with
    | Some (Plug _ true) => Raise (HostError "locked")
    | _ => Ok (Plug (Some v) false)
    end).

Definition lock (e : element) : M unit :=
  update_plug e (fun old => Ok (Plug (p ← old; value p) true)).

Definition unlock (e : element) : M unit :=
  update_plug e (fun old => Ok (Plug (p ← old; value p) false)).

(** [pm.removeMultiInstance(e, b = True)] *)
Definition removeMultiInstance (e : element) : M unit :=
  fun s =>
    match s !! owner e with
    | None => (Raise (HostError "no such node"), s)
    | Some nd =>
        (Ok tt,
         <[owner e := Node (attrs nd) (base.delete (index e) (multi nd))]> s)
    end.

End Host.

Notation "'let!' x ':=' m 'in' k" := (Host.mbind m (fun x => k))
  (at level 10, x pattern, m at level 100, k at level 200).

(** ** Record *)

Module Record_.
Import Host.

Record t := Make {
  _attr : element;
  _name : string;
  _version : list Z
}.

(** [Record.__init__] *)
Definition __init__ (attr : element) : M t :=
  let! v := get attr in
  match v with
  | None => raise (AttributeError "split")
  | Some text =>
      let! (name, str_version) := lift (Py.unpack2 (Py.split ":" text)) in
      let! version := lift (Py.map_int (Py.split "." str_version)) in
      ret (Make attr name version)
  end.

Definition name (self : t) : string := _name self.
Definition version (self : t) : list Z := _version self.
Definition attr (self : t) : element := _attr self.

Definition _get_version_string (self : t) : string :=
  Py.join "." (Py.str <$> _version self).

(** The setter of [version]; the record object it returns is [self]
    after the assignment. *)
Definition set_version (self : t) (value : list Z) : M t :=
  let! _ := unlock (attr self) in
  let self := Make (_attr self) (_name self) value in
  let name := name self +:+ ":" +:+ _get_version_string self in
  let! _ := set (attr self) name in
  let! _ := lock (attr self) in
  ret self.

End Record_.

(** ** Data blocks *)

(** A descriptor of a class's [attributes] together with the children
    its list holds: what [add_attr] and [_get_attribute_names] walk
    over. *)
#[warnings="-register-all"]
Inductive attr_tree :=
| Leaf (a : Attr.t)
| Branch (c : Attr.t) (target_size : nat) (children : list attr_tree).

Module BaseData.
Import Host.

Definition _RECORDS_NAME : string := "DataRecords".

(** The module global, at the value the module gives it. *)
Definition AUTO_UPDATE : bool := false.

(** A subclass of [BaseData]: its name, the class attributes and the
    methods it may override.  A subclass keeps its version in [_version];
    the name [version] stays bound as [BaseData] binds it, to a property.
    [attributes] is the class attribute that caches what [get_attributes]
    returns.  [GetDefaultFlags] and [GetAttributeNames] are [None] unless
    the subclass itself defines attributes of these names; [BaseData]
    defines neither. *)
Record class := Class {
  __name__ : string;
  get_data_name : string;
  _version : list Z;
  attributes : list attr_tree;
  get_attributes : result (list attr_tree);
  get_default_flags : gmap string pyval;
  pre_update_version : string -> list Z -> M bool;
  post_update_version : string -> bool -> M unit;
  post_create : string -> M unit;
  GetDefaultFlags : option (gmap string pyval);
  GetAttributeNames : option (list string)
}.

(** [class name(BaseData)] with [_version] and [get_attributes]
    overridden and everything else inherited. *)
Definition subclass (name : string) (version : list Z)
           (attrs : list attr_tree) : class :=
  {| __name__ := name;
     get_data_name := name;
     _version := version;
     attributes := [];
     get_attributes := Ok attrs;
     get_default_flags := ∅;
     pre_update_version := fun _ _ => ret AUTO_UPDATE;
     post_update_version := fun _ _ => ret tt;
     post_create := fun _ => ret tt;
     GetDefaultFlags := None;
     GetAttributeNames := None |}.

Record instance := Instance {
  cls : class;
  _flags : gmap string pyval;
  _records : option nat;      (* the node whose records attribute it is *)
  _node : option nat
}.

(** *** Versioning *)

Definition get_class_version (c : class) : list Z := _version c.

(** [cls.version]: the name [version] is bound in the class body to a
    property, and a property read through the class, not through an
    instance, evaluates to the property object itself. *)
Definition class_version (c : class) : Py.object := Py.Property.

(** [self.version]: read through an instance, the property calls its
    getter. *)
Definition version (self : instance) : list Z :=
  get_class_version (cls self).

(** ['.'.join(map(str, cls.version))] *)
Definition get_version_string (c : class) : result string :=
  let* items := Py.iter (class_version c) in
  Ok (Py.join "." (Py.str <$> items)).

(** *** Flags *)

Definition invalid : list string :=
  ["longName"; "ln"; "attribute"; "at"; "dataType"; "dt"; "p"; "parent";
   "numberOfchildren"; "nc"].

Definition _clear_invalid_flags (flags : gmap string pyval)
  : gmap string pyval :=
  foldl (fun fl key => if has_key fl key then base.delete key fl else fl)
        flags invalid.

(** *** Attribute names *)

Definition _init_class_attributes (c : class) : result class :=
  match attributes c with
  | [] =>
      let* attrs := get_attributes c in
      Ok (Class (__name__ c) (get_data_name c) (_version c) attrs
                (get_attributes c) (get_default_flags c)
                (pre_update_version c) (post_update_version c)
                (post_create c) (GetDefaultFlags c) (GetAttributeNames c))
  | _ :: _ => Ok c
  end.

Fixpoint _get_attribute_names (attr : attr_tree) (name_list : list string)
  : list string :=
  match attr with
  | Leaf a => name_list ++ [Attr.name a]
  | Branch c _ children =>
      fold_left (fun names child => _get_attribute_names child names)
                children (name_list ++ [Attr.name c])
  end.

Definition get_attribute_names (c : class) : result (list string) :=
  let* c := _init_class_attributes c in
  Ok (fold_left (fun names attr => _get_attribute_names attr names)
                (attributes c) []).

(** [BaseData.__init__].  [object.__init__] takes no keyword
    arguments. *)
Definition __init__ (c : class) (kwargs : gmap string pyval)
  : result instance :=
  if bool_decide (kwargs = ∅) then
    let flags := kwargs ∪ get_default_flags c in
    let flags := _clear_invalid_flags flags in
    let* c := _init_class_attributes c in
    Ok (Instance c flags None None)
  else Raise TypeError.

(** *** Records *)

(** The search of [_add_data_to_records] for a free index below the
    last one; [-1] when there is none. *)
Fixpoint first_hole (indices candidates : list Z) : Z :=
  match candidates with
  | [] => -1
  | i :: rest =>
      if bool_decide (i ∈ indices) then first_hole indices rest else i
  end.

(** The index [_add_data_to_records] writes to. *)
Definition next_index (indices : list Z) : Z :=
  match indices with
  | [] => 0
  | _ :: _ =>
      let last := List.last indices 0 in
      let idx := first_hole indices (Py.range last) in
      if idx =? -1 then last + 1 else idx
  end.

(** An attribute handle is true when the attribute exists. *)
Definition _add_data_to_records (self : instance) : M unit :=
  match _records self with
  | None => ret tt
  | Some r =>
      let! there := hasAttr r _RECORDS_NAME in
      if there then
        let! indices := getArrayIndices r in
        let idx := next_index indices in
        let! version_string := lift (get_version_string (cls self)) in
        let name := get_data_name (cls self) +:+ ":" +:+ version_string in
        let! _ := set (Element r idx) name in
        lock (Element r idx)
      else ret tt
  end.

Definition _create_records (node : nat) : M unit :=
  addAttr node _RECORDS_NAME None.

Definition _get_records (node : nat) (force_add : bool) : M (option nat) :=
  let! alive := objExists node in
  if negb alive then raise (RuntimeError NodeIsNone)
  else
    let! has_records := hasAttr node _RECORDS_NAME in
    let! has_records :=
      (if negb has_records && force_add
       then let! _ := _create_records node in ret true
       else ret has_records) in
    if has_records then let! _ := attr node _RECORDS_NAME in ret (Some node)
    else ret None.

Definition get_records (node : nat) : M (option nat) :=
  _get_records node false.

(** [not text] for the value of a string element. *)
Definition blank (v : option string) : bool :=
  match v with
  | None => true
  | Some text => bool_decide (text = "")
  end.

(** The loop of [_get_record_by_name] over the indices in use.  The
    source reads [record.get()] once for the test and once for the split;
    nothing changes the element in between, and [v] stands for both. *)
Fixpoint scan_records (records : nat) (data_name : string)
         (indices : list Z) : M (option Record_.t) :=
  match indices with
  | [] => ret None
  | i :: rest =>
      let record := Element records i in
      let! v := get record in
      if blank v then scan_records records data_name rest
      else
        let! (name, version) :=
          lift (Py.unpack2 (Py.split ":" (default "" v))) in
        if bool_decide (name = data_name)
        then let! found := Record_.__init__ record in ret (Some found)
        else scan_records records data_name rest
  end.

Definition _get_record_by_name (node : nat) (data_name : string)
  : M (option Record_.t) :=
  let! records := _get_records node false in
  match records with
  | None => ret None
  | Some r =>
      let! indices := getArrayIndices r in
      scan_records r data_name indices
  end.

Definition get_record_by_name := _get_record_by_name.

Definition get_record (c : class) (node : nat) : M (option Record_.t) :=
  _get_record_by_name node (get_data_name c).

(** *** Attributes *)

(** [self._node] as the node argument of a host command. *)
Definition the_node (self : instance) : M nat :=
  match _node self with
  | Some n => ret n
  | None => raise TypeError
  end.

Definition is_multi (self : instance) : bool :=
  has_key (_flags self) "multi" || has_key (_flags self) "m".

(** The names [_find_attr_conflicts] looks for on the node. *)
Definition checked_names (self : instance) : result (list string) :=
  let* attr_names := get_attribute_names (cls self) in
  let attr_names := if is_multi self then [] else attr_names in
  Ok (attr_names ++ [get_data_name (cls self)]).

Fixpoint collect_conflicts (node : nat) (attr_names : list string)
  : M (list string) :=
  match attr_names with
  | [] => ret []
  | attr_name :: rest =>
      let! found := hasAttr node attr_name in
      let! conflicts := collect_conflicts node rest in
      ret (if found then attr_name :: conflicts else conflicts)
  end.

Fixpoint collect_record_names (records : nat) (indices : list Z)
  : M (list string) :=
  match indices with
  | [] => ret []
  | i :: rest =>
      let! record := Record_.__init__ (Element records i) in
      let! record_names := collect_record_names records rest in
      ret (Record_.name record :: record_names)
  end.

Definition _find_attr_conflicts (self : instance) : M unit :=
  let! attr_names := lift (checked_names self) in
  let! node := the_node self in
  let! conflicts := collect_conflicts node attr_names in
  match conflicts with
  | [] => ret tt
  | _ :: _ =>
      match _records self with
      | None => raise (AttributeError "getArrayIndices")
      | Some r =>
          let! indices := getArrayIndices r in
          let! record_names := collect_record_names r indices in
          raise (RuntimeError
                   (AttrConflict conflicts (__name__ (cls self))
                                 record_names))
      end
  end.

(** The [parent] flag [add_attr] passes on: [parent_name] when it is
    not empty, else whatever the descriptor's flags hold. *)
Definition parent_flag (flags : gmap string pyval) (parent_name : string)
  : option string :=
  let flags :=
    if bool_decide (parent_name = "") then flags
    else <["parent" := PyStr parent_name]> flags in
  match flags !! "parent" with
  | Some (PyStr p) => Some p
  | _ => None
  end.

Fixpoint add_attr (node : nat) (attr : attr_tree) (parent_name : string)
  : M unit :=
  match attr with
  | Branch c target_size children =>
      let! _ :=
        lift (if negb (CompoundOps.valid_size target_size (length children))
              then pm_error (WrongChildCount (Attr.attr_type c))
              else Ok tt) in
      let! _ :=
        addAttr node (Attr.name c) (parent_flag (Attr._flags c) parent_name) in
      (fix each (l : list attr_tree) : M unit :=
         match l with
         | [] => ret tt
         | child :: rest =>
             let! _ := add_attr node child (Attr.name c) in each rest
         end) children
  | Leaf a =>
      addAttr node (Attr.name a) (parent_flag (Attr._flags a) parent_name)
  end.

Fixpoint add_attrs (node : nat) (attrs : list attr_tree)
         (parent_name : string) : M unit :=
  match attrs with
  | [] => ret tt
  | a :: rest =>
      let! _ := add_attr node a parent_name in
      add_attrs node rest parent_name
  end.

(** *** Data *)

Definition _create_data (self : instance) : M string :=
  let attrs := attributes (cls self) in
  let long_name := get_data_name (cls self) in
  let! node := the_node self in
  let! _ := addAttr node long_name (parent_flag (_flags self) "") in
  let! _ := add_attrs node attrs long_name in
  attr node long_name.

(** *** Updating, and [get_data]

    [get_data] calls [update_version], which calls [create_node], which
    calls [get_data] on the node it made.  [depth] bounds the nesting of
    these calls, as the interpreter's recursion limit does. *)

Section Migration.

(** [pm.copyAttr(source, target, at = names, ic = True, oc = True,
    values = True)].  What it does to the scene, and when it fails,
    is the host's business. *)
Variable copyAttr : nat -> nat -> list string -> M unit.

(** [create_node]; the new node exists, so [if pynode] is taken. *)
Definition create_node
           (get_data : instance -> nat -> bool -> M (option string))
           (c : class) : M (nat * option string) :=
  let! pynode := createNode in
  let! classInstance := lift (__init__ c ∅) in
  let! data := get_data classInstance pynode true in
  ret (pynode, data).

Definition update_version
           (get_data : instance -> nat -> bool -> M (option string))
           (self : instance) (old_data : string)
           (old_version_number : list Z) : M bool :=
  let! (temp_node, data) := create_node get_data (cls self) in
  let! name_list := lift (get_attribute_names (cls self)) in
  let! node := the_node self in
  let! _ :=
    try_except
      (copyAttr node temp_node name_list)
      (let! _ := delete temp_node in
       raise (VersionUpdateException (get_data_name (cls self))
                                     old_version_number (version self))) in
  let! _ := deleteAttr node (get_data_name (cls self)) in
  let! _ := _create_data self in
  let! _ := copyAttr temp_node node name_list in
  let! _ := delete temp_node in
  ret true.

Fixpoint get_data (depth : nat) (self : instance) (node : nat)
         (force_add : bool) : M (option string) :=
  match depth with
  | O => raise RecursionError
  | S depth' =>
      let self := Instance (cls self) (_flags self) None (Some node) in
      let! record := get_record (cls self) node in
      let! self :=
        (if negb (bool_decide (is_Some record)) && force_add
         then let! records := _get_records node true in
              ret (Instance (cls self) (_flags self) records (_node self))
         else ret self) in
      match record with
      | Some record =>
          let data_name := get_data_name (cls self) in
          let record_version := Record_.version record in
          let current_version := version self in
          let! _ :=
            (if Py.tuple_lt record_version current_version then
               let! old_data := attr node data_name in
               let! wanted :=
                 pre_update_version (cls self) old_data record_version in
               if wanted then
                 let! updated :=
                   update_version (get_data depth') self old_data
                                  record_version in
                 let! _ :=
                   (if updated
                    then let! _ :=
                           Record_.set_version record current_version in
                         ret tt
                    else ret tt) in
                 let! data := attr node data_name in
                 post_update_version (cls self) data updated
               else ret tt
             else ret tt) in
          let! data := attr node data_name in
          ret (Some data)
      | None =>
          if force_add then
            let! _ := _find_attr_conflicts self in
            let! data := _create_data self in
            let! _ := _add_data_to_records self in
            let! _ := post_create (cls self) data in
            ret (Some data)
          else ret None
      end
  end.

Definition add_data (depth : nat) (self : instance) (node : nat)
  : M (option string) :=
  get_data depth self node true.

Definition delete_data (self : instance) (node : nat) : M unit :=
  let! record := get_record (cls self) node in
  match record with
  | Some record =>
      let! _ := unlock (Record_.attr record) in
      let! _ := removeMultiInstance (Record_.attr record) in
      deleteAttr node (get_data_name (cls self))
  | None => ret tt
  end.

End Migration.

End BaseData.

(** ** Utils *)

Module Utils.
Import BaseData.

(** One step of the first loop of [find_attribute_conflicts]:
    the names of one class are entered into [attrs]. *)
Definition enter_names (class_name : string) (attribute_names : list string)
           (attrs : gmap string (list string)) : gmap string (list string) :=
  fold_left
    (fun attrs attr_name =>
       match attrs !! attr_name with
       | None => <[attr_name := [class_name]]> attrs
       | Some classes => <[attr_name := classes ++ [class_name]]> attrs
       end)
    attribute_names attrs.

(** The first loop.  [subclass.GetDefaultFlags] and
    [subclass.GetAttributeNames] are attribute look-ups on the class. *)
Fixpoint gather (classes : list class) (attrs : gmap string (list string))
  : result (gmap string (list string)) :=
  match classes with
  | [] => Ok attrs
  | subclass :: rest =>
      match GetDefaultFlags subclass with
      | None => Raise (AttributeError "GetDefaultFlags")
      | Some default_flags =>
          if has_key default_flags "m" || has_key default_flags "multi"
          then gather rest attrs
          else
            match GetAttributeNames subclass with
            | None => Raise (AttributeError "GetAttributeNames")
            | Some attribute_names =>
                gather rest
                  (enter_names (__name__ subclass) attribute_names attrs)
            end
      end
  end.

(** [find_attribute_conflicts], over the classes [get_classes()]
    returns; the result is paired with the names warned about. *)
Definition find_attribute_conflicts (get_classes : list class)
           (error_on_conflict : bool)
  : result (gmap string (list string)) * list string :=
  match gather get_classes ∅ with
  | Raise e => (Raise e, [])
  | Ok attrs =>
      let conflicts :=
        filter (fun kv => (1 < length kv.2)%nat) attrs in
      let warned := (map_to_list conflicts).*1 in
      if negb (bool_decide (conflicts = ∅)) && error_on_conflict
      then (pm_error UtilsConflict, warned)
      else (Ok conflicts, warned)
  end.

(** [get_class_names]: the classes by data name; a later class takes
    the place of an earlier one of the same data name. *)
Definition get_class_names (get_classes : list class) : gmap string class :=
  fold_left (fun class_names subclass =>
               <[get_data_name subclass := subclass]> class_names)
            get_classes ∅.

Section Listing.
Import Host.

Variable copyAttr : nat -> nat -> list string -> M unit.

(** [pm.ls] with the arguments it is handed: the nodes the host lists
    for them. *)
Variable ls : M (list nat).

(** [nodes.sort()]: the list in the order of the host's comparison of
    node handles. *)
Variable sorted : list nat -> list nat.

(** The loop of [get_nodes_with_data].  A record object is true; a
    handle on the records attribute is true, as the attribute exists. *)
Fixpoint keep_data_nodes (data_class : option class) (nodes : list nat)
  : M (list nat) :=
  match nodes with
  | [] => ret []
  | node :: rest =>
      let! found :=
        match data_class with
        | Some c =>
            let! records := get_record_by_name node (get_data_name c) in
            ret (bool_decide (is_Some records))
        | None =>
            let! records := get_records node in
            ret (bool_decide (is_Some records))
        end in
      let! data_nodes := keep_data_nodes data_class rest in
      ret (if found then node :: data_nodes else data_nodes)
  end.

Definition get_nodes_with_data (data_class : option class) : M (list nat) :=
  let! nodes := ls in
  keep_data_nodes data_class (sorted nodes).

(** The inner loop of [validate_version]: [instance.get_data(node)] for
    each node. *)
Fixpoint check_nodes (depth : nat) (instance : instance) (nodes : list nat)
  : M unit :=
  match nodes with
  | [] => ret tt
  | node :: rest =>
      let! _ := get_data copyAttr depth instance node false in
      check_nodes depth instance rest
  end.

(** The outer loop: one instance per class. *)
Fixpoint check_classes (depth : nat) (classes : list class)
         (nodes : list nat) : M unit :=
  match classes with
  | [] => ret tt
  | data_class :: rest =>
      let! instance := lift (__init__ data_class ∅) in
      let! _ := check_nodes depth instance nodes in
      check_classes depth rest nodes
  end.

Definition validate_version (depth : nat) (get_classes : list class)
  : M unit :=
  let! nodes := ls in
  check_classes depth get_classes nodes.

End Listing.

End Utils.

(** ** Runs of the operations on descriptors *)

Module Runs.
Import Compound CompoundOps.

(** [add_child] called once for each element of [kids], in order. *)
Fixpoint add_children (h : heap) (self : t) (kids : list descriptor)
  : result heap :=
  match kids with
  | [] => Ok h
  | kid :: rest =>
      let* h' := add_child h self kid in
      add_children h' self rest
  end.

(** [evolves h h']: [h'] is reached from [h] by calls of [add_child]
    and of the constructor that return. *)
Inductive evolves : heap -> heap -> Prop :=
| evolves_refl h : evolves h h
| evolves_add_child h h1 h2 self child :
    add_child h self child = Ok h1 -> evolves h1 h2 -> evolves h h2
| evolves_init h h1 h2 name attr_type children make_elements kwargs self :
    __init__ h name attr_type children make_elements kwargs = Ok (self, h1) ->
    evolves h1 h2 -> evolves h h2.

(** The descriptor [_make_elements] builds for one suffix. *)
Definition element_attr (name type sfx : string) : descriptor :=
  AnAttr (Attr.Make (name +:+ sfx) type ∅).

Definition descriptor_name (d : descriptor) : string :=
  match d with
  | AnAttr a => Attr.name a
  | ACompound c => Compound.name c
  end.

(** The constructor's test for a color: the [usedAsColor] or [uac]
    keyword, or one of the two color types. *)
Definition colored (ty : string) (kwargs : gmap string pyval) : bool :=
  has_key kwargs "usedAsColor" || has_key kwargs "uac"
  || String.eqb ty "spectrum" || String.eqb ty "reflectance".

End Runs.

(** ** What the properties compare the code with *)

Module Reference.
Import BaseData.

(** The names of a descriptor tree in pre-order: the descriptor, then
    its children from first to last, each with all below it. *)
Fixpoint preorder (t : attr_tree) : list string :=
  match t with
  | Leaf a => [Attr.name a]
  | Branch c _ children => Attr.name c :: flat_map preorder children
  end.

(** The number of descriptors in a tree. *)
Fixpoint size (t : attr_tree) : nat :=
  match t with
  | Leaf _ => 1
  | Branch _ _ children => S (list_sum (map size children))
  end.

(** The type of the children [_make_elements] makes for a type of the
    table, read off the first letter of the type. *)
Definition element_type (attr_type : string) : string :=
  if bool_decide (attr_type ∈ ["float2"; "float3"]) then "float"
  else if bool_decide (attr_type ∈ ["long2"; "long3"]) then "long"
  else if bool_decide (attr_type ∈ ["short2"; "short3"; "spectrum"])
  then "short"
  else "double".

(** The class names [find_attribute_conflicts] files under [attr_name]:
    for each class in turn that is not marked multi, its name once for
    each time [attr_name] occurs in its list of attribute names. *)
Definition claimants (classes : list class) (attr_name : string)
  : list string :=
  flat_map
    (fun c =>
       let flags := default ∅ (GetDefaultFlags c) in
       if has_key flags "m" || has_key flags "multi" then []
       else replicate
              (length (filter (fun a => a = attr_name)
                              (default [] (GetAttributeNames c))))
              (__name__ c))
    classes.

(** The number of times the character [c] occurs in [s]. *)
Fixpoint occurrences (c : ascii) (s : string) : nat :=
  match s with
  | EmptyString => 0
  | String a rest =>
      (if Ascii.eqb a c then 1 else 0) + occurrences c rest
  end.

(** The attributes a descriptor tree stands for when it is added below
    [parent]: its own, then those of its children below it. *)
Fixpoint layout (parent : string) (t : attr_tree)
  : list (string * option string) :=
  match t with
  | Leaf a => [(Attr.name a, Some parent)]
  | Branch c _ children =>
      (Attr.name c, Some parent) :: flat_map (layout (Attr.name c)) children
  end.

(** A tree that [add_attr] takes: every compound in it passes
    [validate] and has a name. *)
Fixpoint sound (t : attr_tree) : bool :=
  match t with
  | Leaf _ => true
  | Branch c target_size children =>
      CompoundOps.valid_size target_size (length children)
      && negb (bool_decide (Attr.name c = ""))
      && forallb sound children
  end.

(** Node [n] is in the scene and has the records attribute. *)
Definition has_records (s : Host.scene) (n : nat) : bool :=
  match s !! n with
  | Some nd => bool_decide (_RECORDS_NAME ∈ Host.names nd)
  | None => false
  end.

End Reference.

(** ** What a host call does to the scene *)

Module Effects.
Import Host.

(** Node [n] has an attribute called [a]. *)
Definition has_attr (s : scene) (n : nat) (a : string) : Prop :=
  exists nd, s !! n = Some nd /\ a ∈ names nd.

(** [m] leaves the scene as it found it. *)
Definition reads {A} (m : M A) : Prop := forall s, (m s).2 = s.

(** From [s] to [s'] nothing is lost: every node of [s] is in [s'], with
    the same elements in its records attribute and with all the
    attributes it had. *)
Definition grows (s s' : scene) : Prop :=
  forall n nd,
    s !! n = Some nd ->
    exists nd',
      s' !! n = Some nd' /\ multi nd' = multi nd /\
      forall a, a ∈ names nd -> a ∈ names nd'.

(** [m] deletes nothing and writes no record. *)
Definition keeps {A} (m : M A) : Prop := forall s, grows s (m s).2.

End Effects.

(** ** Sample classes and scenes *)

Module Demo.
Import Host BaseData.

(** [class Foo(BaseData)] at version (1,0,0) with one float attribute
    [a]. *)
Definition Foo : class :=
  subclass "Foo" [1; 0; 0] [Leaf (Attr.__init__ "a" "float" ∅)].

(** [Foo] with [pre_update_version] overridden to return [True]. *)
Definition FooAuto : class :=
  Class "Foo" "Foo" [1; 0; 0] [] (Ok [Leaf (Attr.__init__ "a" "float" ∅)]) ∅
        (fun _ _ => ret true) (fun _ _ => ret tt) (fun _ => ret tt)
        None None.

(** The instance [c()] makes. *)
Definition new (c : class) : instance :=
  match __init__ c ∅ with
  | Ok self => self
  | Raise _ => Instance c ∅ None None
  end.

(** A scene with one node without attributes. *)
Definition bare : scene := {[0%nat := Node [] ∅]}.

(** A scene whose node carries [Foo] as version (0,9,0) wrote it, when the
    float attribute was still called [b]. *)
Definition stale : scene :=
  {[0%nat := Node [("DataRecords", None); ("Foo", None); ("b", Some "Foo")]
                  {[0 := Plug (Some "Foo:0.9.0") true]}]}.

(** [class Plain(BaseData)] with one float attribute [foo]. *)
Definition Plain : class :=
  subclass "Plain" [0; 0; 0] [Leaf (Attr.__init__ "foo" "float" ∅)].


(** A scene whose node carries a data block [Other] with an attribute
    [foo], and its record. *)
Definition taken : scene :=
  {[0%nat := Node [("DataRecords", None); ("Other", None);
                   ("foo", Some "Other")]
                  {[0 := Plug (Some "Other:0.0.0") true]}]}.

(** [Foo] with [pre_update_version] overridden to refuse with an
    exception. *)
Definition FooStrict : class :=
  Class "Foo" "Foo" [1; 0; 0] [] (Ok [Leaf (Attr.__init__ "a" "float" ∅)]) ∅
        (fun _ _ => raise ValueError) (fun _ _ => ret tt) (fun _ => ret tt)
        None None.

(** A scene whose node carries the blocks [Other] and [More], with their
    records at the indices 0 and 2. *)
Definition gapped : scene :=
  {[0%nat := Node [("DataRecords", None); ("Other", None); ("More", None)]
                  {[0 := Plug (Some "Other:0.0.0") true;
                    2 := Plug (Some "More:0.0.0") true]}]}.


End Demo.

(** The lexicographic order on tuples of integers, as it is usually
    stated: a proper prefix is smaller, and otherwise the first position
    where the tuples differ decides. *)
Inductive lex_lt : list Z -> list Z -> Prop :=
| lex_lt_prefix y b : lex_lt [] (y :: b)
| lex_lt_head x y a b : x < y -> lex_lt (x :: a) (y :: b)
| lex_lt_tail x a b : lex_lt a b -> lex_lt (x :: a) (x :: b).

(** * Properties *)

(** ** Descriptors *)

Arguments Attr._clear_invalid_flags : simpl never.
Arguments CompoundOps.compound_types : simpl never.

Section CompoundFacts.
Import Compound CompoundOps Runs.

Lemma compound_types_inv ty N :
  compound_types !! ty = Some N ->
  (ty, N) ∈ [("compound", 0%nat);
             ("reflectance", 3%nat); ("spectrum", 3%nat);
             ("float2", 2%nat); ("float3", 3%nat);
             ("double2", 2%nat); ("double3", 3%nat);
             ("long2", 2%nat); ("long3", 3%nat);
             ("short2", 2%nat); ("short3", 3%nat)].
Proof. intros H. by apply elem_of_list_to_map_2 in H. Qed.

Lemma compound_types_bound ty N :
  compound_types !! ty = Some N -> (N <= 3)%nat.
Proof.
  intros H%compound_types_inv.
  repeat (apply elem_of_cons in H as [H|H]; [simplify_eq; lia|]).
  by apply elem_of_nil in H.
Qed.

Lemma compound_types_zero ty :
  compound_types !! ty = Some 0%nat <-> ty = "compound".
Proof.
  split; [|by intros ->].
  intros H%compound_types_inv.
  repeat (apply elem_of_cons in H as [H|H]; [by simplify_eq|]).
  by apply elem_of_nil in H.
Qed.

Lemma clear_empty : Attr._clear_invalid_flags ∅ = ∅.
Proof. reflexivity. Qed.

Lemma init_fields h name ty children me kwargs c h1 :
  __init__ h name ty children me kwargs = Ok (c, h1) ->
  Compound.name c = name /\ attr_type c = ty /\
  _children c = default default_children children /\
  compound_types !! ty = Some (_target_size c) /\
  _flags c = Attr._clear_invalid_flags kwargs.
Proof.
  unfold __init__. destruct (compound_types !! ty) as [size|] eqn:E; [|done].
  destruct (negb (size =? 0)%nat && me).
  - destruct (negb _); [done|].
    destruct (_make_elements _ _); simpl; [|done].
    by intros [= <- <-].
  - by intros [= <- <-].
Qed.

Lemma add_child_ok h c child :
  (_target_size c = 0 \/ count h c <= _target_size c)%nat ->
  add_child h c child
  = Ok (<[_children c := get_children h c ++ [child]]> h).
Proof.
  intros Hsize. unfold add_child, count, get_children in *.
  destruct (Nat.eqb_spec (_target_size c) 0) as [->|Hne]; [done|].
  destruct (Nat.ltb_spec (_target_size c) (length (deref h (_children c))));
    [lia|done].
Qed.

Lemma add_child_full h c child :
  (_target_size c <> 0 /\ _target_size c < count h c)%nat ->
  add_child h c child = pm_error MaxChildren.
Proof.
  intros [Hne Hlt]. unfold add_child, count in *.
  destruct (Nat.eqb_spec (_target_size c) 0); [done|].
  by destruct (Nat.ltb_spec (_target_size c)
                 (length (deref h (_children c)))); [|lia].
Qed.

Lemma deref_insert h l kids : deref (<[l := kids]> h) l = kids.
Proof. unfold deref. by rewrite lookup_insert_eq. Qed.

Lemma deref_insert_ne h l l' kids :
  l <> l' -> deref (<[l := kids]> h) l' = deref h l'.
Proof. intros. unfold deref. by rewrite lookup_insert_ne. Qed.

Lemma add_children_ok kids : forall h c,
  (_target_size c = 0 \/ count h c + length kids <= S (_target_size c))%nat ->
  add_children h c kids
  = Ok (match kids with
        | [] => h
        | _ :: _ => <[_children c := get_children h c ++ kids]> h
        end).
Proof.
  induction kids as [|kid rest IH]; intros h c Hsize; [done|].
  simpl. rewrite add_child_ok by (simpl in Hsize; lia). simpl.
  rewrite IH.
  - unfold get_children. rewrite deref_insert.
    destruct rest as [|kid' rest]; [done|].
    by rewrite insert_insert_eq, <- app_assoc.
  - unfold count, get_children in *.
    rewrite deref_insert, length_app. simpl in *. lia.
Qed.

Lemma clear_keeps (key : string) (flags : gmap string pyval) :
  key ∉ Attr.invalid ->
  Attr._clear_invalid_flags flags !! key = flags !! key.
Proof.
  unfold Attr._clear_invalid_flags.
  generalize Attr.invalid as keys. intros keys. revert flags.
  induction keys as [|k keys IH]; intros flags Hnot; [done|].
  apply not_elem_of_cons in Hnot as [Hne Hnot]. simpl.
  rewrite IH by done.
  destruct (has_key flags k); [|done].
  by apply lookup_delete_ne.
Qed.

Lemma not_invalid_uac : "uac" ∉ Attr.invalid.
Proof. apply (bool_decide_unpack _). by vm_compute. Qed.

Lemma not_invalid_usedAsColor : "usedAsColor" ∉ Attr.invalid.
Proof. apply (bool_decide_unpack _). by vm_compute. Qed.

Lemma suffix_of_init name ty kwargs N l :
  suffix_of (Make (Attr.__init__ name ty kwargs) N l)
  = if colored ty kwargs then rgb else xyz.
Proof.
  unfold suffix_of, colored, _flags, attr_type, has_key, Attr.__init__.
  cbn [Attr._flags base Attr.attr_type].
  rewrite (clear_keeps "uac") by apply not_invalid_uac.
  by rewrite (clear_keeps "usedAsColor") by apply not_invalid_usedAsColor.
Qed.

Lemma make_loop_ok self suffix type : forall n k h,
  length (get_children h self) = k ->
  (k + n <= length suffix)%nat ->
  (k + n <= S (_target_size self))%nat ->
  make_loop self suffix type (seq k n) h
  = Ok (match n with
        | O => h
        | S _ =>
            <[_children self :=
                get_children h self
                ++ map (element_attr (Compound.name self) type)
                       (take n (drop k suffix))]> h
        end).
Proof.
  induction n as [|n IH]; intros k h Hk Hsuf Hsize; [done|].
  simpl.
  destruct (lookup_lt_is_Some_2 suffix k) as [sfx Hsfx]; [lia|].
  rewrite Hsfx.
  rewrite add_child_ok by (unfold count, get_children in *; lia).
  simpl. rewrite (IH (S k)).
  - rewrite (drop_S _ _ _ Hsfx). unfold get_children.
    rewrite deref_insert. simpl.
    destruct n as [|n]; [by rewrite take_0|].
    by rewrite insert_insert_eq, <- app_assoc.
  - unfold get_children in *. rewrite deref_insert, length_app. simpl. lia.
  - lia.
  - lia.
Qed.

Lemma child_type_ok ty N c :
  compound_types !! ty = Some N -> attr_type c = ty ->
  exists type, child_type c = Ok type /\
               (ty = "float3" -> type = "float").
Proof.
  intros H%compound_types_inv Hty. unfold child_type. rewrite Hty.
  clear Hty.
  repeat (apply elem_of_cons in H as [H|H];
          [simplify_eq; eexists; split; [reflexivity|];
           intros; by simplify_eq|]).
  by apply elem_of_nil in H.
Qed.

(** The constructor on the auto-generation path. *)
Lemma init_generates h name ty children kwargs N :
  compound_types !! ty = Some N -> (0 < N)%nat ->
  deref h (default default_children children) = [] ->
  exists type,
    (ty = "float3" -> type = "float") /\
    __init__ h name ty children true kwargs
    = Ok (Make (Attr.__init__ name ty kwargs) N
               (default default_children children),
          <[default default_children children :=
              map (element_attr name type)
                  (take N (if colored ty kwargs then rgb else xyz))]> h).
Proof.
  intros HN Hpos Hnil.
  set (l := default default_children children) in *.
  pose (self := Make (Attr.__init__ name ty kwargs) N l).
  destruct (child_type_ok ty N self HN eq_refl) as (type & Htype & Hfloat).
  exists type. split; [done|].
  unfold __init__. rewrite HN. fold l. fold self.
  destruct (Nat.eqb_spec N 0) as [|_]; [lia|].
  cbn [negb andb _children self].
  rewrite Hnil. cbn [length Nat.eqb negb].
  unfold _make_elements. rewrite Htype. cbn [bind].
  assert (Hsuffix : suffix_of self = if colored ty kwargs then rgb else xyz)
    by apply suffix_of_init.
  rewrite Hsuffix.
  assert (Hlen : length (if colored ty kwargs then rgb else xyz) = 3%nat)
    by by destruct (colored ty kwargs).
  apply compound_types_bound in HN.
  rewrite (make_loop_ok self _ type N 0 h).
  - unfold get_children. cbn [_children self bind]. rewrite Hnil.
    destruct N; [lia|]. by rewrite drop_0.
  - unfold get_children. cbn [_children self]. by rewrite Hnil.
  - lia.
  - cbn [_target_size self]. lia.
Qed.

Lemma init_auto_inv h name ty children kwargs c h1 N :
  __init__ h name ty children true kwargs = Ok (c, h1) ->
  compound_types !! ty = Some N -> (0 < N)%nat ->
  deref h (default default_children children) = [].
Proof.
  intros Hinit HN Hpos. unfold __init__ in Hinit. rewrite HN in Hinit.
  destruct (Nat.eqb_spec N 0) as [|_]; [lia|].
  cbn [negb andb _children] in Hinit.
  by destruct (deref h (default default_children children)).
Qed.

Lemma init_refuses h name ty children kwargs N :
  compound_types !! ty = Some N -> (0 < N)%nat ->
  deref h (default default_children children) <> [] ->
  __init__ h name ty children true kwargs
  = pm_error MakeElementsWithChildren.
Proof.
  intros HN Hpos Hkids. unfold __init__. rewrite HN.
  destruct (Nat.eqb_spec N 0) as [|_]; [lia|].
  cbn [negb andb _children].
  by destruct (deref h (default default_children children)).
Qed.

(** Lists in the heap only grow. *)
Lemma add_child_grows h c child h' l :
  add_child h c child = Ok h' -> deref h l `prefix_of` deref h' l.
Proof.
  unfold add_child. destruct (_ && _); [done|]. intros [= <-].
  destruct (decide (_children c = l)) as [<-|Hne].
  - rewrite deref_insert. by apply prefix_app_r.
  - by rewrite deref_insert_ne.
Qed.

Lemma make_loop_grows self suffix type indices : forall h h' l,
  make_loop self suffix type indices h = Ok h' ->
  deref h l `prefix_of` deref h' l.
Proof.
  induction indices as [|i rest IH]; intros h h' l; simpl.
  - by intros [= <-].
  - destruct (suffix !! i); [|done].
    destruct (add_child h self _) as [h0|] eqn:Hadd; [|done]. simpl.
    intros Hrest. etrans; [by eapply add_child_grows|by apply IH].
Qed.

Lemma init_grows h name ty children me kwargs c h' l :
  __init__ h name ty children me kwargs = Ok (c, h') ->
  deref h l `prefix_of` deref h' l.
Proof.
  unfold __init__. destruct (compound_types !! ty); [|done].
  destruct (_ && _); [|by intros [= _ <-]].
  destruct (negb _); [done|].
  unfold _make_elements.
  destruct (child_type _); [|done]. cbn [bind].
  destruct (make_loop _ _ _ _ _) as [h0|] eqn:Hloop; [|done].
  cbn [bind]. intros [= _ <-]. by eapply make_loop_grows.
Qed.

Lemma evolves_grows h h' l :
  evolves h h' -> deref h l `prefix_of` deref h' l.
Proof.
  induction 1 as [h|h h1 h2 self child Hadd _ IH
                  |h h1 h2 name ty children me kwargs self Hinit _ IH].
  - done.
  - etrans; [by eapply add_child_grows|done].
  - etrans; [by eapply init_grows|done].
Qed.

End CompoundFacts.

(** C7.  A compound made by the constructor, of a type whose entry in
    [compound_types] is [N]: when [N > 0], [validate] succeeds if the
    compound has exactly [N] children and fails with the
    required-number-of-children error otherwise; for the type
    ['compound'] (entry 0) it succeeds exactly when there is at least one
    child. *)
Theorem validate_checks_arity h name ty children make_elements kwargs c h1 :
  CompoundOps.__init__ h name ty children make_elements kwargs = Ok (c, h1) ->
  forall (h' : heap) (N : nat),
    CompoundOps.compound_types !! ty = Some N ->
    ((0 < N)%nat ->
     (CompoundOps.count h' c = N -> CompoundOps.validate h' c = Ok tt) /\
     (CompoundOps.count h' c <> N ->
      CompoundOps.validate h' c = pm_error (WrongChildCount ty))) /\
    (ty = "compound" ->
     (CompoundOps.validate h' c = Ok tt <-> (1 <= CompoundOps.count h' c)%nat) /\
     (CompoundOps.count h' c = 0%nat ->
      CompoundOps.validate h' c = pm_error (WrongChildCount ty))).
Proof.
  intros Hinit h' N HN.
  apply init_fields in Hinit as (_ & Hty & _ & Hsize & _).
  assert (Compound._target_size c = N) as Hts by congruence.
  unfold CompoundOps.validate, CompoundOps.valid_size. rewrite Hty, Hts.
  split.
  - intros Hpos.
    destruct (Nat.eqb_spec N 0) as [|_]; [lia|].
    split; intros Hc.
    + by rewrite Hc, Nat.eqb_refl.
    + by destruct (Nat.eqb_spec (CompoundOps.count h' c) N).
  - intros ->. assert (N = 0%nat) as -> by (vm_compute in HN; congruence).
    simpl. destruct (CompoundOps.count h' c) as [|n]; simpl.
    + split; [split; [done|lia]|done].
    + split; [split; [lia|done]|done].
Qed.

Lemma validate_checks_arity_witness :
  exists c h1,
    CompoundOps.__init__ ∅ "v" "float3" None true ∅ = Ok (c, h1) /\
    CompoundOps.validate h1 c = Ok tt.
Proof.
  pose (c := Compound.Make (Attr.Make "v" "float3" ∅) 3 0).
  pose (h1 := {[0%nat := [Runs.element_attr "v" "float" "X";
                          Runs.element_attr "v" "float" "Y";
                          Runs.element_attr "v" "float" "Z"]]} : heap).
  assert (Hinit : CompoundOps.__init__ ∅ "v" "float3" None true ∅ = Ok (c, h1))
    by (vm_compute; reflexivity).
  exists c, h1. split; [exact Hinit|].
  destruct (validate_checks_arity _ _ _ _ _ _ _ _ Hinit h1 3%nat eq_refl)
    as [Hfixed _].
  apply Hfixed; [lia | reflexivity].
Defined.

(** C10.  [add_child] fails, with the maximum-children error, exactly when
    the compound has a fixed arity and already holds more children than
    that.  So on a compound of arity [N > 0] that holds no child, [N + 1]
    calls in a row all return and leave [N + 1] children, and the call
    after them fails. *)
Theorem add_child_guard_off_by_one :
  (forall h c child,
     CompoundOps.add_child h c child = pm_error MaxChildren <->
     (Compound._target_size c <> 0 /\
      Compound._target_size c < CompoundOps.count h c)%nat) /\
  (forall h c kids (N : nat),
     Compound._target_size c = N -> (0 < N)%nat ->
     CompoundOps.count h c = 0%nat ->
     length kids = S N ->
     exists h',
       Runs.add_children h c kids = Ok h' /\
       CompoundOps.get_children h' c = kids /\
       CompoundOps.count h' c = S N /\
       forall extra,
         CompoundOps.add_child h' c extra = pm_error MaxChildren).
Proof.
  split.
  - intros h c child. split; [|apply add_child_full].
    unfold CompoundOps.add_child, CompoundOps.count.
    destruct (Nat.eqb_spec (Compound._target_size c) 0); [done|].
    destruct (Nat.ltb_spec (Compound._target_size c)
                (length (deref h (Compound._children c)))); [done|done].
  - intros h c kids N HN Hpos Hcount Hlen.
    assert (Hnil : CompoundOps.get_children h c = []).
    { unfold CompoundOps.count, CompoundOps.get_children in *.
      by apply nil_length_inv. }
    destruct kids as [|kid rest]; [done|].
    eexists. split; [apply add_children_ok; lia|].
    rewrite Hnil. simpl.
    unfold CompoundOps.get_children, CompoundOps.count.
    rewrite deref_insert.
    split; [done|]. split; [done|].
    intros extra. apply add_child_full.
    unfold CompoundOps.count. rewrite deref_insert. lia.
Qed.

Lemma add_child_guard_off_by_one_witness :
  exists c h0 h',
    CompoundOps.__init__ ({[7%nat := []]} : heap) "uv" "float2" (Some 7%nat)
                         false ∅ = Ok (c, h0) /\
    Runs.add_children h0 c
      [Runs.element_attr "uv" "float" "X"; Runs.element_attr "uv" "float" "Y";
       Runs.element_attr "uv" "float" "Z"] = Ok h' /\
    CompoundOps.count h' c = 3%nat /\
    forall extra, CompoundOps.add_child h' c extra = pm_error MaxChildren.
Proof.
  eexists _, _. 
  destruct (proj2 add_child_guard_off_by_one ({[7%nat := []]} : heap)
              (Compound.Make (Attr.Make "uv" "float2" ∅) 2 7)
              [Runs.element_attr "uv" "float" "X";
               Runs.element_attr "uv" "float" "Y";
               Runs.element_attr "uv" "float" "Z"] 2%nat
              eq_refl ltac:(lia) eq_refl eq_refl)
    as (h' & Hrun & _ & Hcount & Hfull).
  exists h'. split; [vm_compute; reflexivity|]. by split.
Defined.

(** C8, as amended.  A compound of a type of arity [N > 0], constructed
    with auto-generation on an empty children list, holds exactly the
    attributes named [name] followed by the first [N] letters of X, Y, Z,
    or of R, G, B when the [usedAsColor] or [uac] keyword is given or the
    type is [spectrum] or [reflectance].  So [float3] without a color mark
    gets X, Y, Z of type [float]; a type of arity 3 with a color mark gets
    R, G, B; a type of arity 2 with a color mark gets R, G. *)
Theorem generated_children h name ty children kwargs N :
  CompoundOps.compound_types !! ty = Some N -> (0 < N)%nat ->
  deref h (default CompoundOps.default_children children) = [] ->
  exists c h1,
    CompoundOps.__init__ h name ty children true kwargs = Ok (c, h1) /\
    Runs.descriptor_name <$> CompoundOps.get_children h1 c
    = (fun sfx => name +:+ sfx)
        <$> take N (if Runs.colored ty kwargs
                    then CompoundOps.rgb else CompoundOps.xyz) /\
    (ty = "float3" -> Runs.colored ty kwargs = false ->
     CompoundOps.get_children h1 c
     = [Runs.element_attr name "float" "X";
        Runs.element_attr name "float" "Y";
        Runs.element_attr name "float" "Z"]) /\
    (N = 3%nat -> Runs.colored ty kwargs = true ->
     Runs.descriptor_name <$> CompoundOps.get_children h1 c
     = [name +:+ "R"; name +:+ "G"; name +:+ "B"]) /\
    (N = 2%nat -> Runs.colored ty kwargs = true ->
     Runs.descriptor_name <$> CompoundOps.get_children h1 c
     = [name +:+ "R"; name +:+ "G"]).
Proof.
  intros HN Hpos Hnil.
  destruct (init_generates h name ty children kwargs N HN Hpos Hnil)
    as (type & Hfloat & Hinit).
  eexists _, _. split; [exact Hinit|].
  unfold CompoundOps.get_children. cbn [Compound._children].
  rewrite deref_insert.
  assert (Hnames : forall l : list string,
    Runs.descriptor_name <$> (Runs.element_attr name type <$> l)
    = (fun sfx => name +:+ sfx) <$> l).
  { intros l. rewrite <- list_fmap_compose. by apply list_fmap_ext. }
  rewrite Hnames.
  split; [done|]. split; [|split].
  - intros -> Hc. rewrite Hc, (Hfloat eq_refl).
    by assert (N = 3%nat) as -> by (vm_compute in HN; congruence).
  - by intros -> ->.
  - by intros -> ->.
Qed.

Lemma generated_children_witness :
  exists c h1,
    CompoundOps.__init__ ∅ "space" "float3" None true ∅ = Ok (c, h1) /\
    CompoundOps.get_children h1 c
    = [Runs.element_attr "space" "float" "X";
       Runs.element_attr "space" "float" "Y";
       Runs.element_attr "space" "float" "Z"].
Proof.
  destruct (generated_children ∅ "space" "float3" None ∅ 3 eq_refl
              ltac:(lia) eq_refl)
    as (c & h1 & Hinit & _ & Hxyz & _).
  exists c, h1. split; [exact Hinit|]. by apply Hxyz.
Defined.

(** C8, refuted as stated: a [float2] marked as a color with [uac] gets
    the two children R and G, not R, G and B. *)
Lemma color_children_counterexample :
  exists c h1,
    CompoundOps.__init__ ∅ "c" "float2" None true {["uac" := PyBool true]}
    = Ok (c, h1) /\
    Runs.colored "float2" {["uac" := PyBool true]} = true /\
    Runs.descriptor_name <$> CompoundOps.get_children h1 c = ["cR"; "cG"] /\
    Runs.descriptor_name <$> CompoundOps.get_children h1 c
    <> ["cR"; "cG"; "cB"].
Proof.
  eexists _, _. split; [vm_compute; reflexivity|].
  split; [by vm_compute|]. split; [by vm_compute|]. by vm_compute.
Qed.

(** C9, as amended.  A compound constructed without a [children] argument
    holds the one default list, whatever [make_elements] is.  Once a
    compound of fixed arity has been constructed that way with
    [make_elements] true, its generated children stay in that list: every
    compound constructed later without [children] sees them, and every
    later construction of a compound of fixed arity without [children]
    and with [make_elements] true fails with the error that children and
    auto-generation exclude each other. *)
Theorem default_children_shared :
  (forall h name ty make_elements kwargs c h1,
     CompoundOps.__init__ h name ty None make_elements kwargs = Ok (c, h1) ->
     Compound._children c = CompoundOps.default_children) /\
  (forall h name ty kwargs c h1 (N : nat),
     CompoundOps.__init__ h name ty None true kwargs = Ok (c, h1) ->
     CompoundOps.compound_types !! ty = Some N -> (0 < N)%nat ->
     CompoundOps.get_children h1 c <> [] /\
     forall h2, Runs.evolves h1 h2 ->
       (forall name' ty' make_elements' kwargs' c' h3,
          CompoundOps.__init__ h2 name' ty' None make_elements' kwargs'
          = Ok (c', h3) ->
          CompoundOps.get_children h1 c
            `prefix_of` CompoundOps.get_children h3 c') /\
       (forall name' ty' kwargs' (N' : nat),
          CompoundOps.compound_types !! ty' = Some N' -> (0 < N')%nat ->
          CompoundOps.__init__ h2 name' ty' None true kwargs'
          = pm_error MakeElementsWithChildren)).
Proof.
  split.
  - intros h name ty me kwargs c h1 Hinit.
    by apply init_fields in Hinit as (_ & _ & Hc & _).
  - intros h name ty kwargs c h1 N Hinit HN Hpos.
    pose proof (init_auto_inv _ _ _ _ _ _ _ _ Hinit HN Hpos) as Hnil.
    destruct (init_generates h name ty None kwargs N HN Hpos Hnil)
      as (type & _ & Hgen).
    rewrite Hgen in Hinit. injection Hinit as <- <-.
    unfold CompoundOps.get_children. cbn [Compound._children default].
    rewrite deref_insert.
    assert (Hkids :
      Runs.element_attr name type
      <$> take N (if Runs.colored ty kwargs
                  then CompoundOps.rgb else CompoundOps.xyz) <> []).
    { destruct N; [lia|]. by destruct (Runs.colored ty kwargs). }
    split; [done|].
    intros h2 Hev.
    pose proof (evolves_grows _ _ CompoundOps.default_children Hev) as Hgrow.
    rewrite deref_insert in Hgrow.
    split.
    + intros name' ty' me' kwargs' c' h3 Hinit'.
      pose proof (init_grows _ _ _ _ _ _ _ _ CompoundOps.default_children
                    Hinit') as Hgrow'.
      apply init_fields in Hinit' as (_ & _ & -> & _).
      cbn [default]. by etrans.
    + intros name' ty' kwargs' N' HN' Hpos'.
      apply init_refuses with N'; [done..|].
      cbn [default]. intros Hempty. rewrite Hempty in Hgrow.
      by apply prefix_nil_inv in Hgrow.
Qed.

Lemma default_children_shared_witness :
  exists c h1,
    CompoundOps.__init__ ∅ "a" "float3" None true ∅ = Ok (c, h1) /\
    CompoundOps.__init__ h1 "b" "float3" None true ∅
    = pm_error MakeElementsWithChildren.
Proof.
  pose (c := Compound.Make (Attr.Make "a" "float3" ∅) 3 0).
  pose (h1 := {[0%nat := [Runs.element_attr "a" "float" "X";
                          Runs.element_attr "a" "float" "Y";
                          Runs.element_attr "a" "float" "Z"]]} : heap).
  assert (Hinit : CompoundOps.__init__ ∅ "a" "float3" None true ∅ = Ok (c, h1))
    by (vm_compute; reflexivity).
  exists c, h1. split; [exact Hinit|].
  destruct (proj2 default_children_shared _ _ _ _ _ _ 3%nat Hinit eq_refl
              ltac:(lia)) as [_ Hlater].
  destruct (Hlater h1 (Runs.evolves_refl h1)) as [_ Hfails].
  apply (Hfails "b" "float3" ∅ 3%nat eq_refl). lia.
Defined.

(** C9, refuted as stated: after a [float3] compound constructed without
    [children] and with [make_elements] false, the default list is still
    empty, and a second [float3] compound constructed with neither
    argument is built without any error. *)
Lemma default_children_counterexample :
  exists c1 h1 c2 h2,
    CompoundOps.__init__ ∅ "a" "float3" None false ∅ = Ok (c1, h1) /\
    CompoundOps.get_children h1 c1 = [] /\
    CompoundOps.__init__ h1 "b" "float3" None true ∅ = Ok (c2, h2) /\
    CompoundOps.__init__ h1 "b" "float3" None true ∅
    <> pm_error MakeElementsWithChildren.
Proof.
  eexists _, _, _, _. split; [vm_compute; reflexivity|].
  split; [by vm_compute|]. split; [vm_compute; reflexivity|by vm_compute].
Qed.

(** ** The index of a new record *)

Section IndexFacts.
Import BaseData.

Lemma first_hole_seqZ indices (k : nat) : forall m,
  0 <= m ->
  let r := first_hole indices (seqZ m (Z.of_nat k)) in
  ((r = -1 /\ forall i, m <= i < m + Z.of_nat k -> i ∈ indices) \/
   (m <= r < m + Z.of_nat k /\ (r ∉ indices) /\
    forall i, m <= i < r -> i ∈ indices)).
Proof.
  induction k as [|k IH]; intros m Hm; cbn zeta.
  - left. split; [done|]. intros i Hi. lia.
  - rewrite seqZ_cons by lia. cbn [first_hole].
    replace (Z.pred (Z.of_nat (S k))) with (Z.of_nat k) by lia.
    destruct (bool_decide_reflect (m ∈ indices)) as [Hin|Hout].
    + destruct (IH (Z.succ m) ltac:(lia)) as [[Hr Hall]|(Hr & Hfree & Hall)].
      * left. split; [done|]. intros i Hi.
        destruct (decide (i = m)) as [->|]; [done|]. apply Hall. lia.
      * right. split; [lia|]. split; [done|]. intros i Hi.
        destruct (decide (i = m)) as [->|]; [done|]. apply Hall. lia.
    + right. split; [lia|]. split; [done|]. intros i Hi. lia.
Qed.

Lemma last_elem_of (l : list Z) d : l <> [] -> List.last l d ∈ l.
Proof.
  induction l as [|x [|y l] IH]; intros Hne; [done|by left|].
  right. by apply IH.
Qed.

Lemma sorted_last_max (l : list Z) d x :
  StronglySorted Z.le l -> x ∈ l -> x <= List.last l d.
Proof.
  induction 1 as [|y l Hsorted IH Hall]; intros Hin.
  - by apply elem_of_nil in Hin.
  - apply elem_of_cons in Hin as [->|Hin].
    + destruct l as [|z l]; [simpl; lia|].
      rewrite Forall_forall in Hall.
      apply (Hall (List.last (z :: l) d)).
      by apply last_elem_of.
    + destruct l as [|z l]; [by apply elem_of_nil in Hin|].
      by apply IH.
Qed.

(** The index chosen from a sorted list of the indices in use. *)
Lemma next_index_sorted (indices : list Z) top :
  StronglySorted Z.le indices ->
  (forall i, i ∈ indices -> 0 <= i) ->
  top ∈ indices -> (forall i, i ∈ indices -> i <= top) ->
  let idx := next_index indices in
  ((exists i, 0 <= i < top /\ i ∉ indices) ->
   0 <= idx < top /\ (idx ∉ indices) /\
   forall j, 0 <= j < idx -> j ∈ indices) /\
  ((forall i, 0 <= i < top -> i ∈ indices) -> idx = top + 1).
Proof.
  intros Hsorted Hpos Htop Hmax. cbn zeta.
  assert (Hlast : List.last indices 0 = top).
  { apply Z.le_antisymm.
    - apply Hmax, last_elem_of. intros ->. by apply elem_of_nil in Htop.
    - by apply sorted_last_max. }
  unfold next_index.
  destruct indices as [|i0 rest]; [by apply elem_of_nil in Htop|].
  rewrite Hlast. unfold Py.range.
  pose proof (first_hole_seqZ (i0 :: rest) (Z.to_nat top) 0 ltac:(lia)) as H.
  cbn zeta in H. rewrite Z2Nat.id in H by by apply Hpos.
  destruct H as [[Hr Hall]|(Hr & Hfree & Hall)].
  - rewrite Hr. cbn [Z.eqb]. split; [|done].
    intros (i & Hi & Hout). destruct Hout. apply Hall. lia.
  - destruct (Z.eqb_spec (first_hole (i0 :: rest) (seqZ 0 top)) (-1));
      [lia|].
    split; [by intros _; split; [lia|]|].
    intros Hfull. destruct Hfree. apply Hfull. lia.
Qed.

(** The index chosen is not in use. *)
Lemma next_index_fresh (indices : list Z) :
  StronglySorted Z.le indices ->
  (forall i, i ∈ indices -> 0 <= i) ->
  next_index indices ∉ indices.
Proof.
  intros Hsorted Hpos.
  destruct indices as [|i0 rest]; [by intros H%elem_of_nil|].
  set (indices := i0 :: rest) in *.
  set (top := List.last indices 0).
  assert (Htop : top ∈ indices) by by apply last_elem_of.
  assert (Hmax : forall i, i ∈ indices -> i <= top)
    by (intros i Hi; by apply sorted_last_max).
  unfold next_index. fold indices. cbv iota. cbv zeta. fold top.
  unfold Py.range.
  pose proof (first_hole_seqZ indices (Z.to_nat top) 0 ltac:(lia)) as H.
  cbn zeta in H. rewrite Z2Nat.id in H by by apply Hpos.
  destruct H as [[Hr Hall]|(Hr & Hfree & Hall)].
  - rewrite Hr. cbn [Z.eqb]. intros Hin. specialize (Hmax _ Hin). lia.
  - by destruct (Z.eqb_spec (first_hole indices (seqZ 0 top)) (-1)); [lia|].
Qed.

End IndexFacts.

(** ** Strings and versions *)

Section StringFacts.

Lemma split_plain sep s :
  Py.contains sep s = false -> Py.split sep s = [s].
Proof.
  induction s as [|c s IH]; [done|]. simpl.
  rewrite Ascii.eqb_sym.
  destruct (Ascii.eqb sep c); [done|]. simpl.
  intros H. by rewrite IH.
Qed.

Lemma split_at sep a b :
  Py.contains sep a = false ->
  Py.split sep (a +:+ String sep b) = a :: Py.split sep b.
Proof.
  induction a as [|c a IH]; simpl.
  - by rewrite Ascii.eqb_refl.
  - rewrite Ascii.eqb_sym.
    destruct (Ascii.eqb sep c); [done|]. simpl.
    intros H. by rewrite IH.
Qed.

Lemma split_parts sep s w :
  w ∈ Py.split sep s -> Py.contains sep w = false.
Proof.
  revert w. induction s as [|c s IH]; intros w; simpl.
  - intros ->%list_elem_of_singleton. done.
  - destruct (Ascii.eqb_spec c sep) as [->|Hne].
    + intros [->|Hin]%elem_of_cons; [done|by apply IH].
    + destruct (Py.split sep s) as [|w0 ws] eqn:Hs.
      * intros ->%list_elem_of_singleton. simpl.
        by destruct (Ascii.eqb_spec c sep).
      * intros [->|Hin]%elem_of_cons.
        -- simpl. destruct (Ascii.eqb_spec c sep); [done|].
           apply IH. by left.
        -- apply IH. by right.
Qed.

Lemma split_join sep ws :
  ws <> [] ->
  (forall w, w ∈ ws -> Py.contains sep w = false) ->
  Py.split sep (Py.join (String sep "") ws) = ws.
Proof.
  induction ws as [|w ws IH]; intros Hne Hplain; [done|].
  destruct ws as [|w' ws].
  - simpl. apply split_plain, Hplain. by left.
  - change (Py.join (String sep "") (w :: w' :: ws))
      with (w +:+ String sep "" +:+ Py.join (String sep "") (w' :: ws)).
    change (String sep "" +:+ ?x) with (String sep x).
    rewrite split_at by (apply Hplain; by left).
    rewrite IH; [done|done|].
    intros w0 Hw0. apply Hplain. by right.
Qed.

(** [str] writes digits, after a minus sign for a negative number. *)
Lemma uint_digits c d :
  Ascii.eqb c ":" || Ascii.eqb c "." || Ascii.eqb c "-" || Ascii.eqb c "+"
  = true ->
  Py.contains c (NilEmpty.string_of_uint d) = false.
Proof.
  intros Hc.
  induction d as [|d IH|d IH|d IH|d IH|d IH|d IH|d IH|d IH|d IH|d IH];
    [done|simpl; rewrite IH, orb_false_r..];
    repeat (apply orb_prop in Hc as [Hc|Hc]);
    apply Ascii.eqb_eq in Hc; by subst c.
Qed.

Lemma str_plain c n :
  Ascii.eqb c ":" || Ascii.eqb c "." = true ->
  Py.contains c (Py.str n) = false.
Proof.
  intros Hc.
  assert (Hd : forall d, Py.contains c (NilZero.string_of_uint d) = false).
  { intros d. destruct d; try (apply uint_digits; by rewrite Hc).
    apply orb_prop in Hc as [Hc|Hc]; apply Ascii.eqb_eq in Hc; by subst c. }
  unfold Py.str. destruct n as [|p|p]; cbn [Z.to_int NilZero.string_of_int].
  - apply Hd.
  - apply Hd.
  - cbn [Py.contains]. rewrite Hd.
    apply orb_prop in Hc as [Hc|Hc]; apply Ascii.eqb_eq in Hc; by subst c.
Qed.

Lemma grouped_uint d :
  Py.grouped true (NilEmpty.string_of_uint d)
  = Some (NilEmpty.string_of_uint d).
Proof. induction d; [done|simpl; by rewrite IHd..]. Qed.

Lemma rstrip_uint d :
  Py.rstrip (NilEmpty.string_of_uint d) = NilEmpty.string_of_uint d.
Proof.
  induction d; [done|simpl; rewrite IHd;
                     by destruct (NilEmpty.string_of_uint d)..].
Qed.

Lemma digits_uint d :
  d <> Decimal.Nil ->
  Py.digits (NilZero.string_of_uint d) = Ok (Z.of_uint d).
Proof.
  intros Hd. unfold Py.digits.
  assert (Hgrouped : Py.grouped false (NilZero.string_of_uint d)
                     = Some (NilZero.string_of_uint d)).
  { destruct d; [done|..];
      cbn [NilZero.string_of_uint NilEmpty.string_of_uint Py.grouped];
      by rewrite grouped_uint. }
  by rewrite Hgrouped, NilZero.usu.
Qed.

Lemma lstrip_uint d :
  Py.lstrip (NilEmpty.string_of_uint d) = NilEmpty.string_of_uint d.
Proof. by destruct d. Qed.

Lemma strip_uint d :
  Py.rstrip (Py.lstrip (NilZero.string_of_uint d)) = NilZero.string_of_uint d.
Proof.
  destruct d; [done|..]; cbn [NilZero.string_of_uint];
    by rewrite lstrip_uint, rstrip_uint.
Qed.

Lemma int_unsigned d :
  d <> Decimal.Nil ->
  Py.int (NilZero.string_of_uint d) = Ok (Z.of_uint d).
Proof.
  intros Hd. rewrite <- (digits_uint d Hd).
  unfold Py.int. rewrite strip_uint.
  destruct d; done.
Qed.

Lemma int_str n : Py.int (Py.str n) = Ok n.
Proof.
  unfold Py.str. destruct n as [|p|p]; [done| |].
  - cbn [Z.to_int NilZero.string_of_int].
    rewrite int_unsigned by apply DecimalPos.Unsigned.to_uint_nonnil.
    unfold Z.of_uint. by rewrite DecimalPos.Unsigned.of_to.
  - cbn [Z.to_int NilZero.string_of_int]. unfold Py.int.
    cbn [Py.lstrip]. change (Py.isspace "-") with false. cbv iota.
    cbn [Py.rstrip].
    pose proof (strip_uint (Pos.to_uint p)) as Hstrip.
    assert (Hl : Py.lstrip (NilZero.string_of_uint (Pos.to_uint p))
                 = NilZero.string_of_uint (Pos.to_uint p))
      by by destruct (Pos.to_uint p).
    rewrite Hl in Hstrip. rewrite Hstrip.
    assert (Hne : NilZero.string_of_uint (Pos.to_uint p) <> "").
    { pose proof (DecimalPos.Unsigned.to_uint_nonnil p) as Hnil.
      by destruct (Pos.to_uint p). }
    destruct (NilZero.string_of_uint (Pos.to_uint p)) as [|c rest] eqn:Hs;
      [done|].
    rewrite Ascii.eqb_refl. rewrite <- Hs.
    rewrite digits_uint by apply DecimalPos.Unsigned.to_uint_nonnil.
    unfold Z.of_uint. by rewrite DecimalPos.Unsigned.of_to.
Qed.

Lemma map_int_str (v : list Z) : Py.map_int (Py.str <$> v) = Ok v.
Proof.
  induction v as [|n v IH]; [done|].
  rewrite fmap_cons. cbn [Py.map_int]. rewrite int_str. cbn [bind].
  by rewrite IH.
Qed.

(** Python's order on tuples is the lexicographic one. *)
Lemma tuple_lt_lex a : forall b, Py.tuple_lt a b = true <-> lex_lt a b.
Proof.
  induction a as [|x a IH]; intros [|y b]; simpl.
  - split; [done|inversion 1].
  - split; [constructor|done].
  - split; [done|inversion 1].
  - destruct (Z.eqb_spec x y) as [->|Hne].
    + rewrite IH. split; [by constructor|].
      inversion 1; subst; [lia|done].
    + rewrite Z.ltb_lt. split; [by constructor|].
      inversion 1; subst; [done|done].
Qed.

End StringFacts.

(** ** Records *)

Section RecordFacts.
Import Host.

Lemma mbind_ok {A B} (m : M A) (k : A -> M B) s a s' :
  m s = (Ok a, s') -> mbind m k s = k a s'.
Proof. intros H. unfold mbind. by rewrite H. Qed.

Lemma mbind_raise {A B} (m : M A) (k : A -> M B) s e s' :
  m s = (Raise e, s') -> mbind m k s = (Raise e, s').
Proof. intros H. unfold mbind. by rewrite H. Qed.

Lemma mbind_inv {A B} (m : M A) (k : A -> M B) s b s' :
  mbind m k s = (Ok b, s') ->
  exists a s1, m s = (Ok a, s1) /\ k a s1 = (Ok b, s').
Proof.
  unfold mbind. destruct (m s) as [[a|e] s1]; [|done]. by exists a, s1.
Qed.

Lemma update_plug_spec e f (s : scene) nd p :
  s !! owner e = Some nd -> f (multi nd !! index e) = Ok p ->
  update_plug e f s
  = (Ok tt, <[owner e := Node (attrs nd) (<[index e := p]> (multi nd))]> s).
Proof. intros Hs Hf. unfold update_plug. by rewrite Hs, Hf. Qed.

Lemma get_spec e (s : scene) nd :
  s !! owner e = Some nd ->
  get e s = (Ok (multi nd !! index e ≫= value), s).
Proof. intros Hs. unfold get. by rewrite Hs. Qed.

Lemma set_version_spec (r : Record_.t) (v : list Z) (s : scene) nd :
  s !! owner (Record_.attr r) = Some nd ->
  Record_.set_version r v s
  = (Ok (Record_.Make (Record_.attr r) (Record_.name r) v),
     <[owner (Record_.attr r) :=
         Node (attrs nd)
              (<[index (Record_.attr r) :=
                   Plug (Some (Record_.name r +:+ ":"
                               +:+ Py.join "." (Py.str <$> v))) true]>
                 (multi nd))]> s).
Proof.
  intros Hs. unfold Record_.set_version.
  set (e := Record_.attr r) in *.
  erewrite mbind_ok; [|by eapply update_plug_spec].
  erewrite mbind_ok;
    [|eapply update_plug_spec;
      [apply lookup_insert_eq|cbn [multi]; by rewrite lookup_insert_eq]].
  erewrite mbind_ok;
    [|eapply update_plug_spec; [apply lookup_insert_eq|done]].
  unfold ret. cbn [attrs multi]. 
  rewrite !insert_insert_eq. cbn [value option_bind mbind]. 
  by rewrite lookup_insert_eq.
Qed.

Lemma contains_app c a b :
  Py.contains c (a +:+ b) = Py.contains c a || Py.contains c b.
Proof.
  induction a as [|x a IH]; [done|]. simpl. by rewrite IH, orb_assoc.
Qed.

Lemma join_plain c sep ws :
  Py.contains c sep = false ->
  (forall w, w ∈ ws -> Py.contains c w = false) ->
  Py.contains c (Py.join sep ws) = false.
Proof.
  intros Hsep. induction ws as [|w ws IH]; intros Hws; [done|].
  destruct ws as [|w' ws]; [apply Hws; by left|].
  change (Py.join sep (w :: w' :: ws))
    with (w +:+ sep +:+ Py.join sep (w' :: ws)).
  rewrite !contains_app, Hsep, (Hws w) by (by left).
  rewrite IH; [done|].
  intros w0 Hw0. apply Hws. by right.
Qed.

(** Decoding an element that holds an encoded name and version. *)
Lemma init_decodes e (s : scene) nd name (v : list Z) :
  s !! owner e = Some nd ->
  multi nd !! index e ≫= value
  = Some (name +:+ ":" +:+ Py.join "." (Py.str <$> v)) ->
  Py.contains ":" name = false ->
  v <> [] ->
  Record_.__init__ e s = (Ok (Record_.Make e name v), s).
Proof.
  intros Hs Htext Hname Hv. unfold Record_.__init__.
  erewrite mbind_ok; [|by apply get_spec]. rewrite Htext.
  assert (Hplain : forall c,
            Ascii.eqb c ":" || Ascii.eqb c "." = true ->
            forall w, w ∈ Py.str <$> v -> Py.contains c w = false).
  { intros c Hc w (n & -> & _)%list_elem_of_fmap. by apply str_plain. }
  change (":" +:+ ?x) with (String ":"%char x).
  rewrite split_at by done.
  rewrite split_plain by (apply join_plain; [done|by apply Hplain]).
  unfold lift, mbind. cbn [Py.unpack2].
  change "." with (String "."%char "").
  rewrite split_join; [|by destruct v|by apply Hplain].
  by rewrite map_int_str.
Qed.

(** A record object carries a name without a colon. *)
Lemma init_name_plain e (s0 s1 : scene) r :
  Record_.__init__ e s0 = (Ok r, s1) ->
  Record_.attr r = e /\ Py.contains ":" (Record_.name r) = false.
Proof.
  unfold Record_.__init__, mbind, get, lift, ret, raise.
  destruct (s0 !! owner e) as [nd|]; [|done].
  destruct (multi nd !! index e ≫= value) as [text|]; [|done].
  pose proof (split_parts ":" text) as Hparts.
  destruct (Py.split ":" text) as [|name [|ver [|x rest]]]; try done.
  cbn [Py.unpack2].
  destruct (Py.map_int _); [|done].
  intros [= <- _]. split; [done|]. apply Hparts. by left.
Qed.

End RecordFacts.

(** ** Effects of the operations on the scene *)

Section EffectFacts.
Import Host Effects BaseData.

Lemma reads_ret {A} (a : A) : reads (ret a).
Proof. done. Qed.

Lemma reads_raise {A} e : reads (raise (A := A) e).
Proof. done. Qed.

Lemma reads_lift {A} (r : result A) : reads (lift r).
Proof. done. Qed.

Lemma reads_bind {A B} (m : M A) (k : A -> M B) :
  reads m -> (forall a, reads (k a)) -> reads (mbind m k).
Proof.
  intros Hm Hk s. unfold mbind. specialize (Hm s).
  destruct (m s) as [[a|e] s']; simpl in *; subst; [apply Hk|done].
Qed.

Lemma reads_objExists n : reads (objExists n).
Proof. done. Qed.

Lemma reads_hasAttr n a : reads (hasAttr n a).
Proof. intros s. unfold hasAttr. by destruct (s !! n). Qed.

Lemma reads_attr n a : reads (attr n a).
Proof.
  intros s. unfold attr. destruct (s !! n); [|done]. by destruct (bool_decide _).
Qed.

Lemma attr_inv n a (s s' : scene) x :
  attr n a s = (Ok x, s') -> has_attr s' n a.
Proof.
  unfold attr. destruct (s !! n) as [nd|] eqn:Hs; [|done].
  destruct (bool_decide_reflect (a ∈ names nd)); [|done].
  intros [= _ <-]. by exists nd.
Qed.

Lemma reads_getArrayIndices n : reads (getArrayIndices n).
Proof. intros s. unfold getArrayIndices. by destruct (s !! n). Qed.

Lemma reads_get e : reads (get e).
Proof. intros s. unfold get. by destruct (s !! owner e). Qed.

Lemma reads_record_init e : reads (Record_.__init__ e).
Proof.
  apply reads_bind; [apply reads_get|]. intros [text|]; [|apply reads_raise].
  apply reads_bind; [apply reads_lift|]. intros [name ver].
  apply reads_bind; [apply reads_lift|]. intros v. apply reads_ret.
Qed.

Lemma reads_collect_conflicts node attr_names :
  reads (collect_conflicts node attr_names).
Proof.
  induction attr_names as [|a rest IH]; [apply reads_ret|].
  apply reads_bind; [apply reads_hasAttr|]. intros found.
  apply reads_bind; [apply IH|]. intros conflicts. apply reads_ret.
Qed.

Lemma reads_collect_record_names records indices :
  reads (collect_record_names records indices).
Proof.
  induction indices as [|i rest IH]; [apply reads_ret|].
  apply reads_bind; [apply reads_record_init|]. intros record.
  apply reads_bind; [apply IH|]. intros record_names. apply reads_ret.
Qed.

Lemma reads_scan_records records data_name indices :
  reads (scan_records records data_name indices).
Proof.
  induction indices as [|i rest IH]; [apply reads_ret|].
  apply reads_bind; [apply reads_get|]. intros v. cbn beta.
  destruct (blank v); [apply IH|].
  apply reads_bind; [apply reads_lift|]. intros [name ver].
  destruct (bool_decide _); [|apply IH].
  apply reads_bind; [apply reads_record_init|]. intros found. apply reads_ret.
Qed.

Lemma reads_the_node self : reads (the_node self).
Proof. unfold the_node. destruct (_node self); [apply reads_ret|apply reads_raise]. Qed.

Lemma reads_get_records node : reads (_get_records node false).
Proof.
  apply reads_bind; [apply reads_objExists|]. intros alive.
  destruct (negb alive); [apply reads_raise|].
  apply reads_bind; [apply reads_hasAttr|]. intros has_records.
  rewrite andb_false_r.
  apply reads_bind; [apply reads_ret|]. intros [|]; [|apply reads_ret].
  apply reads_bind; [apply reads_attr|]. intros _. apply reads_ret.
Qed.

Lemma reads_get_record c node : reads (get_record c node).
Proof.
  apply reads_bind; [apply reads_get_records|]. intros [r|]; [|apply reads_ret].
  apply reads_bind; [apply reads_getArrayIndices|]. intros indices.
  apply reads_scan_records.
Qed.

Lemma reads_find_attr_conflicts self : reads (_find_attr_conflicts self).
Proof.
  apply reads_bind; [apply reads_lift|]. intros attr_names.
  apply reads_bind; [apply reads_the_node|]. intros node.
  apply reads_bind; [apply reads_collect_conflicts|].
  intros [|c conflicts]; [apply reads_ret|].
  destruct (_records self) as [r|]; [|apply reads_raise].
  apply reads_bind; [apply reads_getArrayIndices|]. intros indices.
  apply reads_bind; [apply reads_collect_record_names|]. intros names.
  apply reads_raise.
Qed.

(** What [reads] says about one run. *)
Lemma reads_run {A} (m : M A) s r s' : reads m -> m s = (r, s') -> s' = s.
Proof. intros Hm Hrun. specialize (Hm s). by rewrite Hrun in Hm. Qed.

(** What the constructor of a record has read when it returns. *)
Lemma record_init_inv e (s s' : scene) r :
  Record_.__init__ e s = (Ok r, s') ->
  exists text ver,
    get e s = (Ok (Some text), s) /\
    Py.unpack2 (Py.split ":" text) = Ok (Record_.name r, ver).
Proof.
  unfold Record_.__init__, mbind, lift, ret, raise.
  pose proof (reads_get e s) as Hread.
  destruct (get e s) as [[[text|]|x] s0]; simpl in Hread; subst s0;
    [|done|done].
  destruct (Py.unpack2 (Py.split ":" text)) as [[name ver]|] eqn:Hsplit;
    [|done].
  destruct (Py.map_int _); [|done].
  intros H. injection H as Hr Hs. subst r. by exists text, ver.
Qed.

Lemma unpack2_nonempty text name ver :
  Py.unpack2 (Py.split ":" text) = Ok (name, ver) -> text <> "".
Proof. by intros H ->. Qed.

(** When every element of the records attribute decodes and no record
    bears [data_name], the search for [data_name] ends empty-handed. *)
Lemma scan_records_absent records data_name indices (s : scene) :
  forall record_names,
    collect_record_names records indices s = (Ok record_names, s) ->
    data_name ∉ record_names ->
    scan_records records data_name indices s = (Ok None, s).
Proof.
  induction indices as [|i rest IH]; intros record_names Hnames Hnot;
    [done|].
  cbn [collect_record_names scan_records] in *.
  unfold mbind at 1 in Hnames.
  destruct (Record_.__init__ (Element records i) s) as [[record|] s1] eqn:Hr;
    [|done].
  pose proof (reads_run _ _ _ _ (reads_record_init _) Hr) as ->.
  apply record_init_inv in Hr as (text & ver & Hget & Hsplit).
  unfold mbind at 1 in Hnames.
  destruct (collect_record_names records rest s) as [[names'|] s2] eqn:Hrest;
    [|done].
  pose proof (reads_run _ _ _ _ (reads_collect_record_names _ _) Hrest) as ->.
  injection Hnames as <-.
  apply not_elem_of_cons in Hnot as [Hne Hnot].
  erewrite mbind_ok by exact Hget.
  assert (blank (Some text) = false) as ->.
  { unfold blank. apply bool_decide_eq_false.
    by eapply unpack2_nonempty. }
  cbn [from_option id]. unfold lift at 1. unfold mbind at 1. rewrite Hsplit.
  rewrite bool_decide_eq_false_2 by congruence.
  by eapply IH.
Qed.

Lemma collect_conflicts_spec node (s : scene) nd attr_names :
  s !! node = Some nd ->
  collect_conflicts node attr_names s
  = (Ok (filter (fun a => a ∈ names nd) attr_names), s).
Proof.
  intros Hs. induction attr_names as [|a rest IH]; [done|].
  cbn [collect_conflicts]. unfold mbind at 1, hasAttr. rewrite Hs.
  unfold mbind at 1. rewrite IH. unfold ret.
  rewrite filter_cons.
  destruct (decide (a ∈ names nd));
    [by rewrite bool_decide_eq_true_2|by rewrite bool_decide_eq_false_2].
Qed.

Lemma get_records_present node (s : scene) nd force_add :
  s !! node = Some nd -> _RECORDS_NAME ∈ names nd ->
  _get_records node force_add s = (Ok (Some node), s).
Proof.
  intros Hs Hrec. unfold _get_records.
  rewrite (mbind_ok _ _ s true s)
    by (unfold objExists; by rewrite Hs).
  cbn [negb].
  rewrite (mbind_ok _ _ s true s)
    by (unfold hasAttr; by rewrite Hs, bool_decide_eq_true_2).
  cbn [negb andb].
  rewrite (mbind_ok _ _ s true s) by done.
  rewrite (mbind_ok _ _ s _RECORDS_NAME s)
    by (unfold attr; by rewrite Hs, bool_decide_eq_true_2).
  done.
Qed.

Lemma getArrayIndices_spec node (s : scene) nd :
  s !! node = Some nd ->
  getArrayIndices node s
  = (Ok (merge_sort Z.le (elements (dom (multi nd)))), s).
Proof. intros Hs. unfold getArrayIndices. by rewrite Hs. Qed.

Lemma get_record_absent c node (s : scene) nd record_names :
  s !! node = Some nd -> _RECORDS_NAME ∈ names nd ->
  collect_record_names node (merge_sort Z.le (elements (dom (multi nd)))) s
  = (Ok record_names, s) ->
  get_data_name c ∉ record_names ->
  get_record c node s = (Ok None, s).
Proof.
  intros Hs Hrec Hnames Hnot. unfold get_record, _get_record_by_name.
  erewrite mbind_ok by by eapply get_records_present.
  cbv beta iota.
  erewrite mbind_ok by by apply getArrayIndices_spec.
  by eapply scan_records_absent.
Qed.

Lemma find_attr_conflicts_raises self node (s : scene) nd attr_names
      record_names :
  _node self = Some node -> _records self = Some node ->
  s !! node = Some nd ->
  collect_record_names node (merge_sort Z.le (elements (dom (multi nd)))) s
  = (Ok record_names, s) ->
  checked_names self = Ok attr_names ->
  filter (fun a => a ∈ names nd) attr_names <> [] ->
  _find_attr_conflicts self s
  = (Raise (RuntimeError
              (AttrConflict (filter (fun a => a ∈ names nd) attr_names)
                            (__name__ (cls self)) record_names)), s).
Proof.
  intros Hnode Hrecords Hs Hnames Hchecked Hconf.
  unfold _find_attr_conflicts.
  erewrite mbind_ok by (unfold lift; by rewrite Hchecked).
  erewrite mbind_ok by (unfold the_node; by rewrite Hnode).
  erewrite mbind_ok by by apply collect_conflicts_spec.
  destruct (filter _ attr_names) as [|c conflicts]; [done|].
  rewrite Hrecords. cbv beta iota.
  erewrite mbind_ok by by apply getArrayIndices_spec.
  by erewrite mbind_ok by exact Hnames.
Qed.

Lemma grows_refl s : grows s s.
Proof. intros n nd Hs. by exists nd. Qed.

Lemma grows_trans s1 s2 s3 : grows s1 s2 -> grows s2 s3 -> grows s1 s3.
Proof.
  intros H12 H23 n nd Hs.
  destruct (H12 n nd Hs) as (nd2 & Hs2 & Hm2 & Ha2).
  destruct (H23 n nd2 Hs2) as (nd3 & Hs3 & Hm3 & Ha3).
  exists nd3. split; [done|]. split; [congruence|]. auto.
Qed.

Lemma grows_has_attr s s' n a : grows s s' -> has_attr s n a -> has_attr s' n a.
Proof.
  intros Hg (nd & Hs & Hin). destruct (Hg n nd Hs) as (nd' & Hs' & _ & Ha).
  exists nd'. auto.
Qed.

Lemma reads_keeps {A} (m : M A) : reads m -> keeps m.
Proof. intros Hm s. rewrite Hm. apply grows_refl. Qed.

Lemma keeps_bind {A B} (m : M A) (k : A -> M B) :
  keeps m -> (forall a, keeps (k a)) -> keeps (mbind m k).
Proof.
  intros Hm Hk s. unfold mbind. specialize (Hm s).
  destruct (m s) as [[x|e] s']; simpl in *; [|done].
  eapply grows_trans; [done|apply Hk].
Qed.

Lemma keeps_addAttr node name parent : keeps (addAttr node name parent).
Proof.
  intros s. unfold addAttr.
  destruct (s !! node) as [nd'|] eqn:Hnode; [|apply grows_refl].
  destruct (bool_decide (name ∈ names nd')); [apply grows_refl|].
  destruct (match parent with Some p => _ | None => _ end);
    [|apply grows_refl].
  cbn [snd]. intros n nd Hs. destruct (decide (node = n)) as [->|Hne].
  - rewrite lookup_insert_eq. eexists. split; [done|].
    assert (nd' = nd) as -> by congruence. split; [done|].
    intros a Hin. unfold names in *. cbn [attrs]. rewrite fmap_app.
    apply elem_of_app. by left.
  - rewrite lookup_insert_ne by done. by exists nd.
Qed.

Lemma keeps_add_attr : forall attr node parent_name,
  keeps (add_attr node attr parent_name).
Proof.
  fix IH 1. intros [a|c target_size children] node parent_name.
  - apply keeps_addAttr.
  - cbn [add_attr].
    apply keeps_bind; [apply reads_keeps, reads_lift|]. intros _.
    apply keeps_bind; [apply keeps_addAttr|]. intros _.
    induction children as [|child rest IHrest].
    + apply reads_keeps, reads_ret.
    + apply keeps_bind; [apply IH|]. intros _. apply IHrest.
Qed.

Lemma keeps_add_attrs attrs node parent_name :
  keeps (add_attrs node attrs parent_name).
Proof.
  induction attrs as [|a rest IH]; [apply reads_keeps, reads_ret|].
  apply keeps_bind; [apply keeps_add_attr|]. intros _. apply IH.
Qed.

Lemma keeps_create_data self : keeps (_create_data self).
Proof.
  apply keeps_bind; [apply reads_keeps, reads_the_node|]. intros node.
  apply keeps_bind; [apply keeps_addAttr|]. intros _.
  apply keeps_bind; [apply keeps_add_attrs|]. intros _.
  apply reads_keeps, reads_attr.
Qed.

Lemma keeps_get_records node force_add : keeps (_get_records node force_add).
Proof.
  apply keeps_bind; [apply reads_keeps, reads_objExists|]. intros alive.
  destruct (negb alive); [apply reads_keeps, reads_raise|].
  apply keeps_bind; [apply reads_keeps, reads_hasAttr|]. intros has_records.
  apply keeps_bind.
  - destruct (_ && _); [|apply reads_keeps, reads_ret].
    apply keeps_bind; [apply keeps_addAttr|]. intros _.
    apply reads_keeps, reads_ret.
  - intros [|]; [|apply reads_keeps, reads_ret].
    apply keeps_bind; [apply reads_keeps, reads_attr|]. intros _.
    apply reads_keeps, reads_ret.
Qed.

(** What [keeps] says about one run. *)
Lemma keeps_run {A} (m : M A) s r s' :
  keeps m -> m s = (r, s') -> grows s s'.
Proof. intros Hm Hrun. specialize (Hm s). by rewrite Hrun in Hm. Qed.

(** [_get_records] with [force_add] hands back the records attribute of
    the node. *)
Lemma get_records_forced node (s s' : scene) records :
  _get_records node true s = (Ok records, s') ->
  records = Some node /\ has_attr s' node _RECORDS_NAME.
Proof.
  unfold _get_records. intros H.
  apply mbind_inv in H as (alive & s1 & _ & H).
  destruct alive; [|done]. cbn [negb] in H.
  apply mbind_inv in H as (has_records & s2 & _ & H).
  apply mbind_inv in H as (has_records' & s3 & Hforce & H).
  assert (has_records' = true) as ->.
  { destruct has_records; cbn [negb andb] in Hforce.
    - by injection Hforce as <-.
    - apply mbind_inv in Hforce as (_ & s4 & _ & Hret).
      by injection Hret as <-. }
  apply mbind_inv in H as (x & s4 & Hattr & Hret).
  injection Hret as <- <-. split; [done|]. by eapply attr_inv.
Qed.

(** The write of the record never happens: [get_version_string] raises
    first. *)
Lemma add_data_to_records_raises self node (s : scene) :
  _records self = Some node -> has_attr s node _RECORDS_NAME ->
  _add_data_to_records self s = (Raise TypeError, s).
Proof.
  intros Hrecords (nd & Hs & Hin). unfold _add_data_to_records.
  rewrite Hrecords.
  rewrite (mbind_ok _ _ s true s)
    by (unfold hasAttr; by rewrite Hs, bool_decide_eq_true_2).
  erewrite mbind_ok by by apply getArrayIndices_spec.
  by erewrite mbind_raise.
Qed.

Lemma get_record_none c node (s : scene) nd :
  s !! node = Some nd -> _RECORDS_NAME ∉ names nd ->
  get_record c node s = (Ok None, s).
Proof.
  intros Hs Hout. unfold get_record, _get_record_by_name, _get_records.
  rewrite (mbind_ok _ _ s None s); [done|].
  rewrite (mbind_ok _ _ s true s) by (unfold objExists; by rewrite Hs).
  cbn [negb].
  rewrite (mbind_ok _ _ s false s)
    by (unfold hasAttr; by rewrite Hs, bool_decide_eq_false_2).
  cbn [negb andb]. by rewrite (mbind_ok _ _ s false s).
Qed.

(** [get_data] with [force_add] on a node that has no record of the
    class: whatever the host's [copyAttr] is, the call raises, and
    nothing of the scene is lost and no record is written. *)
Lemma force_add_raises depth self node (s s1 : scene) :
  get_record (cls self) node s = (Ok None, s1) ->
  exists e s',
    (forall copyAttr,
       get_data copyAttr depth self node true s = (Raise e, s')) /\
    grows s s'.
Proof.
  intros Hget.
  pose proof (reads_run _ _ _ _ (reads_get_record _ _) Hget) as ->.
  destruct depth as [|depth];
    [exists RecursionError, s; split; [done|apply grows_refl]|].
  set (self2 := Instance (cls self) (_flags self) (Some node) (Some node)).
  assert (Hhead : forall copyAttr records s2,
    _get_records node true s = (Ok records, s2) ->
    get_data copyAttr (S depth) self node true s
    = mbind (_find_attr_conflicts
               (Instance (cls self) (_flags self) records (Some node)))
            (fun _ =>
               let self := Instance (cls self) (_flags self) records
                                    (Some node) in
               let! data := _create_data self in
               let! _ := _add_data_to_records self in
               let! _ := post_create (cls self) data in
               ret (Some data)) s2).
  { intros copyAttr records s2 H2. cbn [get_data].
    erewrite mbind_ok by exact Hget.
    change (negb (bool_decide (is_Some (@None Record_.t))) && true) with true.
    cbv iota.
    by erewrite mbind_ok; [|erewrite mbind_ok by exact H2; reflexivity]. }
  destruct (_get_records node true s) as [[records|e] s2] eqn:H2.
  - destruct (get_records_forced _ _ _ _ H2) as [-> Hrec].
    pose proof (keeps_run _ _ _ _ (keeps_get_records _ _) H2) as Hg2.
    destruct (_find_attr_conflicts self2 s2) as [[[]|e] s3] eqn:H3.
    + pose proof (reads_run _ _ _ _ (reads_find_attr_conflicts _) H3) as ->.
      destruct (_create_data self2 s2) as [[d|e] s4] eqn:H4.
      * pose proof (keeps_run _ _ _ _ (keeps_create_data _) H4) as Hg4.
        exists TypeError, s4. split; [|by eapply grows_trans].
        intros copyAttr. rewrite (Hhead _ _ _ eq_refl). fold self2.
        erewrite mbind_ok by exact H3. cbv zeta.
        erewrite mbind_ok by exact H4.
        erewrite mbind_raise; [done|].
        apply (add_data_to_records_raises self2 node); [done|].
        by eapply grows_has_attr.
      * pose proof (keeps_run _ _ _ _ (keeps_create_data _) H4) as Hg4.
        exists e, s4. split; [|by eapply grows_trans].
        intros copyAttr. rewrite (Hhead _ _ _ eq_refl). fold self2.
        erewrite mbind_ok by exact H3. cbv zeta.
        by erewrite mbind_raise by exact H4.
    + pose proof (reads_run _ _ _ _ (reads_find_attr_conflicts _) H3) as ->.
      exists e, s2. split; [|done].
      intros copyAttr. rewrite (Hhead _ _ _ eq_refl). fold self2.
      by erewrite mbind_raise by exact H3.
  - pose proof (keeps_run _ _ _ _ (keeps_get_records _ _) H2) as Hg2.
    exists e, s2. split; [|done].
    intros copyAttr. cbn [get_data].
    erewrite mbind_ok by exact Hget.
    change (negb (bool_decide (is_Some (@None Record_.t))) && true) with true.
    cbv iota.
    by erewrite mbind_raise; [|erewrite mbind_raise by exact H2].
Qed.

Lemma createNode_grows (s : scene) :
  grows s (<[new_handle s := Node builtin_attrs ∅]> s).
Proof.
  intros n nd Hs. exists nd. split; [|done].
  rewrite lookup_insert_ne; [done|]. intros <-.
  apply (is_fresh (dom s)), elem_of_dom. by exists nd.
Qed.

(** [update_version] never gets as far as its first [copyAttr]: making
    the scratch node already raises. *)
Lemma update_version_raises depth self old_data old_version (s : scene) :
  exists e s',
    (forall copyAttr,
       update_version copyAttr (get_data copyAttr depth) self old_data
                      old_version s = (Raise e, s')) /\
    is_Some (s' !! new_handle s) /\ grows s s'.
Proof.
  set (n := new_handle s). set (s0 := <[n := Node builtin_attrs ∅]> s).
  assert (Hcreate : createNode s = (Ok n, s0)) by done.
  assert (Hn : s0 !! n = Some (Node builtin_attrs ∅))
    by apply lookup_insert_eq.
  destruct (__init__ (cls self) ∅) as [classInstance|e] eqn:Hinit.
  - destruct (force_add_raises depth classInstance n s0 s0)
      as (e & s' & Hraise & Hgrows).
    { eapply get_record_none; [done|].
      apply (bool_decide_unpack _). by vm_compute. }
    exists e, s'. split; [|split].
    + intros copyAttr. unfold update_version, create_node.
      erewrite mbind_raise; [done|].
      erewrite mbind_ok by exact Hcreate.
      erewrite mbind_ok by (unfold lift; by rewrite Hinit).
      by erewrite mbind_raise by apply Hraise.
    + destruct (Hgrows n _ Hn) as (nd' & -> & _). by eexists.
    + eapply grows_trans; [apply createNode_grows|done].
  - exists e, s0. split; [|split].
    + intros copyAttr. unfold update_version, create_node.
      erewrite mbind_raise; [done|].
      erewrite mbind_ok by exact Hcreate.
      by erewrite mbind_raise by (unfold lift; by rewrite Hinit).
    + by eexists.
    + apply createNode_grows.
Qed.

(** The handler of [update_version], taken by itself: with a
    [get_data] for which [create_node] returns, a first copy that fails
    leads to the scratch node being deleted and to the versioning
    exception, and [deleteAttr] is not reached. *)
Lemma update_version_handler copyAttr get_data' self old_data old_version
      (s s1 s2 s3 : scene) temp_node data name_list node e :
  create_node get_data' (cls self) s = (Ok (temp_node, data), s1) ->
  get_attribute_names (cls self) = Ok name_list ->
  _node self = Some node ->
  copyAttr node temp_node name_list s1 = (Raise e, s2) ->
  delete temp_node s2 = (Ok tt, s3) ->
  update_version copyAttr get_data' self old_data old_version s
  = (Raise (VersionUpdateException (get_data_name (cls self)) old_version
                                   (version self)), s3).
Proof.
  intros Hcreate Hnames Hnode Hcopy Hdelete. unfold update_version.
  erewrite mbind_ok by exact Hcreate. cbv beta iota.
  erewrite mbind_ok by (unfold lift; by rewrite Hnames).
  erewrite mbind_ok by (unfold the_node; by rewrite Hnode).
  erewrite mbind_raise; [done|].
  unfold try_except. rewrite Hcopy.
  by erewrite mbind_ok by exact Hdelete.
Qed.

Example update_version_handler_example :
  let get_data' : instance -> nat -> bool -> M (option string) :=
    fun _ _ _ => ret None in
  let copyAttr : nat -> nat -> list string -> M unit :=
    fun _ _ _ => raise (HostError "copy") in
  let self := Instance (cls (Demo.new Demo.FooAuto)) ∅ None (Some 0%nat) in
  update_version copyAttr get_data' self "Foo" [0; 9; 0] Demo.stale
  = (Raise (VersionUpdateException "Foo" [0; 9; 0] [1; 0; 0]), Demo.stale).
Proof.
  intros get_data' copyAttr self.
  apply (update_version_handler copyAttr get_data' self "Foo" [0; 9; 0]
           Demo.stale (<[1%nat := Node builtin_attrs ∅]> Demo.stale)
           (<[1%nat := Node builtin_attrs ∅]> Demo.stale) Demo.stale
           1%nat None ["a"] 0%nat (HostError "copy"));
    by vm_compute.
Qed.

End EffectFacts.

(** C3 does not hold of the code.  [get_version_string] reads [version]
    through the class, gets the property object, and raises when [map]
    iterates over it.  So [get_data] with [force_add], on a node without a
    record of the class, never returns: it raises, with every records
    attribute of the scene as it was.  On a node without attributes the
    call creates the records attribute and the attribute tree of [Foo],
    then raises the type error before any record is written. *)
Theorem force_add_never_returns :
  (forall c, BaseData.get_version_string c = Raise TypeError) /\
  (forall copyAttr depth self node (s s1 : gmap nat Host.node),
     BaseData.get_record (BaseData.cls self) node s = (Ok None, s1) ->
     exists e s',
       BaseData.get_data copyAttr depth self node true s = (Raise e, s') /\
       Effects.grows s s') /\
  (forall copyAttr depth,
     BaseData.get_data copyAttr (S depth) (Demo.new Demo.Foo) 0 true Demo.bare
     = (Raise TypeError,
        {[0%nat := Host.Node [("DataRecords", None); ("Foo", None);
                              ("a", Some "Foo")] ∅]})).
Proof.
  split; [done|]. split.
  - intros copyAttr depth self node s s1 Hget.
    destruct (force_add_raises depth self node s s1 Hget)
      as (e & s' & Hraise & Hgrows).
    by exists e, s'.
  - intros copyAttr depth. by vm_compute.
Qed.

Lemma force_add_never_returns_witness :
  exists e s',
    BaseData.get_data (fun _ _ _ => Host.ret tt) 1 (Demo.new Demo.Foo)
                      0 true Demo.bare = (Raise e, s') /\
    Effects.grows Demo.bare s'.
Proof.
  apply (proj1 (proj2 force_add_never_returns) _ 1%nat (Demo.new Demo.Foo)
               0%nat Demo.bare Demo.bare).
  by vm_compute.
Defined.

(** C1 does not hold of the code.  [update_version] first makes the
    scratch node with [create_node], which adds the data to it with
    [get_data]; that call raises (C3), so [update_version] raises the same
    exception before the [try], whatever [copyAttr] would do: the copy is
    never attempted, the scratch node stays in the scene, and the live
    node keeps its attributes and records.  On a node with a stale record
    of [Foo] the exception is the type error, not the versioning one. *)
Theorem update_version_never_copies :
  (forall copyAttr depth self old_data old_version (s : gmap nat Host.node),
     exists e s',
       BaseData.update_version copyAttr (BaseData.get_data copyAttr depth)
                               self old_data old_version s
       = (Raise e, s') /\
       (forall copyAttr',
          BaseData.update_version copyAttr' (BaseData.get_data copyAttr' depth)
                                  self old_data old_version s
          = (Raise e, s')) /\
       is_Some (s' !! Host.new_handle s) /\
       Effects.grows s s') /\
  (forall copyAttr depth,
     BaseData.get_data copyAttr (S (S depth)) (Demo.new Demo.FooAuto)
                       0 false Demo.stale
     = (Raise TypeError,
        <[1%nat := Host.Node (Host.builtin_attrs
                              ++ [("DataRecords", None); ("Foo", None);
                                  ("a", Some "Foo")]) ∅]> Demo.stale)).
Proof.
  split.
  - intros copyAttr depth self old_data old_version s.
    destruct (update_version_raises depth self old_data old_version s)
      as (e & s' & Hraise & Hnode & Hgrows).
    exists e, s'. auto.
  - intros copyAttr depth. by vm_compute.
Qed.

(** C4 does not hold of the code.  The loop asks each subclass for
    [GetDefaultFlags], a name that [BaseData] does not define: with
    subclasses that define what the class documentation asks for, the
    look-up raises on the first of them, whatever classes follow and
    whatever [error_on_conflict] is; no names are collected, nothing is
    warned about.  Only with no subclass at all does the function
    return, and then the empty mapping. *)
Theorem find_attribute_conflicts_raises :
  (forall name version attrs rest error_on_conflict,
     Utils.find_attribute_conflicts
       (BaseData.subclass name version attrs :: rest) error_on_conflict
     = (Raise (AttributeError "GetDefaultFlags"), [])) /\
  (forall c rest error_on_conflict,
     BaseData.GetDefaultFlags c = None ->
     (Utils.find_attribute_conflicts (c :: rest) error_on_conflict).1
     = Raise (AttributeError "GetDefaultFlags")) /\
  (forall error_on_conflict,
     Utils.find_attribute_conflicts [] error_on_conflict = (Ok ∅, [])).
Proof.
  split; [done|]. split; [|done].
  intros c rest error_on_conflict Hc.
  unfold Utils.find_attribute_conflicts. cbn [Utils.gather].
  by rewrite Hc.
Qed.

Lemma find_attribute_conflicts_raises_witness :
  (Utils.find_attribute_conflicts [Demo.Foo; Demo.Plain] true).1
  = Raise (AttributeError "GetDefaultFlags").
Proof.
  apply (proj1 (proj2 find_attribute_conflicts_raises) Demo.Foo [Demo.Plain]
               true).
  reflexivity.
Defined.

(** * Further properties *)

(** ** Flags *)

Section FlagFacts.

Lemma clear_keys_lookup (keys : list string) : forall (flags : gmap string pyval) key,
  foldl (fun fl k => if has_key fl k then base.delete k fl else fl) flags keys
  !! key
  = if bool_decide (key ∈ keys) then None else flags !! key.
Proof.
  induction keys as [|k keys IH]; intros flags key; [done|].
  cbn [foldl]. rewrite IH.
  destruct (bool_decide_reflect (key ∈ keys)) as [Hin|Hout].
  - by rewrite bool_decide_eq_true_2 by by right.
  - destruct (decide (key = k)) as [->|Hne].
    + rewrite bool_decide_eq_true_2 by by left.
      unfold has_key. destruct (bool_decide_reflect (is_Some (flags !! k)))
        as [Hsome|Hnone]; [apply lookup_delete_eq|].
      by apply eq_None_not_Some.
    + rewrite bool_decide_eq_false_2
        by (intros [?|?]%elem_of_cons; congruence).
      destruct (has_key flags k); [by apply lookup_delete_ne|done].
Qed.

End FlagFacts.

(** X1.  [_clear_invalid_flags], of [Attr] and of [BaseData]: the result
    has none of the keys of the method's list and has every other key
    with the value it had.  [numberOfChildren], spelled with the capital
    the host gives it, is in neither list, and [attributeType] is not in
    the list of [BaseData]: these two pass through. *)
Theorem clear_invalid_flags_spec :
  (forall (flags : gmap string pyval) key,
     Attr._clear_invalid_flags flags !! key
     = if bool_decide (key ∈ Attr.invalid) then None else flags !! key) /\
  (forall (flags : gmap string pyval) key,
     BaseData._clear_invalid_flags flags !! key
     = if bool_decide (key ∈ BaseData.invalid) then None else flags !! key) /\
  (forall (flags : gmap string pyval),
     Attr._clear_invalid_flags flags !! "numberOfChildren"
     = flags !! "numberOfChildren" /\
     BaseData._clear_invalid_flags flags !! "numberOfChildren"
     = flags !! "numberOfChildren" /\
     BaseData._clear_invalid_flags flags !! "attributeType"
     = flags !! "attributeType").
Proof.
  split; [intros; apply clear_keys_lookup|].
  split; [intros; apply clear_keys_lookup|].
  intros flags. unfold Attr._clear_invalid_flags, BaseData._clear_invalid_flags.
  by rewrite !clear_keys_lookup.
Qed.

(** ** Compounds *)

(** X2.  A compound of fixed arity that the constructor has filled
    passes [validate].  [add_child] still accepts one more child, and
    with that child the compound no longer passes. *)
Theorem generated_compound_validates h name ty children kwargs (N : nat) :
  CompoundOps.compound_types !! ty = Some N -> (0 < N)%nat ->
  deref h (default CompoundOps.default_children children) = [] ->
  exists c h1,
    CompoundOps.__init__ h name ty children true kwargs = Ok (c, h1) /\
    CompoundOps.count h1 c = N /\
    CompoundOps.validate h1 c = Ok tt /\
    forall child,
      exists h2,
        CompoundOps.add_child h1 c child = Ok h2 /\
        CompoundOps.count h2 c = S N /\
        CompoundOps.validate h2 c = pm_error (WrongChildCount ty).
Proof.
  intros HN Hpos Hnil.
  destruct (init_generates h name ty children kwargs N HN Hpos Hnil)
    as (type & _ & Hinit).
  assert (Hbound := compound_types_bound _ _ HN).
  match type of Hinit with
  | _ = Ok (?c0, <[?l0 := ?k0]> _) =>
      set (c := c0) in *; set (l := l0) in *; set (kids := k0) in *
  end.
  assert (Hlen : length kids = N).
  { unfold kids. rewrite List.length_map, length_take.
    destruct (Runs.colored ty kwargs);
      cbn [length CompoundOps.rgb CompoundOps.xyz]; lia. }
  assert (Hcount : forall hh ks, CompoundOps.count (<[l := ks]> hh) c
                                 = length ks).
  { intros hh ks. unfold CompoundOps.count. cbn [Compound._children c].
    by rewrite deref_insert. }
  exists c, (<[l := kids]> h). split; [exact Hinit|].
  split; [by rewrite Hcount|]. split.
  - unfold CompoundOps.validate, CompoundOps.valid_size.
    rewrite Hcount, Hlen. cbn [Compound._target_size c].
    destruct (Nat.eqb_spec N 0); [lia|]. by rewrite Nat.eqb_refl.
  - intros child. eexists. split.
    + apply add_child_ok. right. rewrite Hcount, Hlen.
      cbn [Compound._target_size c]. lia.
    + cbn [Compound._children c].
      unfold CompoundOps.validate, CompoundOps.valid_size,
        CompoundOps.get_children.
      cbn [Compound._children c]. rewrite Hcount, deref_insert, length_app, Hlen.
      cbn [length Compound._target_size c].
      split; [lia|].
      destruct (Nat.eqb_spec N 0); [lia|].
      by destruct (Nat.eqb_spec (N + 1) N); [lia|].
Qed.

Lemma generated_compound_validates_witness :
  exists c h1,
    CompoundOps.__init__ ∅ "t" "double3" None true ∅ = Ok (c, h1) /\
    CompoundOps.validate h1 c = Ok tt.
Proof.
  destruct (generated_compound_validates ∅ "t" "double3" None ∅ 3 eq_refl
              ltac:(lia) eq_refl) as (c & h1 & Hinit & _ & Hvalid & _).
  by exists c, h1.
Defined.

Section MoreCompoundFacts.
Import Compound CompoundOps Runs.

Lemma child_type_table ty N c :
  compound_types !! ty = Some N -> attr_type c = ty ->
  child_type c = Ok (Reference.element_type ty).
Proof.
  intros H%compound_types_inv Hty. unfold child_type. rewrite Hty.
  clear Hty.
  repeat (apply elem_of_cons in H as [H|H]; [by simplify_eq|]).
  by apply elem_of_nil in H.
Qed.

Lemma init_generates_typed h name ty children kwargs N :
  compound_types !! ty = Some N -> (0 < N)%nat ->
  deref h (default default_children children) = [] ->
  __init__ h name ty children true kwargs
  = Ok (Make (Attr.__init__ name ty kwargs) N
             (default default_children children),
        <[default default_children children :=
            element_attr name (Reference.element_type ty)
            <$> take N (if colored ty kwargs then rgb else xyz)]> h).
Proof.
  intros HN Hpos Hnil.
  set (l := default default_children children) in *.
  pose (self := Make (Attr.__init__ name ty kwargs) N l).
  pose proof (child_type_table ty N self HN eq_refl) as Htype.
  unfold __init__. rewrite HN. fold l. fold self.
  destruct (Nat.eqb_spec N 0) as [|_]; [lia|].
  cbn [negb andb _children self].
  rewrite Hnil. cbn [length Nat.eqb negb].
  unfold _make_elements. rewrite Htype. cbn [bind].
  assert (Hsuffix : suffix_of self = if colored ty kwargs then rgb else xyz)
    by apply suffix_of_init.
  rewrite Hsuffix.
  assert (Hlen : length (if colored ty kwargs then rgb else xyz) = 3%nat)
    by by destruct (colored ty kwargs).
  apply compound_types_bound in HN.
  rewrite (make_loop_ok self _ _ N 0 h).
  - unfold get_children. cbn [_children self bind]. rewrite Hnil.
    destruct N; [lia|]. by rewrite drop_0.
  - unfold get_children. cbn [_children self]. by rewrite Hnil.
  - lia.
  - cbn [_target_size self]. lia.
Qed.

Lemma init_plain h name children make_elements kwargs :
  __init__ h name "compound" children make_elements kwargs
  = Ok (Make (Attr.__init__ name "compound" kwargs) 0
             (default default_children children), h).
Proof. done. Qed.

Lemma init_supplied h name ty children kwargs N :
  compound_types !! ty = Some N ->
  __init__ h name ty children false kwargs
  = Ok (Make (Attr.__init__ name ty kwargs) N
             (default default_children children), h).
Proof.
  intros HN. unfold __init__. rewrite HN. by rewrite andb_false_r.
Qed.

Lemma validate_iff h c :
  validate h c = Ok tt <-> valid_size (_target_size c) (count h c) = true.
Proof. unfold validate. by destruct (valid_size _ _). Qed.

End MoreCompoundFacts.

(** X3.  The type ['compound'] has no arity.  Its constructor returns
    whatever [children] and [make_elements] are, generates nothing and
    leaves every list as it is; [add_child] on such a compound never
    fails and appends; the compound passes [validate] as soon as one
    child has been added, and fails it while its list is empty. *)
Theorem plain_compound_unbounded h name children make_elements kwargs :
  exists c,
    CompoundOps.__init__ h name "compound" children make_elements kwargs
    = Ok (c, h) /\
    Compound._children c = default CompoundOps.default_children children /\
    (forall h' child,
       CompoundOps.add_child h' c child
       = Ok (<[Compound._children c :=
                 CompoundOps.get_children h' c ++ [child]]> h')) /\
    (forall h' child h2,
       CompoundOps.add_child h' c child = Ok h2 ->
       CompoundOps.validate h2 c = Ok tt) /\
    (forall h',
       CompoundOps.get_children h' c = [] ->
       CompoundOps.validate h' c = pm_error (WrongChildCount "compound")).
Proof.
  eexists. split; [apply init_plain|]. split; [done|]. split; [|split].
  - intros h' child. apply add_child_ok. by left.
  - intros h' child h2. rewrite add_child_ok by by left.
    intros [= <-]. apply validate_iff.
    unfold CompoundOps.count. cbn [Compound._children Compound._target_size].
    rewrite deref_insert, length_app. cbn [length CompoundOps.valid_size Nat.eqb].
    apply Nat.ltb_lt. lia.
  - intros h' Hnil. unfold CompoundOps.validate, CompoundOps.count.
    unfold CompoundOps.get_children in Hnil. by rewrite Hnil.
Qed.

(** X4.  A caller's own list, for a type of arity [N > 0].  With
    [make_elements] left true the constructor fails when the list is not
    empty.  With [make_elements] false it returns, generates nothing, and
    the compound holds the caller's list itself: it passes [validate]
    exactly when that list has [N] elements, and a child added to the
    compound is added to the caller's list. *)
Theorem supplied_children h name ty (l : nat) kwargs (N : nat) :
  CompoundOps.compound_types !! ty = Some N -> (0 < N)%nat ->
  (deref h l <> [] ->
   CompoundOps.__init__ h name ty (Some l) true kwargs
   = pm_error MakeElementsWithChildren) /\
  exists c,
    CompoundOps.__init__ h name ty (Some l) false kwargs = Ok (c, h) /\
    Compound._children c = l /\
    (forall h',
       CompoundOps.validate h' c = Ok tt <-> length (deref h' l) = N) /\
    (forall h' child h2,
       CompoundOps.add_child h' c child = Ok h2 ->
       deref h2 l = deref h' l ++ [child]).
Proof.
  intros HN Hpos. split.
  - intros Hkids. by apply init_refuses with N.
  - eexists. split; [by apply init_supplied|]. split; [done|]. split.
    + intros h'. rewrite validate_iff.
      unfold CompoundOps.valid_size, CompoundOps.count.
      cbn [Compound._target_size Compound._children default].
      destruct (Nat.eqb_spec N 0); [lia|]. apply Nat.eqb_eq.
    + intros h' child h2. unfold CompoundOps.add_child.
      cbn [Compound._children default].
      destruct (_ && _); [done|]. intros [= <-]. apply deref_insert.
Qed.

Lemma supplied_children_witness :
  exists c,
    CompoundOps.__init__ ({[5%nat := [Runs.element_attr "uv" "float" "U";
                                      Runs.element_attr "uv" "float" "V"]]})
                         "uv" "float2" (Some 5%nat) false ∅
    = Ok (c, {[5%nat := [Runs.element_attr "uv" "float" "U";
                         Runs.element_attr "uv" "float" "V"]]}) /\
    Compound._children c = 5%nat.
Proof.
  destruct (supplied_children
              ({[5%nat := [Runs.element_attr "uv" "float" "U";
                           Runs.element_attr "uv" "float" "V"]]})
              "uv" "float2" 5 ∅ 2 eq_refl ltac:(lia))
    as (_ & c & Hinit & Hc & _).
  by exists c.
Defined.

(** X5.  [create_attr] by cases.  A type outside the table gives a
    plain [Attr] and changes nothing.  The type ['compound'] gives a
    compound on the default list.  A type of arity [N > 0] gives, while
    the default list is empty, a compound filled with its [N] children
    that passes [validate]; and from then on every call of [create_attr]
    for a type of fixed arity fails, as the default list is no longer
    empty.  The error for an unknown compound type is never raised. *)
Theorem create_attr_cases h name ty :
  (CompoundOps.compound_types !! ty = None ->
   create_attr h name ty = Ok (AnAttr (Attr.Make name ty ∅), h)) /\
  (ty = "compound" ->
   exists c,
     create_attr h name ty = Ok (ACompound c, h) /\
     Compound._children c = CompoundOps.default_children) /\
  (forall N : nat,
     CompoundOps.compound_types !! ty = Some N -> (0 < N)%nat ->
     (deref h CompoundOps.default_children = [] ->
      exists c h1,
        create_attr h name ty = Ok (ACompound c, h1) /\
        CompoundOps.count h1 c = N /\
        CompoundOps.validate h1 c = Ok tt /\
        forall name' ty' (N' : nat),
          CompoundOps.compound_types !! ty' = Some N' -> (0 < N')%nat ->
          create_attr h1 name' ty' = pm_error MakeElementsWithChildren) /\
     (deref h CompoundOps.default_children <> [] ->
      create_attr h name ty = pm_error MakeElementsWithChildren)) /\
  (forall t, create_attr h name ty <> pm_error (InvalidCompoundType t)).
Proof.
  assert (Hfull : forall hh n t (M : nat),
    CompoundOps.compound_types !! t = Some M -> (0 < M)%nat ->
    deref hh CompoundOps.default_children <> [] ->
    create_attr hh n t = pm_error MakeElementsWithChildren).
  { intros hh n t M HM Hpos Hkids. unfold create_attr.
    rewrite bool_decide_eq_true_2 by by eexists.
    by rewrite (init_refuses hh n t None ∅ M HM Hpos Hkids). }
  assert (Hempty : forall N : nat,
    CompoundOps.compound_types !! ty = Some N -> (0 < N)%nat ->
    deref h CompoundOps.default_children = [] ->
    exists c h1,
      create_attr h name ty = Ok (ACompound c, h1) /\
      CompoundOps.count h1 c = N /\
      CompoundOps.validate h1 c = Ok tt /\
      deref h1 CompoundOps.default_children <> []).
  { intros N HN Hpos Hnil.
    pose proof (init_generates_typed h name ty None ∅ N HN Hpos Hnil) as Hinit.
    cbn [default] in Hinit.
    match type of Hinit with
    | _ = Ok (?c0, <[_ := ?k0]> _) => set (c := c0) in *; set (kids := k0) in *
    end.
    assert (Hlen : length kids = N).
    { unfold kids. rewrite length_fmap, length_take.
      assert (Hbound := compound_types_bound _ _ HN).
      destruct (Runs.colored ty ∅);
        cbn [length CompoundOps.rgb CompoundOps.xyz]; lia. }
    exists c, (<[CompoundOps.default_children := kids]> h).
    split; [|split; [|split]].
    - unfold create_attr. rewrite bool_decide_eq_true_2 by by eexists.
      by rewrite Hinit.
    - unfold CompoundOps.count. cbn [Compound._children c].
      by rewrite deref_insert.
    - apply validate_iff. unfold CompoundOps.valid_size, CompoundOps.count.
      cbn [Compound._children Compound._target_size c].
      rewrite deref_insert, Hlen.
      destruct (Nat.eqb_spec N 0); [lia|]. apply Nat.eqb_refl.
    - rewrite deref_insert. intros Hk. rewrite Hk in Hlen. simpl in Hlen. lia. }
  split; [|split; [|split; [|]]].
  - intros Hnone. unfold create_attr.
    by rewrite bool_decide_eq_false_2 by (rewrite Hnone; by intros [? ?]).
  - intros ->. eexists. unfold create_attr.
    rewrite bool_decide_eq_true_2 by by eexists.
    rewrite init_plain. done.
  - intros N HN Hpos. split; [|by apply Hfull with N].
    intros Hnil.
    destruct (Hempty N HN Hpos Hnil) as (c & h1 & Hc & Hcount & Hvalid & Hkids).
    exists c, h1. split; [done|]. split; [done|]. split; [done|].
    intros name' ty' N' HN' Hpos'. by apply Hfull with N'.
  - intros t.
    destruct (CompoundOps.compound_types !! ty) as [N|] eqn:HN.
    + destruct N as [|N].
      * apply compound_types_zero in HN as ->.
        unfold create_attr. rewrite bool_decide_eq_true_2 by by eexists.
        by rewrite init_plain.
      * destruct (deref h CompoundOps.default_children) as [|d ds] eqn:Hd.
        -- destruct (Hempty (S N) eq_refl ltac:(lia) eq_refl)
             as (c & h1 & -> & _).
           done.
        -- rewrite (Hfull h name ty (S N) HN ltac:(lia)); [done|].
           by rewrite Hd.
    + unfold create_attr.
      by rewrite bool_decide_eq_false_2 by (rewrite HN; by intros [? ?]).
Qed.

Lemma create_attr_cases_witness :
  exists c h1,
    create_attr ∅ "space" "float3" = Ok (ACompound c, h1) /\
    CompoundOps.validate h1 c = Ok tt /\
    create_attr h1 "scale" "float3" = pm_error MakeElementsWithChildren.
Proof.
  destruct (proj1 (proj1 (proj2 (proj2 (create_attr_cases ∅ "space" "float3")))
                     3%nat eq_refl ltac:(lia)) eq_refl)
    as (c & h1 & Hc & _ & Hvalid & Hnext).
  exists c, h1. split; [done|]. split; [done|].
  apply (Hnext "scale" "float3" 3%nat eq_refl). lia.
Defined.

(** X6.  The children the constructor generates are plain attributes
    without flags, whatever keywords the compound was given, and their
    type follows the first letter of the compound's type: [float] for
    float2 and float3, [long] for long2 and long3, [short] for short2,
    short3 and also for spectrum, [double] for double2, double3 and
    reflectance. *)
Theorem element_children_types h name ty children kwargs (N : nat) :
  CompoundOps.compound_types !! ty = Some N -> (0 < N)%nat ->
  deref h (default CompoundOps.default_children children) = [] ->
  exists c h1,
    CompoundOps.__init__ h name ty children true kwargs = Ok (c, h1) /\
    forall d,
      d ∈ CompoundOps.get_children h1 c ->
      exists sfx,
        d = AnAttr (Attr.Make (name +:+ sfx) (Reference.element_type ty) ∅).
Proof.
  intros HN Hpos Hnil.
  eexists _, _. split; [by apply init_generates_typed|].
  unfold CompoundOps.get_children. cbn [Compound._children].
  rewrite deref_insert. intros d (sfx & -> & _)%list_elem_of_fmap.
  by exists sfx.
Qed.

Lemma element_children_types_witness :
  exists c h1,
    CompoundOps.__init__ ∅ "tint" "spectrum" None true
                         {["keyable" := PyBool true]} = Ok (c, h1) /\
    forall d,
      d ∈ CompoundOps.get_children h1 c ->
      exists sfx, d = AnAttr (Attr.Make ("tint" +:+ sfx) "short" ∅).
Proof.
  apply (element_children_types ∅ "tint" "spectrum" None
           {["keyable" := PyBool true]} 3%nat eq_refl); [lia|reflexivity].
Defined.

(** ** Attribute names *)

Section NameFacts.
Import BaseData Reference.

Lemma get_attribute_names_tree : forall t name_list,
  _get_attribute_names t name_list = name_list ++ preorder t.
Proof.
  fix IH 1. intros [a|c target_size children] name_list; [done|].
  cbn [_get_attribute_names preorder].
  change (name_list ++ Attr.name c :: flat_map preorder children)
    with (name_list ++ [Attr.name c] ++ flat_map preorder children).
  rewrite app_assoc. generalize (name_list ++ [Attr.name c]).
  induction children as [|child rest IHrest]; intros acc.
  - cbn. by rewrite app_nil_r.
  - cbn [fold_left flat_map]. rewrite IH, IHrest. by rewrite app_assoc.
Qed.

Lemma get_attribute_names_list attrs : forall name_list,
  fold_left (fun names attr => _get_attribute_names attr names) attrs name_list
  = name_list ++ flat_map preorder attrs.
Proof.
  induction attrs as [|t rest IH]; intros acc.
  - cbn. by rewrite app_nil_r.
  - cbn [fold_left flat_map].
    rewrite get_attribute_names_tree, IH. by rewrite app_assoc.
Qed.

Lemma preorder_length : forall t, length (preorder t) = size t.
Proof.
  fix IH 1. intros [a|c target_size children]; [done|].
  cbn [preorder size length]. f_equal.
  induction children as [|child rest IHrest]; [done|].
  cbn [flat_map map list_sum]. by rewrite length_app, IH, IHrest.
Qed.

End NameFacts.

(** X7.  [get_attribute_names] lists the names of the class's
    descriptors in pre-order, each descriptor once: a compound, then its
    children with all below them, attribute after attribute.  While the
    class attribute [attributes] is empty the list comes from
    [get_attributes], whose error it passes on; once [attributes] is
    filled, [get_attributes] is not consulted. *)
Theorem get_attribute_names_preorder (c : BaseData.class) :
  (BaseData.attributes c <> [] ->
   BaseData.get_attribute_names c
   = Ok (flat_map Reference.preorder (BaseData.attributes c))) /\
  (BaseData.attributes c = [] ->
   forall attrs,
     BaseData.get_attributes c = Ok attrs ->
     BaseData.get_attribute_names c
     = Ok (flat_map Reference.preorder attrs)) /\
  (BaseData.attributes c = [] ->
   forall e,
     BaseData.get_attributes c = Raise e ->
     BaseData.get_attribute_names c = Raise e) /\
  (forall names,
     BaseData.get_attribute_names c = Ok names ->
     exists attrs,
       names = flat_map Reference.preorder attrs /\
       length names = list_sum (map Reference.size attrs)).
Proof.
  assert (Hlen : forall attrs,
    length (flat_map Reference.preorder attrs)
    = list_sum (map Reference.size attrs)).
  { induction attrs as [|t rest IH]; [done|].
    cbn [flat_map map list_sum]. by rewrite length_app, preorder_length, IH. }
  unfold BaseData.get_attribute_names, BaseData._init_class_attributes.
  destruct (BaseData.attributes c) as [|t rest] eqn:Hattrs.
  - split; [done|]. split; [|split].
    + intros _ attrs ->. cbn [bind BaseData.attributes].
      by rewrite get_attribute_names_list.
    + by intros _ e ->.
    + intros names. destruct (BaseData.get_attributes c) as [attrs|]; [|done].
      cbn [bind BaseData.attributes]. rewrite get_attribute_names_list.
      intros [= <-]. exists attrs. split; [done|]. apply Hlen.
  - cbn [bind]. rewrite Hattrs, get_attribute_names_list.
    split; [done|]. split; [done|]. split; [done|].
    intros names [= <-]. exists (t :: rest). split; [done|]. apply (Hlen (t :: rest)).
Qed.

Lemma get_attribute_names_preorder_witness :
  let attrs :=
    [Leaf (Attr.Make "side" "string" ∅);
     Branch (Attr.Make "offset" "float3" ∅) 3
            [Leaf (Attr.Make "offsetX" "float" ∅);
             Leaf (Attr.Make "offsetY" "float" ∅);
             Leaf (Attr.Make "offsetZ" "float" ∅)];
     Leaf (Attr.Make "weight" "float" ∅)] in
  BaseData.get_attribute_names (BaseData.subclass "Rig" [1; 0; 0] attrs)
  = Ok ["side"; "offset"; "offsetX"; "offsetY"; "offsetZ"; "weight"].
Proof.
  intros attrs.
  exact (proj1 (proj2 (get_attribute_names_preorder
                         (BaseData.subclass "Rig" [1; 0; 0] attrs)))
               eq_refl attrs eq_refl).
Defined.

(** ** Records *)

Section MoreRecordFacts.
Import Host.

Lemma split_length sep s :
  length (Py.split sep s) = S (Reference.occurrences sep s).
Proof.
  induction s as [|c s IH]; [done|].
  cbn [Py.split Reference.occurrences].
  destruct (Ascii.eqb c sep); cbn [length]; [by rewrite IH|].
  destruct (Py.split sep s) as [|w ws]; [done|]. cbn [length] in *. lia.
Qed.

Lemma split_one sep s b : Py.split sep s = [b] -> s = b.
Proof.
  revert b. induction s as [|d s IH]; intros b; [by intros [= <-]|].
  cbn [Py.split]. destruct (Ascii.eqb d sep).
  - intros [= _ Hs]. pose proof (split_length sep s) as Hlen.
    by rewrite Hs in Hlen.
  - pose proof (split_length sep s) as Hlen.
    destruct (Py.split sep s) as [|w [|w' ws]] eqn:Hs; [done| |done].
    intros [= <-]. f_equal. by apply IH.
Qed.

Lemma split_two sep s a b :
  Py.split sep s = [a; b] -> s = a +:+ String sep b.
Proof.
  revert a. induction s as [|c s IH]; intros a; [done|].
  cbn [Py.split]. destruct (Ascii.eqb_spec c sep) as [->|Hc].
  - intros [= <- Hb]. by rewrite (split_one _ _ _ Hb).
  - pose proof (split_length sep s) as Hlen.
    destruct (Py.split sep s) as [|w ws] eqn:Hs; [done|].
    intros [= <- ->]. change (String c w +:+ String sep b)
      with (String c (w +:+ String sep b)).
    by rewrite (IH w).
Qed.

Lemma record_init_run e (s : scene) nd text :
  s !! owner e = Some nd ->
  multi nd !! index e ≫= value = Some text ->
  Record_.__init__ e s
  = (let* parts := Py.unpack2 (Py.split ":" text) in
     let* version := Py.map_int (Py.split "." parts.2) in
     Ok (Record_.Make e parts.1 version), s).
Proof.
  intros Hs Htext. unfold Record_.__init__.
  rewrite (mbind_ok _ _ s (Some text) s) by by rewrite (get_spec e s nd), Htext.
  unfold lift, mbind, ret.
  destruct (Py.unpack2 (Py.split ":" text)) as [[name ver]|x]; [|done].
  cbn [bind fst snd].
  by destruct (Py.map_int (Py.split "." ver)).
Qed.

End MoreRecordFacts.

(** X8.  What the constructor of a record does with the element it is
    given.  An element of a node that is gone is a host error; an
    element that holds nothing has no [split]; a string without a colon
    or with more than one does not unpack into a name and a version; a
    string with one colon gives the record with the text before the
    colon as its name, provided every piece between the dots after the
    colon reads as an integer to [int], which skips white space around
    a piece and single underscores between its digits, and the error of
    [int] otherwise, as for an empty version.  The scene is the same
    afterwards in every case. *)
Theorem record_init_cases (e : Host.element) (s : gmap nat Host.node) :
  (s !! Host.owner e = None ->
   Record_.__init__ e s = (Raise (HostError "no such node"), s)) /\
  (forall nd,
     s !! Host.owner e = Some nd ->
     Host.multi nd !! Host.index e ≫= Host.value = None ->
     Record_.__init__ e s = (Raise (AttributeError "split"), s)) /\
  (forall nd text,
     s !! Host.owner e = Some nd ->
     Host.multi nd !! Host.index e ≫= Host.value = Some text ->
     Reference.occurrences ":" text <> 1%nat ->
     Record_.__init__ e s = (Raise ValueError, s)) /\
  (forall nd name ver,
     s !! Host.owner e = Some nd ->
     Host.multi nd !! Host.index e ≫= Host.value
     = Some (name +:+ ":" +:+ ver) ->
     Py.contains ":" name = false ->
     Py.contains ":" ver = false ->
     Record_.__init__ e s
     = (match Py.map_int (Py.split "." ver) with
        | Ok version => Ok (Record_.Make e name version)
        | Raise x => Raise x
        end, s) /\
     (ver = "" -> Record_.__init__ e s = (Raise ValueError, s))) /\
  (forall r s', Record_.__init__ e s = (r, s') -> s' = s).
Proof.
  split; [|split; [|split; [|split]]].
  - intros Hs. unfold Record_.__init__, Host.mbind, Host.get. by rewrite Hs.
  - intros nd Hs Hnone. unfold Record_.__init__.
    by rewrite (mbind_ok _ _ s None s) by by rewrite (get_spec e s nd), Hnone.
  - intros nd text Hs Htext Hcolons.
    rewrite (record_init_run e s nd text Hs Htext).
    pose proof (split_length ":" text) as Hlen.
    destruct (Py.split ":" text) as [|a [|b [|c rest]]]; try done.
    cbn in Hlen. congruence.
  - intros nd name ver Hs Htext Hname Hver.
    rewrite (record_init_run e s nd _ Hs Htext).
    change (name +:+ ":" +:+ ver) with (name +:+ String ":" ver).
    rewrite split_at, (split_plain _ ver) by done.
    cbn [Py.unpack2 bind fst snd].
    split; [by destruct (Py.map_int (Py.split "." ver))|].
    by intros ->.
  - intros r s' Hrun.
    pose proof (reads_record_init e s) as Hreads.
    rewrite Hrun in Hreads. done.
Qed.

Lemma record_init_cases_witness :
  (let e := Host.Element 0 0 in
   Record_.__init__ e Demo.stale
   = (Ok (Record_.Make e "Foo" [0; 9; 0]), Demo.stale)) /\
  (let e := Host.Element 0 0 in
   let s : gmap nat Host.node :=
     {[0%nat := Host.Node [("DataRecords", None)]
                          {[0 := Host.Plug (Some "Foo:1.0. 0") true]}]} in
   Record_.__init__ e s = (Ok (Record_.Make e "Foo" [1; 0; 0]), s)).
Proof.
  split.
  - intros e.
    exact (proj1 (proj1 (proj2 (proj2 (proj2 (record_init_cases e Demo.stale))))
                    _ "Foo" "0.9.0" eq_refl eq_refl eq_refl eq_refl)).
  - intros e s.
    exact (proj1 (proj1 (proj2 (proj2 (proj2 (record_init_cases e s))))
                    _ "Foo" "1.0. 0" eq_refl eq_refl eq_refl eq_refl)).
Defined.

(** X9.  The setter of a record's version writes one element and
    nothing else.  On a node that is gone it raises the host's error and
    changes nothing.  Otherwise it returns, whether the element was
    locked or not; afterwards the element holds the name, a colon and
    the dotted version and is locked, every other element of the records
    attribute, the attributes of the node and all other nodes are as
    before.  Given the empty tuple it writes the name and a colon, which
    the constructor of a record no longer reads. *)
Theorem set_version_frame (r : Record_.t) (v : list Z)
        (s : gmap nat Host.node) :
  (s !! Host.owner (Record_.attr r) = None ->
   Record_.set_version r v s = (Raise (HostError "no such node"), s)) /\
  (forall nd,
     s !! Host.owner (Record_.attr r) = Some nd ->
     exists s' nd',
       Record_.set_version r v s
       = (Ok (Record_.Make (Record_.attr r) (Record_.name r) v), s') /\
       s' !! Host.owner (Record_.attr r) = Some nd' /\
       Host.attrs nd' = Host.attrs nd /\
       Host.multi nd' !! Host.index (Record_.attr r)
       = Some (Host.Plug (Some (Record_.name r +:+ ":"
                                +:+ Py.join "." (Py.str <$> v))) true) /\
       (forall i, i <> Host.index (Record_.attr r) ->
                  Host.multi nd' !! i = Host.multi nd !! i) /\
       (forall n, n <> Host.owner (Record_.attr r) -> s' !! n = s !! n) /\
       (v = [] -> Py.contains ":" (Record_.name r) = false ->
        Record_.__init__ (Record_.attr r) s' = (Raise ValueError, s'))).
Proof.
  split.
  - intros Hs. unfold Record_.set_version, Host.mbind, Host.unlock,
      Host.update_plug. by rewrite Hs.
  - intros nd Hs. rewrite (set_version_spec r v s nd Hs).
    eexists _, _. split; [reflexivity|].
    split; [by rewrite lookup_insert_eq|]. split; [done|].
    split; [by cbn [Host.multi]; rewrite lookup_insert_eq|].
    split; [by intros i Hi; cbn [Host.multi]; rewrite lookup_insert_ne|].
    split; [by intros n Hn; rewrite lookup_insert_ne|].
    intros -> Hname.
    erewrite record_init_run;
      [|by rewrite lookup_insert_eq
       |by cbn [Host.multi]; rewrite lookup_insert_eq].
    change (Record_.name r +:+ ":" +:+ Py.join "." (Py.str <$> []))
      with (Record_.name r +:+ String ":" "").
    by rewrite split_at.
Qed.

Lemma set_version_frame_witness :
  exists s' nd',
    Record_.set_version (Record_.Make (Host.Element 0 0) "Foo" [0; 9; 0])
                        [1; 0; 0] Demo.stale
    = (Ok (Record_.Make (Host.Element 0 0) "Foo" [1; 0; 0]), s') /\
    s' !! 0%nat = Some nd' /\
    Host.multi nd' !! 0 = Some (Host.Plug (Some "Foo:1.0.0") true).
Proof.
  destruct (proj2 (set_version_frame
                     (Record_.Make (Host.Element 0 0) "Foo" [0; 9; 0])
                     [1; 0; 0] Demo.stale) _ eq_refl)
    as (s' & nd' & Hrun & Hnode & _ & Hplug & _).
  by exists s', nd'.
Defined.

(** ** The records attribute *)

Section RecordsFacts.
Import Host Effects BaseData.

Lemma get_records_dead node force_add (s : scene) :
  s !! node = None ->
  _get_records node force_add s = (Raise (RuntimeError NodeIsNone), s).
Proof.
  intros Hs. unfold _get_records, mbind, objExists.
  rewrite Hs. by rewrite bool_decide_eq_false_2 by by intros [? ?].
Qed.

Lemma names_snoc nd name parent :
  name ∈ names (Node (attrs nd ++ [(name, parent)]) (multi nd)).
Proof.
  unfold names. cbn [attrs]. rewrite fmap_app.
  apply elem_of_app. right. by left.
Qed.

Lemma get_records_alive node force_add (s : scene) nd :
  s !! node = Some nd ->
  _get_records node force_add s
  = if bool_decide (_RECORDS_NAME ∈ names nd)
    then (Ok (Some node), s)
    else if force_add
         then (Ok (Some node),
               <[node := Node (attrs nd ++ [(_RECORDS_NAME, None)])
                              (multi nd)]> s)
         else (Ok None, s).
Proof.
  intros Hs.
  destruct (bool_decide_reflect (_RECORDS_NAME ∈ names nd))
    as [Hin|Hout]; [by apply (get_records_present node s nd)|].
  unfold _get_records, mbind, objExists, hasAttr.
  rewrite Hs. rewrite bool_decide_eq_true_2 by done. cbn [negb].
  rewrite Hs. rewrite bool_decide_eq_false_2 by done. cbn [negb andb].
  destruct force_add; [|done].
  unfold _create_records, addAttr, ret, attr.
  rewrite Hs. rewrite bool_decide_eq_false_2 by done.
  rewrite lookup_insert_eq.
  rewrite bool_decide_eq_true_2; [done|]. apply names_snoc.
Qed.

Lemma record_init_ok e (s s' : scene) r :
  Record_.__init__ e s = (Ok r, s') ->
  s' = s /\ Record_.attr r = e /\
  exists nd ver,
    s !! owner e = Some nd /\
    multi nd !! index e ≫= value = Some (Record_.name r +:+ String ":" ver) /\
    Py.contains ":" (Record_.name r) = false /\
    Py.map_int (Py.split "." ver) = Ok (Record_.version r).
Proof.
  intros Hrun.
  destruct (s !! owner e) as [nd|] eqn:Hs;
    [|by unfold Record_.__init__, mbind, get in Hrun; rewrite Hs in Hrun].
  destruct (multi nd !! index e ≫= value) as [text|] eqn:Htext.
  - rewrite (record_init_run e s nd text Hs Htext) in Hrun.
    destruct (Py.split ":" text) as [|a [|b [|c rest]]] eqn:Hsplit;
      try done.
    cbn [Py.unpack2 bind fst snd] in Hrun.
    destruct (Py.map_int (Py.split "." b)) as [version|] eqn:Hversion;
      [|done].
    injection Hrun as <- <-. split; [done|]. split; [done|].
    exists nd, b. split; [done|]. cbn [Record_.name Record_._name].
    split; [by rewrite Htext, (split_two _ _ _ _ Hsplit)|].
    split; [|done].
    apply (split_parts ":" text). rewrite Hsplit. by left.
  - unfold Record_.__init__ in Hrun.
    by rewrite (mbind_ok _ _ s None s) in Hrun
      by by rewrite (get_spec e s nd), Htext.
Qed.

Lemma scan_records_found records data_name (s : scene) nd :
  s !! records = Some nd ->
  forall indices r s',
    scan_records records data_name indices s = (Ok (Some r), s') ->
    s' = s /\
    exists pre i post,
      indices = pre ++ i :: post /\
      Record_.__init__ (Element records i) s = (Ok r, s) /\
      Record_.name r = data_name /\
      forall j, j ∈ pre ->
        blank (multi nd !! j ≫= value) = true \/
        exists name ver,
          Py.unpack2 (Py.split ":" (default "" (multi nd !! j ≫= value)))
          = Ok (name, ver) /\ name <> data_name.
Proof.
  intros Hs. induction indices as [|i rest IH]; intros r s'; [done|].
  cbn [scan_records].
  rewrite (mbind_ok _ _ s (multi nd !! i ≫= value) s)
    by apply (get_spec (Element records i) s nd Hs).
  destruct (blank (multi nd !! i ≫= value)) eqn:Hblank.
  - intros Hrun. destruct (IH r s' Hrun)
      as (-> & pre & k & post & -> & Hinit & Hname & Hpre).
    split; [done|]. exists (i :: pre), k, post.
    split; [done|]. split; [done|]. split; [done|].
    intros j [->|Hj]%elem_of_cons; [by left|by apply Hpre].
  - destruct (Py.unpack2 (Py.split ":" (default "" (multi nd !! i ≫= value))))
      as [[name ver]|x] eqn:Hparts; [|done].
    rewrite (mbind_ok _ _ s (name, ver) s) by done.
    destruct (bool_decide_reflect (name = data_name)) as [->|Hne].
    + destruct (multi nd !! i ≫= value) as [text|] eqn:Htext; [|done].
      change (default "" (Some text)) with text in Hparts.
      pose proof (record_init_run (Element records i) s nd text Hs Htext)
        as Hinit.
      rewrite Hparts in Hinit. cbn [bind fst snd] in Hinit.
      destruct (Py.map_int (Py.split "." ver)) as [version|].
      * rewrite (mbind_ok _ _ s _ s Hinit). unfold ret.
        intros [= <- <-]. split; [done|]. exists [], i, rest.
        split; [done|]. split; [done|]. split; [done|].
        by intros j Hj%elem_of_nil.
      * by rewrite (mbind_raise _ _ s _ s Hinit).
    + intros Hrun. destruct (IH r s' Hrun)
        as (-> & pre & k & post & -> & Hinit & Hname & Hpre).
      split; [done|]. exists (i :: pre), k, post.
      split; [done|]. split; [done|]. split; [done|].
      intros j [->|Hj]%elem_of_cons; [|by apply Hpre].
      right. by exists name, ver.
Qed.

Lemma get_record_inv c node (s s' : scene) r :
  get_record c node s = (Ok (Some r), s') ->
  s' = s /\
  exists nd pre i post,
    s !! node = Some nd /\
    _RECORDS_NAME ∈ names nd /\
    merge_sort Z.le (elements (dom (multi nd))) = pre ++ i :: post /\
    Record_.__init__ (Element node i) s = (Ok r, s) /\
    Record_.name r = get_data_name c /\
    forall j, j ∈ pre ->
      blank (multi nd !! j ≫= value) = true \/
      exists name ver,
        Py.unpack2 (Py.split ":" (default "" (multi nd !! j ≫= value)))
        = Ok (name, ver) /\ name <> get_data_name c.
Proof.
  unfold get_record, _get_record_by_name. intros Hrun.
  destruct (s !! node) as [nd|] eqn:Hs;
    [|by rewrite (mbind_raise _ _ s (RuntimeError NodeIsNone) s) in Hrun
        by by apply get_records_dead].
  pose proof (get_records_alive node false s nd Hs) as Hrecords.
  destruct (bool_decide_reflect (_RECORDS_NAME ∈ names nd))
    as [Hin|Hout]; [|by rewrite (mbind_ok _ _ s None s) in Hrun].
  rewrite (mbind_ok _ _ s (Some node) s) in Hrun by done.
  rewrite (mbind_ok _ _ s _ s) in Hrun
    by apply (getArrayIndices_spec node s nd Hs).
  destruct (scan_records_found node (get_data_name c) s nd Hs _ r s' Hrun)
    as (-> & pre & i & post & Hindices & Hinit & Hname & Hpre).
  split; [done|]. by exists nd, pre, i, post.
Qed.

Lemma get_record_owner c node (s s' : scene) r :
  get_record c node s = (Ok (Some r), s') -> owner (Record_.attr r) = node.
Proof.
  intros Hrun.
  destruct (get_record_inv c node s s' r Hrun)
    as (_ & nd & pre & i & post & _ & _ & _ & Hinit & _).
  destruct (record_init_ok _ s s r Hinit) as (_ & Hattr & _).
  by rewrite Hattr.
Qed.

End RecordsFacts.

(** X10.  [_get_records] on a node that is gone stops with the error
    of the module; on a node that has the records attribute it hands
    back the node's attribute and changes nothing, whatever [force_add]
    is; on a node without it, it answers [None] and changes nothing
    when not forced, and when forced appends the records attribute,
    without parent and without elements, to the attributes of the node
    and hands it back.  Asking again after a forced call gives the same
    answer and changes nothing more. *)
Theorem get_records_cases (node : nat) (force_add : bool)
        (s : gmap nat Host.node) :
  (s !! node = None ->
   BaseData._get_records node force_add s
   = (Raise (RuntimeError NodeIsNone), s)) /\
  (forall nd,
     s !! node = Some nd ->
     BaseData._get_records node force_add s
     = if bool_decide (BaseData._RECORDS_NAME ∈ Host.names nd)
       then (Ok (Some node), s)
       else if force_add
            then (Ok (Some node),
                  <[node := Host.Node (Host.attrs nd
                                       ++ [(BaseData._RECORDS_NAME, None)])
                                      (Host.multi nd)]> s)
            else (Ok None, s)) /\
  (forall r s',
     BaseData._get_records node true s = (r, s') ->
     BaseData._get_records node force_add s' = (r, s')).
Proof.
  split; [by apply get_records_dead|]. split; [by apply get_records_alive|].
  intros r s'. destruct (s !! node) as [nd|] eqn:Hs.
  - rewrite (get_records_alive node true s nd Hs).
    destruct (bool_decide_reflect (BaseData._RECORDS_NAME ∈ Host.names nd))
      as [Hin|Hout].
    + intros [= <- <-]. rewrite (get_records_alive node force_add s nd Hs).
      by rewrite bool_decide_eq_true_2.
    + intros [= <- <-].
      erewrite get_records_alive by by rewrite lookup_insert_eq.
      rewrite bool_decide_eq_true_2; [done|]. apply names_snoc.
  - rewrite (get_records_dead node true s Hs). intros [= <- <-].
    by apply get_records_dead.
Qed.

Lemma get_records_cases_witness :
  BaseData._get_records 0 true Demo.bare
  = (Ok (Some 0%nat),
     <[0%nat := Host.Node [("DataRecords", None)] ∅]> Demo.bare).
Proof.
  exact (proj1 (proj2 (get_records_cases 0 true Demo.bare))
               (Host.Node [] ∅) eq_refl).
Defined.

(** X11.  A record that [get_record] finds is the record of the class
    on that node: the call changes nothing; the node has the records
    attribute; the record's element is an element of that attribute and
    holds the data name of the class, a colon and a dotted version that
    reads as the record's version; and it is the first such element,
    every element in use at a smaller index being empty or bearing
    another name. *)
Theorem get_record_sound (c : BaseData.class) (node : nat)
        (s s' : gmap nat Host.node) (r : Record_.t) :
  BaseData.get_record c node s = (Ok (Some r), s') ->
  s' = s /\
  Record_.name r = BaseData.get_data_name c /\
  Host.owner (Record_.attr r) = node /\
  exists nd ver,
    s !! node = Some nd /\
    BaseData._RECORDS_NAME ∈ Host.names nd /\
    Host.multi nd !! Host.index (Record_.attr r) ≫= Host.value
    = Some (BaseData.get_data_name c +:+ ":" +:+ ver) /\
    Py.map_int (Py.split "." ver) = Ok (Record_.version r) /\
    forall j p,
      Host.multi nd !! j = Some p -> j < Host.index (Record_.attr r) ->
      BaseData.blank (Host.value p) = true \/
      exists name ver',
        Py.unpack2 (Py.split ":" (default "" (Host.value p)))
        = Ok (name, ver') /\ name <> BaseData.get_data_name c.
Proof.
  intros Hrun.
  destruct (get_record_inv c node s s' r Hrun)
    as (-> & nd & pre & i & post & Hs & Hin & Hindices & Hinit & Hname & Hpre).
  destruct (record_init_ok _ s s r Hinit)
    as (_ & Hattr & nd' & ver & Hnd' & Htext & _ & Hversion).
  cbn [Host.owner Host.index] in Hnd', Htext.
  assert (nd' = nd) as -> by congruence.
  split; [done|]. split; [done|]. split; [by rewrite Hattr|].
  exists nd, ver. split; [done|]. split; [done|].
  rewrite Hattr. cbn [Host.index]. split; [by rewrite Htext, Hname|].
  split; [done|].
  intros j p Hj Hlt.
  assert (Hsorted : StronglySorted Z.le (pre ++ i :: post)).
  { rewrite <- Hindices. apply StronglySorted_merge_sort; apply _. }
  assert (Hin_j : j ∈ pre ++ i :: post).
  { rewrite <- Hindices, merge_sort_Permutation, elem_of_elements.
    apply elem_of_dom. by exists p. }
  apply elem_of_app in Hin_j as [Hin_j|Hin_j].
  - specialize (Hpre j Hin_j). by rewrite Hj in Hpre.
  - apply StronglySorted_app_1_r, StronglySorted_cons in Hsorted
      as [Hall _].
    rewrite Forall_forall in Hall.
    apply elem_of_cons in Hin_j as [->|Hin_j]; [lia|].
    specialize (Hall j Hin_j). lia.
Qed.

Lemma get_record_sound_witness :
  Record_.name (Record_.Make (Host.Element 0 0) "Foo" [0; 9; 0]) = "Foo" /\
  Host.owner (Record_.attr (Record_.Make (Host.Element 0 0) "Foo" [0; 9; 0]))
  = 0%nat.
Proof.
  destruct (get_record_sound Demo.Foo 0 Demo.stale Demo.stale
              (Record_.Make (Host.Element 0 0) "Foo" [0; 9; 0]))
    as (_ & Hname & Howner & _); [by vm_compute|].
  by split.
Defined.

(** ** Reading data *)

Section DataFacts.
Import Host Effects BaseData.

Lemma attr_run node name (s : scene) nd :
  s !! node = Some nd ->
  attr node name s
  = (if bool_decide (name ∈ names nd) then Ok name
     else Raise (HostError "no such attribute"), s).
Proof.
  intros Hs. unfold attr. rewrite Hs. by destruct (bool_decide _).
Qed.

Lemma get_record_dead c node (s : scene) :
  s !! node = None ->
  get_record c node s = (Raise (RuntimeError NodeIsNone), s).
Proof.
  intros Hs. unfold get_record, _get_record_by_name.
  by rewrite (mbind_raise _ _ s (RuntimeError NodeIsNone) s)
    by by apply get_records_dead.
Qed.

Lemma get_data_raise copyAttr depth self node force_add (s s' : scene) e :
  get_record (cls self) node s = (Raise e, s') ->
  get_data copyAttr (S depth) self node force_add s = (Raise e, s').
Proof. intros Hget. cbn [get_data]. by rewrite (mbind_raise _ _ _ _ _ Hget). Qed.

Lemma get_data_none copyAttr depth self node (s : scene) :
  get_record (cls self) node s = (Ok None, s) ->
  get_data copyAttr (S depth) self node false s = (Ok None, s).
Proof. intros Hget. cbn [get_data]. by rewrite (mbind_ok _ _ _ _ _ Hget). Qed.

(** [get_data] from the point where the record has been found. *)
Lemma get_data_some copyAttr depth self node force_add (s : scene) record :
  get_record (cls self) node s = (Ok (Some record), s) ->
  get_data copyAttr (S depth) self node force_add s
  = (let self := Instance (cls self) (_flags self) None (Some node) in
     let data_name := get_data_name (cls self) in
     let record_version := Record_.version record in
     let current_version := version self in
     let! _ :=
       (if Py.tuple_lt record_version current_version then
          let! old_data := attr node data_name in
          let! wanted :=
            pre_update_version (cls self) old_data record_version in
          if wanted then
            let! updated :=
              update_version copyAttr (get_data copyAttr depth) self old_data
                             record_version in
            let! _ :=
              (if updated
               then let! _ := Record_.set_version record current_version in
                    ret tt
               else ret tt) in
            let! data := attr node data_name in
            post_update_version (cls self) data updated
          else ret tt
        else ret tt) in
     let! data := attr node data_name in
     ret (Some data)) s.
Proof.
  intros Hget. cbn [get_data]. rewrite (mbind_ok _ _ _ _ _ Hget).
  change (negb (bool_decide (is_Some (Some record))) && force_add) with false.
  cbv iota. by rewrite (mbind_ok _ _ s _ s) by done.
Qed.

End DataFacts.

(** ** Placing a record, comparing versions, reporting conflicts *)

Section PlacementFacts.
Import Host Effects BaseData.

Lemma reads_add_data_to_records self : reads (_add_data_to_records self).
Proof.
  unfold _add_data_to_records.
  destruct (_records self) as [r|]; [|apply reads_ret].
  apply reads_bind; [apply reads_hasAttr|]. intros [|]; [|apply reads_ret].
  apply reads_bind; [apply reads_getArrayIndices|]. by intros indices s.
Qed.





End PlacementFacts.

(** C5 does not hold of the code.  [_add_data_to_records] computes the
    index as the claim says, for every set [used] of indices in use (as
    [getArrayIndices] lists them): 0 when the set is empty; the smallest
    unused index below the largest used one when there is such a hole;
    the largest used index plus one otherwise; so 3 after {0,1,2}, 1
    after {0,2} and 0 after {}.  But before it writes, it formats the
    record with [get_version_string], which raises (C3).  On a node
    with the records attribute and the elements [used] the call raises
    the type error, and the element at the index it computed, which was
    free, is as free as before; and whatever the instance and the scene,
    the call leaves the scene as it found it, so no record is placed at
    that index or at any other. *)
Theorem next_index_allocation (used : gset Z) :
  (forall i, i ∈ used -> 0 <= i) ->
  let idx := BaseData.next_index (merge_sort Z.le (elements used)) in
  (used = ∅ -> idx = 0) /\
  (forall top,
     top ∈ used -> (forall i, i ∈ used -> i <= top) ->
     ((exists i, 0 <= i < top /\ i ∉ used) ->
      0 <= idx < top /\ (idx ∉ used) /\ forall j, 0 <= j < idx -> j ∈ used) /\
     ((forall i, 0 <= i < top -> i ∈ used) -> idx = top + 1)) /\
  BaseData.next_index (merge_sort Z.le (elements ({[0; 1; 2]} : gset Z))) = 3 /\
  BaseData.next_index (merge_sort Z.le (elements ({[0; 2]} : gset Z))) = 1 /\
  BaseData.next_index (merge_sort Z.le (elements (∅ : gset Z))) = 0 /\
  (forall self r (s : gmap nat Host.node) nd,
     BaseData._records self = Some r ->
     s !! r = Some nd ->
     BaseData._RECORDS_NAME ∈ Host.names nd ->
     dom (Host.multi nd) = used ->
     Host.multi nd !! idx = None /\
     BaseData._add_data_to_records self s = (Raise TypeError, s)) /\
  (forall self (s : gmap nat Host.node),
     (BaseData._add_data_to_records self s).2 = s).
Proof.
  intros Hpos. cbn zeta.
  assert (Hperm : forall i, i ∈ merge_sort Z.le (elements used) <-> i ∈ used).
  { intros i. rewrite merge_sort_Permutation. apply elem_of_elements. }
  split; [|split; [|split; [by vm_compute|split; [by vm_compute|
    split; [by vm_compute|split]]]]].
  - intros ->. by rewrite elements_empty.
  - intros top Htop Hmax.
    destruct (next_index_sorted (merge_sort Z.le (elements used)) top)
      as [Hhole Hfull].
    + apply StronglySorted_merge_sort; apply _.
    + intros i Hi. by apply Hpos, Hperm.
    + by apply Hperm.
    + intros i Hi. by apply Hmax, Hperm.
    + cbn zeta in *. split.
      * intros (i & Hi & Hout).
        destruct Hhole as (Hrange & Hfree & Hbelow).
        { exists i. by rewrite Hperm. }
        split; [done|]. split; [by rewrite <- Hperm|].
        intros j Hj. by apply Hperm, Hbelow.
      * intros Hall. apply Hfull. intros i Hi. by apply Hperm, Hall.
  - intros self r s nd Hrecords Hs Hrec Hdom. split.
    + apply not_elem_of_dom. rewrite Hdom, <- Hperm.
      apply next_index_fresh.
      * apply StronglySorted_merge_sort; apply _.
      * intros i Hi. by apply Hpos, Hperm.
    + apply (add_data_to_records_raises self r); [done|]. by exists nd.
  - intros self s. apply reads_add_data_to_records.
Qed.

Lemma next_index_allocation_witness :
  (let idx :=
     BaseData.next_index (merge_sort Z.le (elements ({[0; 1; 3]} : gset Z))) in
   0 <= idx < 3 /\ idx ∉ ({[0; 1; 3]} : gset Z)) /\
  BaseData._add_data_to_records
    (BaseData.Instance Demo.Foo ∅ (Some 0%nat) (Some 0%nat)) Demo.gapped
  = (Raise TypeError, Demo.gapped).
Proof.
  split.
  - assert (Hin : forall i, i ∈ ({[0; 1; 3]} : gset Z) ->
                            i = 0 \/ i = 1 \/ i = 3).
    { intros i Hi. apply elem_of_union in Hi as [Hi|Hi].
      - apply elem_of_union in Hi as [Hi|Hi];
          apply elem_of_singleton in Hi; lia.
      - apply elem_of_singleton in Hi; lia. }
    assert (Hpos : forall i, i ∈ ({[0; 1; 3]} : gset Z) -> 0 <= i).
    { intros i Hi. apply Hin in Hi. lia. }
    destruct (next_index_allocation {[0; 1; 3]} Hpos) as (_ & Hmax & _).
    destruct (Hmax 3) as [Hhole _].
    + apply elem_of_union_r. by apply elem_of_singleton.
    + intros i Hi. apply Hin in Hi. lia.
    + cbn zeta. destruct Hhole as (Hrange & Hfree & _); [|done].
      exists 2. split; [lia|]. intros Hi. apply Hin in Hi. lia.
  - assert (Hpos : forall i, i ∈ ({[0; 2]} : gset Z) -> 0 <= i).
    { intros i Hi. apply elem_of_union in Hi as [Hi|Hi];
        apply elem_of_singleton in Hi; lia. }
    destruct (next_index_allocation {[0; 2]} Hpos)
      as (_ & _ & _ & _ & _ & Hcall & _).
    apply (Hcall _ 0%nat Demo.gapped
             (Host.Node [("DataRecords", None); ("Other", None);
                         ("More", None)]
                        {[0 := Host.Plug (Some "Other:0.0.0") true;
                          2 := Host.Plug (Some "More:0.0.0") true]})).
    + reflexivity.
    + reflexivity.
    + by left.
    + cbn [Host.multi]. by rewrite dom_insert_L, dom_singleton_L.
Defined.

(** C6.  Writing a version through the setter of a record and reading the
    element back with the constructor gives the same tuple, for every
    non-empty tuple of integers (so for every major, minor, patch): the
    setter leaves the element locked and holding the name, a colon and the
    dotted version, and a record made from that element has that name and
    exactly that version.  The comparison [get_data] makes between a
    record's version and the class's is the lexicographic order on
    tuples of integers; (0,9,0) is below (1,0,0), and below (0,10,0).
    And [get_data] goes by it: on a node with a record and the data
    attribute of the class, a record whose version is not below the
    class's in that order is handed back with no hook consulted, and
    one whose version is below is put to [pre_update_version], so that
    a hook that raises makes the call raise. *)
Theorem record_version_round_trip :
  (forall (e : Host.element) (s0 s1 s : gmap nat Host.node)
          (r : Record_.t) (v : list Z),
     Record_.__init__ e s0 = (Ok r, s1) ->
     is_Some (s !! Host.owner e) ->
     v <> [] ->
     exists s',
       Record_.set_version r v s
       = (Ok (Record_.Make e (Record_.name r) v), s') /\
       Host.get e s'
       = (Ok (Some (Record_.name r +:+ ":" +:+ Py.join "." (Py.str <$> v))),
          s') /\
       (exists nd p,
          s' !! Host.owner e = Some nd /\
          Host.multi nd !! Host.index e = Some p /\
          Host.locked p = true) /\
       Record_.__init__ e s' = (Ok (Record_.Make e (Record_.name r) v), s')) /\
  (forall a b, Py.tuple_lt a b = true <-> lex_lt a b) /\
  (forall a1 b1 c1 a2 b2 c2,
     Py.tuple_lt [a1; b1; c1] [a2; b2; c2] = true <->
     a1 < a2 \/ (a1 = a2 /\ (b1 < b2 \/ (b1 = b2 /\ c1 < c2)))) /\
  Py.tuple_lt [0; 9; 0] [1; 0; 0] = true /\
  Py.tuple_lt [0; 9; 0] [0; 10; 0] = true /\
  (forall copyAttr depth self node force_add (s : gmap nat Host.node) nd
          record,
     let c := BaseData.cls self in
     let data_name := BaseData.get_data_name c in
     BaseData.get_record c node s = (Ok (Some record), s) ->
     s !! node = Some nd ->
     data_name ∈ Host.names nd ->
     (~ lex_lt (Record_.version record) (BaseData.get_class_version c) ->
      BaseData.get_data copyAttr (S depth) self node force_add s
      = (Ok (Some data_name), s)) /\
     (lex_lt (Record_.version record) (BaseData.get_class_version c) ->
      forall e s1,
        BaseData.pre_update_version c data_name (Record_.version record) s
        = (Raise e, s1) ->
        BaseData.get_data copyAttr (S depth) self node force_add s
        = (Raise e, s1))).
Proof.
  split; [|split; [apply tuple_lt_lex|split; [|split; [done|split; [done|]]]]].
  - intros e s0 s1 s r v Hr [nd Hs] Hv.
    apply init_name_plain in Hr as [<- Hname].
    eexists. split; [by apply set_version_spec|].
    split; [|split].
    + erewrite get_spec by apply lookup_insert_eq.
      cbn [Host.multi]. by rewrite lookup_insert_eq.
    + eexists _, _. split; [apply lookup_insert_eq|].
      cbn [Host.multi]. split; [apply lookup_insert_eq|done].
    + eapply init_decodes; [apply lookup_insert_eq| |done|done].
      cbn [Host.multi]. by rewrite lookup_insert_eq.
  - intros a1 b1 c1 a2 b2 c2. cbn [Py.tuple_lt].
    destruct (Z.eqb_spec a1 a2), (Z.eqb_spec b1 b2), (Z.eqb_spec c1 c2);
      rewrite ?Z.ltb_lt; split; intros H; (done || lia).
  - intros copyAttr depth self node force_add s nd record c data_name
      Hget Hs Hin.
    assert (Hattr : Host.attr node data_name s = (Ok data_name, s))
      by by rewrite (attr_run node data_name s nd Hs), bool_decide_eq_true_2.
    rewrite (get_data_some _ _ _ _ _ _ _ Hget).
    cbv zeta. unfold BaseData.version. cbn [BaseData.cls].
    fold c. fold data_name. split.
    + intros Hnot.
      destruct (Py.tuple_lt (Record_.version record)
                            (BaseData.get_class_version c)) eqn:Hlt;
        [by apply tuple_lt_lex in Hlt|].
      rewrite (mbind_ok _ _ s tt s) by done.
      by rewrite (mbind_ok _ _ s _ s Hattr).
    + intros Hlt%tuple_lt_lex e s1 Hhook. rewrite Hlt.
      erewrite mbind_raise; [done|].
      erewrite mbind_ok by exact Hattr.
      by erewrite mbind_raise by exact Hhook.
Qed.

Lemma record_version_round_trip_witness :
  (let e := Host.Element 0 0 in
   let s : gmap nat Host.node :=
     {[0%nat := Host.Node [("DataRecords", None); ("Foo", None)]
                          {[0 := Host.Plug (Some "Foo:0.9.0") true]}]} in
   exists s',
     Record_.set_version (Record_.Make e "Foo" [0; 9; 0]) [1; 2; 0] s
     = (Ok (Record_.Make e "Foo" [1; 2; 0]), s') /\
     Record_.__init__ e s' = (Ok (Record_.Make e "Foo" [1; 2; 0]), s')) /\
  BaseData.get_data (fun _ _ _ => Host.ret tt) 1 (Demo.new Demo.FooStrict)
                    0 false Demo.stale
  = (Raise ValueError, Demo.stale).
Proof.
  split.
  - intros e s.
    assert (Hr : Record_.__init__ e s
                 = (Ok (Record_.Make e "Foo" [0; 9; 0]), s))
      by (vm_compute; reflexivity).
    assert (Hs : is_Some (s !! Host.owner e)) by (vm_compute; eauto).
    destruct (proj1 record_version_round_trip e s s s _ [1; 2; 0] Hr Hs
                ltac:(discriminate))
      as (s' & Hset & _ & _ & Hinit).
    by exists s'.
  - pose (nd := Host.Node [("DataRecords", None); ("Foo", None);
                           ("b", Some "Foo")]
                          {[0 := Host.Plug (Some "Foo:0.9.0") true]}).
    pose (record := Record_.Make (Host.Element 0 0) "Foo" [0; 9; 0]).
    assert (Hget : BaseData.get_record
                     (BaseData.cls (Demo.new Demo.FooStrict)) 0 Demo.stale
                   = (Ok (Some record), Demo.stale)) by by vm_compute.
    assert (Hin : "Foo" ∈ Host.names nd) by (right; by left).
    destruct record_version_round_trip as (_ & Hlex & _ & _ & _ & Hdata).
    apply (proj2 (Hdata (fun _ _ _ => Host.ret tt) 0%nat
                        (Demo.new Demo.FooStrict) 0%nat false Demo.stale nd
                        record Hget eq_refl Hin)).
    + by apply Hlex.
    + reflexivity.
Defined.




(** X12.  [get_data] on a node that holds no record of the class.  On a
    node that is gone it stops with the error of the module, whatever
    [force_add] is.  Without [force_add], on a node without the records
    attribute, and on a node whose records all decode and none of which
    bears the data name of the class, the answer is [None]; in all
    three cases the scene is as it was. *)
Theorem get_data_without_record
        (copyAttr : nat -> nat -> list string -> Host.M unit) (depth : nat)
        (self : BaseData.instance) (node : nat) (s : gmap nat Host.node) :
  (s !! node = None ->
   forall force_add,
     BaseData.get_data copyAttr (S depth) self node force_add s
     = (Raise (RuntimeError NodeIsNone), s)) /\
  (forall nd,
     s !! node = Some nd ->
     BaseData._RECORDS_NAME ∉ Host.names nd ->
     BaseData.get_data copyAttr (S depth) self node false s = (Ok None, s)) /\
  (forall nd record_names,
     s !! node = Some nd ->
     BaseData._RECORDS_NAME ∈ Host.names nd ->
     BaseData.collect_record_names
       node (merge_sort Z.le (elements (dom (Host.multi nd)))) s
     = (Ok record_names, s) ->
     BaseData.get_data_name (BaseData.cls self) ∉ record_names ->
     BaseData.get_data copyAttr (S depth) self node false s = (Ok None, s)).
Proof.
  split; [|split].
  - intros Hs force_add. by apply get_data_raise, get_record_dead.
  - intros nd Hs Hout. by eapply get_data_none, get_record_none.
  - intros nd record_names Hs Hin Hnames Hout.
    by eapply get_data_none, get_record_absent.
Qed.

Lemma get_data_without_record_witness :
  BaseData.get_data (fun _ _ _ => Host.ret tt) 1 (Demo.new Demo.Plain) 0 false
                    Demo.taken
  = (Ok None, Demo.taken).
Proof.
  apply (proj2 (proj2 (get_data_without_record
                         (fun _ _ _ => Host.ret tt) 0 (Demo.new Demo.Plain)
                         0 Demo.taken))
               (Host.Node [("DataRecords", None); ("Other", None);
                           ("foo", Some "Other")]
                          {[0 := Host.Plug (Some "Other:0.0.0") true]})
               ["Other"]).
  - reflexivity.
  - by left.
  - reflexivity.
  - intros H%list_elem_of_singleton. by vm_compute in H.
Defined.

(** X13.  [get_data] on a node that holds a record of the class,
    whatever [force_add] is.  A record that is not older than the class
    is left alone: the answer is the compound attribute of the data
    name, or the host's error when the node lacks that attribute, and
    the scene is as it was.  For an older record the attribute is looked
    up first, so a node that lacks it gives that error before any hook
    runs.  When [pre_update_version] then declines, the attribute is
    handed back and the record stays as old as it was.  When it
    accepts, the call never returns: it raises, the same exception
    whatever the host's copy would do, nothing is deleted and no record
    is rewritten, and the scratch node stays in the scene. *)
Theorem get_data_found
        (depth : nat) (self : BaseData.instance) (node : nat)
        (force_add : bool) (s : gmap nat Host.node) (nd : Host.node)
        (record : Record_.t) :
  let c := BaseData.cls self in
  let data_name := BaseData.get_data_name c in
  BaseData.get_record c node s = (Ok (Some record), s) ->
  s !! node = Some nd ->
  (Py.tuple_lt (Record_.version record) (BaseData.get_class_version c) = false ->
   forall copyAttr,
     BaseData.get_data copyAttr (S depth) self node force_add s
     = (if bool_decide (data_name ∈ Host.names nd) then Ok (Some data_name)
        else Raise (HostError "no such attribute"), s)) /\
  (Py.tuple_lt (Record_.version record) (BaseData.get_class_version c) = true ->
   (data_name ∉ Host.names nd ->
    forall copyAttr,
      BaseData.get_data copyAttr (S depth) self node force_add s
      = (Raise (HostError "no such attribute"), s)) /\
   (data_name ∈ Host.names nd ->
    BaseData.pre_update_version c data_name (Record_.version record) s
    = (Ok false, s) ->
    forall copyAttr,
      BaseData.get_data copyAttr (S depth) self node force_add s
      = (Ok (Some data_name), s)) /\
   (data_name ∈ Host.names nd ->
    forall s1,
      BaseData.pre_update_version c data_name (Record_.version record) s
      = (Ok true, s1) ->
      exists e s2,
        (forall copyAttr,
           BaseData.get_data copyAttr (S depth) self node force_add s
           = (Raise e, s2)) /\
        is_Some (s2 !! Host.new_handle s1) /\
        Effects.grows s1 s2)).
Proof.
  intros c data_name Hget Hs.
  assert (Hattr : Host.attr node data_name s
                  = (if bool_decide (data_name ∈ Host.names nd)
                     then Ok data_name
                     else Raise (HostError "no such attribute"), s))
    by by apply attr_run.
  split; [|intros Hlt; split; [|split]].
  - intros Hlt copyAttr. rewrite (get_data_some _ _ _ _ _ _ _ Hget).
    cbv zeta. unfold BaseData.version. cbn [BaseData.cls].
    fold c. fold data_name. rewrite Hlt.
    rewrite (mbind_ok _ _ s tt s) by done.
    unfold Host.mbind. rewrite Hattr. by destruct (bool_decide _).
  - intros Hout copyAttr. rewrite (get_data_some _ _ _ _ _ _ _ Hget).
    cbv zeta. unfold BaseData.version. cbn [BaseData.cls].
    fold c. fold data_name. rewrite Hlt.
    rewrite bool_decide_eq_false_2 in Hattr by done.
    erewrite mbind_raise; [done|]. by erewrite mbind_raise.
  - intros Hin Hhook copyAttr. rewrite (get_data_some _ _ _ _ _ _ _ Hget).
    cbv zeta. unfold BaseData.version. cbn [BaseData.cls].
    fold c. fold data_name. rewrite Hlt.
    rewrite bool_decide_eq_true_2 in Hattr by done.
    erewrite mbind_ok;
      [|erewrite mbind_ok by exact Hattr; erewrite mbind_ok by exact Hhook;
        reflexivity].
    by rewrite (mbind_ok _ _ s _ s Hattr).
  - intros Hin s1 Hhook.
    rewrite bool_decide_eq_true_2 in Hattr by done.
    destruct (update_version_raises depth
                (BaseData.Instance c (BaseData._flags self) None (Some node))
                data_name (Record_.version record) s1)
      as (e & s2 & Hraise & Hnew & Hgrows).
    exists e, s2. split; [|done].
    intros copyAttr. rewrite (get_data_some _ _ _ _ _ _ _ Hget).
    cbv zeta. unfold BaseData.version. cbn [BaseData.cls].
    fold c. fold data_name. rewrite Hlt.
    erewrite mbind_raise; [done|].
    erewrite mbind_ok by exact Hattr. erewrite mbind_ok by exact Hhook.
    cbv iota. erewrite mbind_raise; [done|]. apply Hraise.
Qed.

Lemma get_data_found_witness :
  BaseData.get_data (fun _ _ _ => Host.ret tt) 1 (Demo.new Demo.Foo) 0 false
                    Demo.stale
  = (Ok (Some "Foo"), Demo.stale).
Proof.
  pose (nd := Host.Node [("DataRecords", None); ("Foo", None);
                         ("b", Some "Foo")]
                        {[0 := Host.Plug (Some "Foo:0.9.0") true]}).
  pose (record := Record_.Make (Host.Element 0 0) "Foo" [0; 9; 0]).
  assert (Hget : BaseData.get_record (BaseData.cls (Demo.new Demo.Foo)) 0
                                     Demo.stale
                 = (Ok (Some record), Demo.stale)) by by vm_compute.
  assert (Hin : "Foo" ∈ Host.names nd) by (right; by left).
  exact (proj1 (proj2 (proj2 (get_data_found 0 (Demo.new Demo.Foo) 0 false
                                Demo.stale nd record Hget eq_refl)
                             eq_refl))
               Hin eq_refl (fun _ _ _ => Host.ret tt)).
Defined.

(** ** Checking versions over the scene *)

Section ScanFacts.
Import Host Effects BaseData.

Lemma reads_declined (m : M bool) (k : M unit) :
  reads m -> (forall s, (m s).1 <> Ok true) ->
  reads (let! wanted := m in if wanted then k else ret tt).
Proof.
  intros Hreads Hnever s. unfold mbind. specialize (Hreads s).
  specialize (Hnever s). by destruct (m s) as [[[|]|e] s1].
Qed.

Lemma get_data_reads copyAttr depth self node :
  (forall d v, reads (pre_update_version (cls self) d v)) ->
  (forall d v s, (pre_update_version (cls self) d v s).1 <> Ok true) ->
  reads (get_data copyAttr depth self node false).
Proof.
  intros Hreads Hnever s. destruct depth as [|depth]; [done|].
  destruct (get_record (cls self) node s) as [r s'] eqn:Hget.
  assert (s' = s) as -> by (by eapply reads_run; [apply reads_get_record|]).
  destruct r as [[record|]|e].
  - rewrite (get_data_some _ _ _ _ _ _ _ Hget). cbv zeta.
    apply reads_bind.
    + destruct (Py.tuple_lt _ _); [|apply reads_ret].
      apply reads_bind; [apply reads_attr|]. intros old_data.
      apply reads_declined; [apply Hreads|apply Hnever].
    + intros _. apply reads_bind; [apply reads_attr|]. intros data.
      apply reads_ret.
  - by rewrite (get_data_none _ _ _ _ _ Hget).
  - by rewrite (get_data_raise _ _ _ _ _ _ _ _ Hget).
Qed.

Lemma init_hook c kwargs self :
  __init__ c kwargs = Ok self ->
  pre_update_version (cls self) = pre_update_version c.
Proof.
  unfold __init__, _init_class_attributes.
  destruct (bool_decide _); [|done].
  destruct (attributes c); [|by intros [= <-]].
  destruct (get_attributes c); [|done]. by intros [= <-].
Qed.

Lemma reads_check_nodes copyAttr depth self nodes :
  (forall d v, reads (pre_update_version (cls self) d v)) ->
  (forall d v s, (pre_update_version (cls self) d v s).1 <> Ok true) ->
  reads (Utils.check_nodes copyAttr depth self nodes).
Proof.
  intros Hreads Hnever. induction nodes as [|node rest IH]; [apply reads_ret|].
  cbn [Utils.check_nodes].
  apply reads_bind; [by apply get_data_reads|]. by intros _.
Qed.

Lemma found_records node (s : scene) nd :
  s !! node = Some nd ->
  (let! records := get_records node in ret (bool_decide (is_Some records))) s
  = (Ok (Reference.has_records s node), s).
Proof.
  intros Hs. unfold get_records.
  pose proof (get_records_alive node false s nd Hs) as Hrun.
  unfold Reference.has_records. rewrite Hs.
  destruct (bool_decide (_RECORDS_NAME ∈ names nd));
    by rewrite (mbind_ok _ _ s _ s Hrun).
Qed.

Lemma keep_data_nodes_any nodes (s : scene) :
  (forall n, n ∈ nodes -> is_Some (s !! n)) ->
  Utils.keep_data_nodes None nodes s
  = (Ok (filter (fun n => Reference.has_records s n) nodes), s).
Proof.
  induction nodes as [|node rest IH]; intros Halive; [done|].
  cbn [Utils.keep_data_nodes].
  destruct (Halive node ltac:(by left)) as [nd Hs].
  rewrite (mbind_ok _ _ s _ s (found_records node s nd Hs)).
  rewrite (mbind_ok _ _ s _ s) by (apply IH; intros n Hn; apply Halive; by right).
  unfold ret. rewrite filter_cons.
  destruct (Reference.has_records s node) eqn:Hhas.
  - by rewrite decide_True by done.
  - by rewrite decide_False by exact id.
Qed.

Lemma keep_data_nodes_dead nodes (s : scene) node :
  node ∈ nodes -> s !! node = None ->
  Utils.keep_data_nodes None nodes s = (Raise (RuntimeError NodeIsNone), s).
Proof.
  induction nodes as [|n rest IH]; intros Hin Hs;
    [by apply elem_of_nil in Hin|].
  cbn [Utils.keep_data_nodes].
  destruct (s !! n) as [nd|] eqn:Hn.
  - assert (node ∈ rest) as Hrest.
    { apply elem_of_cons in Hin as [->|Hin]; [congruence|done]. }
    rewrite (mbind_ok _ _ s _ s (found_records n s nd Hn)).
    by rewrite (mbind_raise _ _ s _ s (IH Hrest Hs)).
  - unfold get_records. erewrite mbind_raise; [done|].
    by rewrite (mbind_raise _ _ s _ s (get_records_dead n false s Hn)).
Qed.

Lemma keep_data_nodes_class c nodes (s : scene) : forall found s',
  Utils.keep_data_nodes (Some c) nodes s = (Ok found, s') ->
  s' = s /\ sublist found nodes /\
  forall n, n ∈ found <->
            n ∈ nodes /\ exists r, get_record c n s = (Ok (Some r), s).
Proof.
  induction nodes as [|node rest IH]; intros found s'.
  - intros [= <- <-]. split; [done|]. split; [done|].
    intros n. split; [by intros H%elem_of_nil|by intros [H%elem_of_nil _]].
  - cbn [Utils.keep_data_nodes]. intros Hrun.
    apply mbind_inv in Hrun as (hit & s1 & Hhit & Hrun).
    apply mbind_inv in Hhit as (record & s0 & Hget & Hhit).
    injection Hhit as <- <-.
    assert (s0 = s) as ->
      by (by eapply reads_run; [apply (reads_get_record c node)|]).
    apply mbind_inv in Hrun as (data_nodes & s2 & Hrest & Hrun).
    injection Hrun as <- <-.
    destruct (IH _ _ Hrest) as (-> & Hsub & Hiff).
    split; [done|].
    destruct record as [r|].
    + rewrite bool_decide_eq_true_2 by done.
      split; [by apply sublist_skip|].
      intros n. rewrite !elem_of_cons, Hiff. split.
      * intros [->|[Hn Hr]]; [|by auto]. split; [by left|]. by exists r.
      * intros [[->|Hn] Hr]; [by left|by right].
    + rewrite bool_decide_eq_false_2 by by intros [? ?].
      split; [by apply sublist_cons|].
      intros n. rewrite elem_of_cons, Hiff. split.
      * intros [Hn Hr]. by auto.
      * intros [[->|Hn] [r Hr]]; [|by eauto].
        unfold get_record, get_record_by_name in *. congruence.
Qed.

End ScanFacts.

(** X14.  A class whose [pre_update_version] changes nothing and never
    answers [True], as the one [BaseData] hands down does while
    [AUTO_UPDATE] is [False], is never migrated: [get_data] without
    [force_add] leaves the scene as it found it, at every node and
    whatever it answers or raises.  So [validate_version], over classes
    that are all like that, changes nothing beyond what the listing
    of the nodes does. *)
Theorem validate_version_reads
        (copyAttr : nat -> nat -> list string -> Host.M unit)
        (ls : Host.M (list nat)) (depth : nat)
        (get_classes : list BaseData.class) :
  (forall c, c ∈ get_classes ->
     forall d v,
       Effects.reads (BaseData.pre_update_version c d v) /\
       forall s, (BaseData.pre_update_version c d v s).1 <> Ok true) ->
  (forall self node,
     BaseData.cls self ∈ get_classes ->
     Effects.reads (BaseData.get_data copyAttr depth self node false)) /\
  (Effects.reads ls ->
   Effects.reads (Utils.validate_version copyAttr ls depth get_classes)).
Proof.
  intros Hhooks. split.
  - intros self node Hin.
    apply get_data_reads; intros d v; by destruct (Hhooks _ Hin d v).
  - intros Hls. unfold Utils.validate_version.
    apply reads_bind; [done|]. intros nodes.
    induction get_classes as [|c rest IH]; [apply reads_ret|].
    cbn [Utils.check_classes].
    intros s. unfold Host.mbind at 1. unfold Host.lift at 1.
    destruct (BaseData.__init__ c ∅) as [self|e] eqn:Hself; [|done].
    revert s. apply reads_bind.
    + apply reads_check_nodes; intros d v;
        rewrite (init_hook c ∅ self Hself);
        by destruct (Hhooks c ltac:(by left) d v).
    + intros _. apply IH. intros c' Hc'. apply Hhooks. by right.
Qed.

Lemma validate_version_reads_witness :
  Utils.validate_version (fun _ _ _ => Host.ret tt) (Host.ret [0%nat]) 3
                         [Demo.Foo; Demo.Plain] Demo.stale
  = (Ok tt, Demo.stale).
Proof.
  assert (Hhooks : forall c, c ∈ [Demo.Foo; Demo.Plain] ->
    forall d v,
      Effects.reads (BaseData.pre_update_version c d v) /\
      forall s, (BaseData.pre_update_version c d v s).1 <> Ok true).
  { intros c Hc d v.
    apply elem_of_cons in Hc as [->|Hc];
      [|apply list_elem_of_singleton in Hc as ->]; by split. }
  pose proof (proj2 (validate_version_reads (fun _ _ _ => Host.ret tt)
                       (Host.ret [0%nat]) 3 [Demo.Foo; Demo.Plain] Hhooks)
                    (fun s => eq_refl) Demo.stale) as Hscene.
  destruct (Utils.validate_version _ _ _ _ _) as [r s'] eqn:Hrun.
  cbn [snd] in Hscene. subst s'. f_equal.
  by vm_compute in Hrun; injection Hrun as <-.
Defined.

(** X15.  [get_nodes_with_data] changes nothing beyond what the listing
    does.  Without a class it answers the listed nodes that have the
    records attribute, in the sorted order, and stops with the error of
    the module when a listed node is gone.  With a class, what it
    answers is a sublist of the sorted listing that holds exactly the
    listed nodes on which [get_record] finds a record of the class. *)
Theorem get_nodes_with_data_spec
        (ls : Host.M (list nat)) (sorted : list nat -> list nat)
        (s : gmap nat Host.node) (nodes : list nat) :
  ls s = (Ok nodes, s) ->
  (forall data_class,
     (Utils.get_nodes_with_data ls sorted data_class s).2 = s) /\
  ((forall n, n ∈ sorted nodes -> is_Some (s !! n)) ->
   Utils.get_nodes_with_data ls sorted None s
   = (Ok (filter (fun n => Reference.has_records s n) (sorted nodes)), s)) /\
  (forall n, n ∈ sorted nodes -> s !! n = None ->
     Utils.get_nodes_with_data ls sorted None s
     = (Raise (RuntimeError NodeIsNone), s)) /\
  (forall c found s',
     Utils.get_nodes_with_data ls sorted (Some c) s = (Ok found, s') ->
     sublist found (sorted nodes) /\
     forall n, n ∈ found <->
               n ∈ sorted nodes /\
               exists r, BaseData.get_record c n s = (Ok (Some r), s)).
Proof.
  intros Hls. unfold Utils.get_nodes_with_data.
  rewrite !(mbind_ok _ _ s _ s Hls).
  split; [|split; [|split]].
  - intros data_class.
    assert (Hreads : Effects.reads
                       (Utils.keep_data_nodes data_class (sorted nodes))).
    { induction (sorted nodes) as [|node rest IH]; [apply reads_ret|].
      cbn [Utils.keep_data_nodes]. apply reads_bind.
      - destruct data_class as [c|].
        + apply reads_bind; [apply (reads_get_record c)|].
          intros r. apply reads_ret.
        + apply reads_bind; [apply reads_get_records|].
          intros r. apply reads_ret.
      - intros hit. apply reads_bind; [done|]. intros l. apply reads_ret. }
    rewrite (mbind_ok _ _ s _ s Hls). apply Hreads.
  - apply keep_data_nodes_any.
  - intros n Hin Hdead. by apply (keep_data_nodes_dead _ s n).
  - intros c found s' Hrun. rewrite (mbind_ok _ _ s _ s Hls) in Hrun.
    by destruct (keep_data_nodes_class c _ s found s' Hrun) as (_ & ? & ?).
Qed.

Lemma get_nodes_with_data_spec_witness :
  let s : gmap nat Host.node :=
    <[1%nat := Host.Node Host.builtin_attrs ∅]> Demo.stale in
  Utils.get_nodes_with_data (Host.ret [1%nat; 0%nat]) (merge_sort le) None s
  = (Ok [0%nat], s).
Proof.
  intros s.
  destruct (get_nodes_with_data_spec (Host.ret [1%nat; 0%nat]) (merge_sort le)
              s [1%nat; 0%nat] eq_refl) as (_ & Hany & _).
  rewrite Hany; [by vm_compute|].
  intros n Hn. vm_compute in Hn.
  apply elem_of_cons in Hn as [->|Hn];
    [|apply list_elem_of_singleton in Hn as ->]; eexists; vm_compute;
    reflexivity.
Defined.

(** ** Removing data *)

Section DeleteFacts.
Import Host Effects BaseData.

Lemma prune_sub l : forall gone a p,
  (a, p) ∈ prune gone l ->
  (a, p) ∈ l /\ (a ∉ gone) /\ forall q, p = Some q -> q ∉ gone.
Proof.
  induction l as [|[b q] rest IH]; intros gone a p;
    [by intros H%elem_of_nil|].
  cbn [prune].
  destruct (bool_decide_reflect (b ∈ gone)) as [Hb|Hb]; cbn [orb].
  - intros Hin. destruct (IH _ _ _ Hin) as (Hrest & Hgone & Hparent).
    split; [by right|]. split.
    + intros Ha. apply Hgone. by right.
    + intros q' Hq' Hin'. apply (Hparent q' Hq'). by right.
  - destruct (match q with
              | Some q0 => bool_decide (q0 ∈ gone)
              | None => false
              end) eqn:Hq.
    + intros Hin. destruct (IH _ _ _ Hin) as (Hrest & Hgone & Hparent).
      split; [by right|]. split.
      * intros Ha. apply Hgone. by right.
      * intros q' Hq' Hin'. apply (Hparent q' Hq'). by right.
    + intros [[= -> ->]|Hin]%elem_of_cons.
      * split; [by left|]. split; [done|].
        intros q' ->. by apply bool_decide_eq_false in Hq.
      * destruct (IH _ _ _ Hin) as (Hrest & Hgone & Hparent).
        split; [by right|done].
Qed.

Lemma prune_top l : forall gone a,
  NoDup l.*1 -> (a, None) ∈ l -> a ∉ gone -> (a, None) ∈ prune gone l.
Proof.
  induction l as [|[b q] rest IH]; intros gone a Hnodup Hin Hout;
    [by apply elem_of_nil in Hin|].
  cbn [fmap list_fmap fst] in Hnodup.
  apply NoDup_cons in Hnodup as [Hfresh Hnodup].
  cbn [prune]. apply elem_of_cons in Hin as [[= <- <-]|Hin].
  - rewrite bool_decide_eq_false_2 by done. cbn [orb]. by left.
  - assert (a <> b).
    { intros ->. apply Hfresh. apply list_elem_of_fmap.
      by exists (b, None). }
    destruct (_ || _).
    + apply IH; [done|done|]. by intros [?|?]%elem_of_cons.
    + right. by apply IH.
Qed.

Lemma delete_data_run self node (s : scene) nd record :
  s !! node = Some nd ->
  get_record (cls self) node s = (Ok (Some record), s) ->
  delete_data self node s
  = if bool_decide (get_data_name (cls self) ∈ names nd)
    then (Ok tt,
          <[node := Node (prune [get_data_name (cls self)] (attrs nd))
                         (base.delete (index (Record_.attr record))
                                      (multi nd))]> s)
    else (Raise (HostError "no such attribute"),
          <[node := Node (attrs nd)
                         (base.delete (index (Record_.attr record))
                                      (multi nd))]> s).
Proof.
  intros Hs Hget. unfold delete_data.
  rewrite (mbind_ok _ _ s _ s Hget).
  pose proof (get_record_owner _ _ _ _ _ Hget) as Howner.
  erewrite mbind_ok
    by (apply (update_plug_spec _ _ s nd); [by rewrite Howner|done]).
  rewrite Howner.
  erewrite mbind_ok
    by (unfold removeMultiInstance; rewrite Howner, lookup_insert_eq;
        cbn [attrs multi]; by rewrite insert_insert_eq, delete_insert_eq).
  unfold deleteAttr. rewrite lookup_insert_eq.
  change (names (Node (attrs nd) ?m)) with (names nd).
  destruct (bool_decide _); [|done].
  cbn [attrs multi]. by rewrite insert_insert_eq.
Qed.

End DeleteFacts.

(** X16.  [delete_data].  On a node that is gone it stops with the
    error of the module; where [get_record] finds no record of the
    class it does nothing.  Where there is a record, the record's
    element is removed from the records attribute first, locked or not,
    and the compound attribute of the data name is deleted after that:
    when the node has no such attribute the call raises the host's error
    and the record is gone all the same.  Otherwise it returns; the
    data name is no longer an attribute of the node, no attribute is
    left that had it as parent, nothing is added, and on a node whose
    attribute names are distinct every other attribute without parent
    is still there.  Other records and other nodes are as before. *)
Theorem delete_data_cases (self : BaseData.instance) (node : nat)
        (s : gmap nat Host.node) :
  let data_name := BaseData.get_data_name (BaseData.cls self) in
  (s !! node = None ->
   BaseData.delete_data self node s
   = (Raise (RuntimeError NodeIsNone), s)) /\
  (BaseData.get_record (BaseData.cls self) node s = (Ok None, s) ->
   BaseData.delete_data self node s = (Ok tt, s)) /\
  (forall nd record,
     s !! node = Some nd ->
     BaseData.get_record (BaseData.cls self) node s
     = (Ok (Some record), s) ->
     let elements :=
       base.delete (Host.index (Record_.attr record)) (Host.multi nd) in
     (data_name ∉ Host.names nd ->
      BaseData.delete_data self node s
      = (Raise (HostError "no such attribute"),
         <[node := Host.Node (Host.attrs nd) elements]> s)) /\
     (data_name ∈ Host.names nd ->
      exists kept,
        BaseData.delete_data self node s
        = (Ok tt, <[node := Host.Node kept elements]> s) /\
        (data_name ∉ kept.*1) /\
        (forall a p, (a, p) ∈ kept ->
                     (a, p) ∈ Host.attrs nd /\ p <> Some data_name) /\
        (NoDup (Host.names nd) ->
         forall a, (a, None) ∈ Host.attrs nd -> a <> data_name ->
                   (a, None) ∈ kept))).
Proof.
  intros data_name. split; [|split].
  - intros Hs. unfold BaseData.delete_data.
    by rewrite (mbind_raise _ _ s _ s (get_record_dead _ node s Hs)).
  - intros Hget. unfold BaseData.delete_data.
    by rewrite (mbind_ok _ _ s _ s Hget).
  - intros nd record Hs Hget elements.
    rewrite (delete_data_run self node s nd record Hs Hget).
    fold data_name. fold elements. split.
    + intros Hout. by rewrite bool_decide_eq_false_2.
    + intros Hin. rewrite bool_decide_eq_true_2 by done.
      exists (Host.prune [data_name] (Host.attrs nd)).
      split; [done|]. split; [|split].
      * intros ((a & p) & Ha & Hkept)%list_elem_of_fmap. cbn in Ha. subst a.
        apply prune_sub in Hkept as (_ & Hgone & _). apply Hgone. by left.
      * intros a p Hkept.
        apply prune_sub in Hkept as (Hold & _ & Hparent).
        split; [done|]. intros ->. apply (Hparent data_name eq_refl). by left.
      * intros Hnodup a Ha Hne. apply prune_top; [done|done|].
        by intros ->%list_elem_of_singleton.
Qed.

Lemma delete_data_cases_witness :
  BaseData.delete_data (Demo.new Demo.Foo) 0 Demo.stale
  = (Ok tt, {[0%nat := Host.Node [("DataRecords", None)] ∅]}).
Proof.
  pose (nd := Host.Node [("DataRecords", None); ("Foo", None);
                         ("b", Some "Foo")]
                        {[0 := Host.Plug (Some "Foo:0.9.0") true]}).
  pose (record := Record_.Make (Host.Element 0 0) "Foo" [0; 9; 0]).
  assert (Hget : BaseData.get_record (BaseData.cls (Demo.new Demo.Foo)) 0
                                     Demo.stale
                 = (Ok (Some record), Demo.stale)) by by vm_compute.
  assert (Hin : "Foo" ∈ Host.names nd) by (right; by left).
  destruct (proj2 (proj2 (proj2 (delete_data_cases (Demo.new Demo.Foo) 0
                                   Demo.stale))
                         nd record eq_refl Hget) Hin)
    as (kept & Hrun & _).
  rewrite Hrun. by vm_compute in Hrun; injection Hrun as <-.
Defined.

(** ** Creating data *)

Section CreateFacts.
Import Host Effects BaseData.

Lemma addAttr_run node name parent (s : scene) nd :
  s !! node = Some nd ->
  name ∉ names nd ->
  (forall p, parent = Some p -> p ∈ names nd) ->
  addAttr node name parent s
  = (Ok tt, <[node := Node (attrs nd ++ [(name, parent)]) (multi nd)]> s).
Proof.
  intros Hs Hfresh Hparent. unfold addAttr. rewrite Hs.
  rewrite bool_decide_eq_false_2 by done.
  destruct parent as [p|]; [|done].
  by rewrite bool_decide_eq_true_2 by by apply Hparent.
Qed.

Lemma parent_flag_named flags parent_name :
  parent_name <> "" -> parent_flag flags parent_name = Some parent_name.
Proof.
  intros Hne. unfold parent_flag.
  rewrite bool_decide_eq_false_2 by done. by rewrite lookup_insert_eq.
Qed.

Lemma layout_names : forall t parent,
  (Reference.layout parent t).*1 = Reference.preorder t.
Proof.
  fix IH 1. intros [a|c target_size children] parent; [done|].
  cbn [Reference.layout Reference.preorder fmap list_fmap fst]. f_equal.
  induction children as [|child rest IHrest]; [done|].
  cbn [flat_map]. by rewrite fmap_app, IH, IHrest.
Qed.

Lemma layout_names_list parent trees :
  (flat_map (Reference.layout parent) trees).*1
  = flat_map Reference.preorder trees.
Proof.
  induction trees as [|t rest IH]; [done|].
  cbn [flat_map]. by rewrite fmap_app, layout_names, IH.
Qed.

Lemma add_attr_layout node : forall t parent (s : scene) nd,
  s !! node = Some nd ->
  parent <> "" -> parent ∈ names nd ->
  Reference.sound t = true ->
  NoDup (Reference.preorder t) ->
  (forall a, a ∈ Reference.preorder t -> a ∉ names nd) ->
  add_attr node t parent s
  = (Ok tt,
     <[node := Node (attrs nd ++ Reference.layout parent t) (multi nd)]> s).
Proof.
  fix IH 1. intros [a|c target_size children] parent s nd Hs Hparent Hthere
    Hsound Hnodup Hfresh.
  - cbn [add_attr Reference.layout]. rewrite parent_flag_named by done.
    apply addAttr_run; [done| |by intros p [= <-]].
    apply Hfresh. by left.
  - cbn [Reference.sound] in Hsound.
    apply andb_prop in Hsound as [Hsound Hkids].
    apply andb_prop in Hsound as [Hsize Hname].
    apply negb_true_iff, bool_decide_eq_false in Hname.
    cbn [Reference.preorder] in Hnodup, Hfresh.
    apply NoDup_cons in Hnodup as [Hself Hnodup].
    cbn [add_attr Reference.layout]. rewrite Hsize. cbn [negb].
    rewrite (mbind_ok _ _ s tt s) by done.
    rewrite parent_flag_named by done.
    erewrite mbind_ok;
      [|apply (addAttr_run node (Attr.name c) (Some parent) s nd Hs);
        [apply Hfresh; by left|by intros p [= <-]]].
    assert (Hstep : forall (s1 : scene) nd1,
      s1 !! node = Some nd1 ->
      Attr.name c ∈ names nd1 ->
      (forall a, a ∈ flat_map Reference.preorder children -> a ∉ names nd1) ->
      (fix each (l : list attr_tree) : M unit :=
         match l with
         | [] => ret tt
         | child :: rest =>
             let! _ := add_attr node child (Attr.name c) in each rest
         end) children s1
      = (Ok tt,
         <[node := Node (attrs nd1
                         ++ flat_map (Reference.layout (Attr.name c)) children)
                        (multi nd1)]> s1)).
    { clear Hself Hfresh Hsize Hs Hthere.
      induction children as [|child rest IHrest]; intros s1 nd1 Hs1 Hc Hnew.
      - cbn [flat_map]. rewrite app_nil_r.
        destruct nd1 as [attrs1 multi1]. cbn [attrs multi].
        by rewrite insert_id.
      - cbn [forallb] in Hkids. apply andb_prop in Hkids as [Hchild Hrest].
        cbn [flat_map] in Hnodup, Hnew |- *.
        apply NoDup_app in Hnodup as (Hnd_child & Hdisj & Hnd_rest).
        erewrite mbind_ok;
          [|apply (IH child (Attr.name c) s1 nd1 Hs1 Hname Hc Hchild Hnd_child);
            intros a Ha; apply Hnew, elem_of_app; by left].
        rewrite (IHrest Hrest Hnd_rest _ _ (lookup_insert_eq _ _ _)).
        + cbn [attrs multi]. by rewrite insert_insert_eq, app_assoc.
        + unfold names. cbn [attrs]. rewrite fmap_app.
          apply elem_of_app. by left.
        + intros a Ha. unfold names. cbn [attrs].
          rewrite fmap_app, layout_names.
          intros [Hold|Hdup]%elem_of_app.
          * revert Hold. apply Hnew, elem_of_app. by right.
          * by apply (Hdisj a). }
    rewrite (Hstep _ _ (lookup_insert_eq _ _ _)).
    + cbn [attrs multi]. by rewrite insert_insert_eq, <- app_assoc.
    + apply names_snoc.
    + intros a Ha. unfold names. cbn [attrs]. rewrite fmap_app.
      intros [Hold|Hc]%elem_of_app.
      * revert Hold. apply Hfresh. by right.
      * apply list_elem_of_singleton in Hc. cbn in Hc. by subst a.
Qed.

Lemma add_attrs_layout node parent : forall trees (s : scene) nd,
  s !! node = Some nd ->
  parent <> "" -> parent ∈ names nd ->
  forallb Reference.sound trees = true ->
  NoDup (flat_map Reference.preorder trees) ->
  (forall a, a ∈ flat_map Reference.preorder trees -> a ∉ names nd) ->
  add_attrs node trees parent s
  = (Ok tt,
     <[node := Node (attrs nd ++ flat_map (Reference.layout parent) trees)
                    (multi nd)]> s).
Proof.
  induction trees as [|t rest IH]; intros s nd Hs Hparent Hthere Hsound
    Hnodup Hfresh.
  - cbn [flat_map add_attrs]. rewrite app_nil_r.
    destruct nd as [attrs0 multi0]. cbn [attrs multi]. by rewrite insert_id.
  - cbn [forallb] in Hsound. apply andb_prop in Hsound as [Ht Hrest].
    cbn [flat_map] in Hnodup, Hfresh |- *.
    apply NoDup_app in Hnodup as (Hnd_t & Hdisj & Hnd_rest).
    cbn [add_attrs].
    erewrite mbind_ok;
      [|apply (add_attr_layout node t parent s nd Hs Hparent Hthere Ht Hnd_t);
        intros a Ha; apply Hfresh, elem_of_app; by left].
    rewrite (IH _ _ (lookup_insert_eq _ _ _) Hparent).
    + cbn [attrs multi]. by rewrite insert_insert_eq, app_assoc.
    + unfold names. cbn [attrs]. rewrite fmap_app.
      apply elem_of_app. by left.
    + done.
    + done.
    + intros a Ha. unfold names. cbn [attrs].
      rewrite fmap_app, layout_names.
      intros [Hold|Hdup]%elem_of_app.
      * revert Hold. apply Hfresh, elem_of_app. by right.
      * by apply (Hdisj a).
Qed.

Lemma init_flags c self :
  __init__ c ∅ = Ok self ->
  forall key, key ∈ invalid -> _flags self !! key = None.
Proof.
  unfold __init__. rewrite bool_decide_eq_true_2 by done.
  destruct (_init_class_attributes c) as [c'|]; [|done].
  intros [= <-] key Hkey. cbn [_flags]. unfold _clear_invalid_flags.
  rewrite clear_keys_lookup. by rewrite bool_decide_eq_true_2.
Qed.

Lemma create_data_run self node (s : scene) nd :
  _node self = Some node ->
  s !! node = Some nd ->
  _flags self !! "parent" = None ->
  get_data_name (cls self) <> "" ->
  forallb Reference.sound (attributes (cls self)) = true ->
  NoDup (get_data_name (cls self)
         :: flat_map Reference.preorder (attributes (cls self))) ->
  (forall a, a ∈ get_data_name (cls self)
                 :: flat_map Reference.preorder (attributes (cls self)) ->
             a ∉ names nd) ->
  _create_data self s
  = (Ok (get_data_name (cls self)),
     <[node := Node (attrs nd
                     ++ (get_data_name (cls self), None)
                          :: flat_map
                               (Reference.layout (get_data_name (cls self)))
                               (attributes (cls self)))
                    (multi nd)]> s).
Proof.
  intros Hnode Hs Hflags Hname Hsound Hnodup Hfresh.
  unfold _create_data, the_node. rewrite Hnode.
  rewrite (mbind_ok _ _ s node s) by done.
  assert (Hparent : parent_flag (_flags self) "" = None).
  { unfold parent_flag. rewrite bool_decide_eq_true_2 by done.
    by rewrite Hflags. }
  rewrite Hparent.
  erewrite mbind_ok;
    [|apply (addAttr_run node _ None s nd Hs);
      [apply Hfresh; by left|done]].
  apply NoDup_cons in Hnodup as [Hself Hnodup].
  erewrite mbind_ok;
    [|apply (add_attrs_layout node _ _ _ _ (lookup_insert_eq _ _ _) Hname);
      [apply names_snoc|done|done|]].
  - cbn [attrs multi]. rewrite insert_insert_eq, <- app_assoc.
    unfold attr. rewrite lookup_insert_eq.
    rewrite bool_decide_eq_true_2; [done|].
    unfold names. cbn [attrs]. rewrite fmap_app.
    apply elem_of_app. right. by left.
  - intros a Ha. unfold names. cbn [attrs]. rewrite fmap_app.
    intros [Hold|Hc]%elem_of_app.
    + revert Hold. apply Hfresh. by right.
    + apply list_elem_of_singleton in Hc. cbn in Hc. by subst a.
Qed.

Lemma checked_names_run self :
  attributes (cls self) <> [] ->
  checked_names self
  = Ok ((if is_multi self then []
         else flat_map Reference.preorder (attributes (cls self)))
        ++ [get_data_name (cls self)]).
Proof.
  intros Hne. unfold checked_names, get_attribute_names,
    _init_class_attributes.
  destruct (attributes (cls self)) as [|t rest] eqn:Htrees; [done|].
  cbn [bind]. by rewrite Htrees, get_attribute_names_list.
Qed.

Lemma find_attr_conflicts_passes self node (s : scene) nd attr_names :
  _node self = Some node ->
  s !! node = Some nd ->
  checked_names self = Ok attr_names ->
  (forall a, a ∈ attr_names -> a ∉ names nd) ->
  _find_attr_conflicts self s = (Ok tt, s).
Proof.
  intros Hnode Hs Hchecked Hfresh. unfold _find_attr_conflicts.
  erewrite mbind_ok by (unfold lift; by rewrite Hchecked).
  erewrite mbind_ok by (unfold the_node; by rewrite Hnode).
  erewrite mbind_ok by by apply collect_conflicts_spec.
  replace (filter (fun a => a ∈ names nd) attr_names) with (@nil string);
    [done|].
  symmetry. clear Hchecked.
  induction attr_names as [|a rest IH]; [done|].
  rewrite filter_cons, decide_False by (apply Hfresh; by left).
  apply IH. intros b Hb. apply Hfresh. by right.
Qed.

Lemma filter_all {A} (P : A -> Prop) `{forall x, Decision (P x)} (l : list A) :
  (forall x, x ∈ l -> P x) -> filter P l = l.
Proof.
  induction l as [|x rest IH]; intros Hall; [done|].
  rewrite filter_cons, decide_True by (apply Hall; by left).
  f_equal. apply IH. intros y Hy. apply Hall. by right.
Qed.

End CreateFacts.

(** X17.  [_create_data] on a node where none of the names is taken.
    The class's data name is not empty, its descriptors are compounds
    that pass [validate] and have names, the data name and the
    flattened names are all different and none of them is an attribute
    of the node, and the flags of the instance have no [parent], as
    those of every instance the constructor makes.  Then the call
    returns the compound attribute of the data name, and the node has
    gained, after the attributes it had: the data name without parent,
    then each descriptor below the data name and each child below its
    compound, in the order of the flattened names.  Records and other
    nodes are as before. *)
Theorem create_data_builds (self : BaseData.instance) (node : nat)
        (s : gmap nat Host.node) (nd : Host.node) :
  let data_name := BaseData.get_data_name (BaseData.cls self) in
  let trees := BaseData.attributes (BaseData.cls self) in
  BaseData._node self = Some node ->
  s !! node = Some nd ->
  BaseData._flags self !! "parent" = None ->
  data_name <> "" ->
  forallb Reference.sound trees = true ->
  NoDup (data_name :: flat_map Reference.preorder trees) ->
  (forall a, a ∈ data_name :: flat_map Reference.preorder trees ->
             a ∉ Host.names nd) ->
  BaseData._create_data self s
  = (Ok data_name,
     <[node := Host.Node
                 (Host.attrs nd
                  ++ (data_name, None)
                       :: flat_map (Reference.layout data_name) trees)
                 (Host.multi nd)]> s) /\
  ((data_name, @None string)
     :: flat_map (Reference.layout data_name) trees).*1
  = data_name :: flat_map Reference.preorder trees /\
  (forall c self', BaseData.__init__ c ∅ = Ok self' ->
                   BaseData._flags self' !! "parent" = None).
Proof.
  intros data_name trees Hnode Hs Hflags Hname Hsound Hnodup Hfresh.
  split; [|split].
  - by apply create_data_run.
  - rewrite fmap_cons. f_equal. apply layout_names_list.
  - intros c self' Hinit. apply (init_flags c self' Hinit).
    do 7 right. by left.
Qed.

Lemma create_data_builds_witness :
  BaseData._create_data
    (BaseData.Instance (BaseData.cls (Demo.new Demo.Foo)) ∅ None (Some 0%nat))
    Demo.bare
  = (Ok "Foo", {[0%nat := Host.Node [("Foo", None); ("a", Some "Foo")] ∅]}).
Proof.
  pose (self := BaseData.Instance (BaseData.cls (Demo.new Demo.Foo)) ∅ None
                                  (Some 0%nat)).
  assert (Hfresh : forall a : string,
            a ∈ ["Foo"; "a"] -> a ∉ Host.names (Host.Node [] ∅))
    by (intros a _ H; by apply elem_of_nil in H).
  assert (Hnodup : NoDup ["Foo"; "a"]).
  { apply NoDup_cons. split.
    - intros H%list_elem_of_singleton. by vm_compute in H.
    - apply NoDup_singleton. }
  exact (proj1 (create_data_builds self 0 Demo.bare (Host.Node [] ∅)
                  eq_refl eq_refl eq_refl ltac:(done) eq_refl Hnodup Hfresh)).
Defined.

(** X18.  What a forced add leaves behind.  [get_data] with
    [force_add], on a node without the records attribute where the data
    name and the flattened names are free, goes all the way through the
    conflict check and the creation of the attributes and then raises
    the type error of [get_version_string]: the node has gained the
    records attribute and the whole attribute tree of the class, and no
    record.  From then on the data is not found on the node, since no
    record says so, and a second forced add is refused as a conflict
    with the attributes the first one made, whose message lists no
    record at all. *)
Theorem force_add_partial
        (copyAttr : nat -> nat -> list string -> Host.M unit) (depth : nat)
        (self : BaseData.instance) (node : nat) (s : gmap nat Host.node)
        (nd : Host.node) :
  let c := BaseData.cls self in
  let data_name := BaseData.get_data_name c in
  let trees := BaseData.attributes c in
  let attr_names := flat_map Reference.preorder trees in
  s !! node = Some nd ->
  Host.multi nd = ∅ ->
  BaseData._flags self !! "parent" = None ->
  trees <> [] ->
  data_name <> "" ->
  forallb Reference.sound trees = true ->
  NoDup (BaseData._RECORDS_NAME :: data_name :: attr_names) ->
  (forall a, a ∈ BaseData._RECORDS_NAME :: data_name :: attr_names ->
             a ∉ Host.names nd) ->
  let s' : gmap nat Host.node :=
    <[node := Host.Node
                (Host.attrs nd
                 ++ (BaseData._RECORDS_NAME, None)
                      :: (data_name, None)
                      :: flat_map (Reference.layout data_name) trees)
                ∅]> s in
  BaseData.get_data copyAttr (S depth) self node true s
  = (Raise TypeError, s') /\
  BaseData.get_data copyAttr (S depth) self node false s' = (Ok None, s') /\
  BaseData.get_data copyAttr (S depth) self node true s'
  = (Raise (RuntimeError
              (AttrConflict
                 ((if BaseData.is_multi self then [] else attr_names)
                  ++ [data_name])
                 (BaseData.__name__ c) [])), s').
Proof.
  intros c data_name trees attr_names Hs Hmulti Hflags Htrees Hname Hsound
    Hnodup Hfresh s'.
  apply NoDup_cons in Hnodup as [Hrecords Hnodup].
  set (self1 := BaseData.Instance c (BaseData._flags self) (Some node)
                                  (Some node)).
  set (nd1 := Host.Node (Host.attrs nd ++ [(BaseData._RECORDS_NAME, None)])
                        (Host.multi nd)).
  set (s1 := <[node := nd1]> s : gmap nat Host.node).
  assert (Hs1 : s1 !! node = Some nd1) by apply lookup_insert_eq.
  assert (Hchecked : BaseData.checked_names self1
                     = Ok ((if BaseData.is_multi self then [] else attr_names)
                           ++ [data_name]))
    by by apply (checked_names_run self1).
  assert (Hin_checked : forall a,
    a ∈ (if BaseData.is_multi self then [] else attr_names) ++ [data_name] ->
    a ∈ data_name :: attr_names).
  { intros a [Ha|Ha]%elem_of_app.
    - destruct (BaseData.is_multi self); [by apply elem_of_nil in Ha|].
      by right.
    - apply list_elem_of_singleton in Ha as ->. by left. }
  assert (Hfresh1 : forall a, a ∈ data_name :: attr_names ->
                              a ∉ Host.names nd1).
  { intros a Ha. unfold Host.names, nd1. cbn [Host.attrs].
    rewrite fmap_app. intros [Hold|Hc]%elem_of_app.
    - revert Hold. apply Hfresh. by right.
    - apply list_elem_of_singleton in Hc. cbn in Hc. by subst a. }
  assert (Hs' : s' = <[node :=
                         Host.Node
                           (Host.attrs nd1
                            ++ (data_name, None)
                                 :: flat_map (Reference.layout data_name) trees)
                           (Host.multi nd1)]> s1).
  { unfold s', s1, nd1. cbn [Host.attrs Host.multi].
    by rewrite insert_insert_eq, <- app_assoc, Hmulti. }
  set (nd' := Host.Node
                (Host.attrs nd
                 ++ (BaseData._RECORDS_NAME, None)
                      :: (data_name, None)
                      :: flat_map (Reference.layout data_name) trees) ∅).
  assert (Hnode' : s' !! node = Some nd') by apply lookup_insert_eq.
  assert (Hnames' : Host.names nd'
                    = Host.names nd
                      ++ BaseData._RECORDS_NAME :: data_name :: attr_names).
  { unfold Host.names, nd'. cbn [Host.attrs].
    by rewrite fmap_app, !fmap_cons, layout_names_list. }
  assert (Hrec' : BaseData._RECORDS_NAME ∈ Host.names nd').
  { rewrite Hnames'. apply elem_of_app. right. by left. }
  assert (Hget' : BaseData.get_record c node s' = (Ok None, s')).
  { apply (get_record_absent c node s' nd' []); [done|done| |].
    - unfold nd'. cbn [Host.multi]. by rewrite dom_empty_L, elements_empty.
    - by intros H%elem_of_nil. }
  split; [|split].
  - cbn [BaseData.get_data].
    erewrite mbind_ok by by apply (get_record_none _ node s nd Hs);
      intros H; apply (Hfresh BaseData._RECORDS_NAME); [by left|].
    change (negb (bool_decide (is_Some (@None Record_.t))) && true) with true.
    cbv iota.
    assert (Hforce : BaseData._get_records node true s = (Ok (Some node), s1)).
    { rewrite (get_records_alive node true s nd Hs).
      rewrite bool_decide_eq_false_2; [done|]. apply Hfresh. by left. }
    erewrite mbind_ok;
      [|erewrite mbind_ok by exact Hforce; reflexivity].
    cbv beta iota. cbn [BaseData.cls BaseData._flags BaseData._node].
    fold c. fold self1.
    erewrite mbind_ok
      by (apply (find_attr_conflicts_passes self1 node s1 nd1 _ eq_refl Hs1
                   Hchecked); intros a Ha; by apply Hfresh1, Hin_checked).
    erewrite mbind_ok
      by by apply (create_data_run self1 node s1 nd1).
    erewrite mbind_raise; [by rewrite Hs'|].
    apply (add_data_to_records_raises self1 node); [done|].
    eexists. split; [apply lookup_insert_eq|].
    unfold Host.names. cbn [Host.attrs]. rewrite fmap_app.
    apply elem_of_app. left. apply names_snoc.
  - by apply get_data_none.
  - cbn [BaseData.get_data].
    erewrite mbind_ok by exact Hget'.
    change (negb (bool_decide (is_Some (@None Record_.t))) && true) with true.
    cbv iota.
    erewrite mbind_ok;
      [|erewrite mbind_ok by (by eapply get_records_present); reflexivity].
    cbv beta iota. cbn [BaseData.cls BaseData._flags BaseData._node].
    fold c. fold self1.
    erewrite mbind_raise; [done|].
    rewrite <- (filter_all (fun a => a ∈ Host.names nd')
                  ((if BaseData.is_multi self then [] else attr_names)
                   ++ [data_name])) at 1.
    + assert (Hcollect :
        BaseData.collect_record_names
          node (merge_sort Z.le (elements (dom (Host.multi nd')))) s'
        = (Ok [], s')).
      { unfold nd'. cbn [Host.multi].
        by rewrite dom_empty_L, elements_empty. }
      apply (find_attr_conflicts_raises self1 node s' nd' _ [] eq_refl eq_refl
               Hnode' Hcollect Hchecked).
      rewrite filter_all.
      * by destruct (if BaseData.is_multi self then [] else attr_names).
      * intros a Ha%Hin_checked. rewrite Hnames'.
        apply elem_of_app. right. by right.
    + intros a Ha%Hin_checked. rewrite Hnames'.
      apply elem_of_app. right. by right.
Qed.

Lemma force_add_partial_witness :
  let s' : gmap nat Host.node :=
    {[0%nat := Host.Node [("DataRecords", None); ("Foo", None);
                          ("a", Some "Foo")] ∅]} in
  BaseData.get_data (fun _ _ _ => Host.ret tt) 1 (Demo.new Demo.Foo) 0 true
                    Demo.bare
  = (Raise TypeError, s') /\
  BaseData.get_data (fun _ _ _ => Host.ret tt) 1 (Demo.new Demo.Foo) 0 false s'
  = (Ok None, s') /\
  BaseData.get_data (fun _ _ _ => Host.ret tt) 1 (Demo.new Demo.Foo) 0 true s'
  = (Raise (RuntimeError (AttrConflict ["a"; "Foo"] "Foo" [])), s').
Proof.
  assert (Hfresh : forall a : string,
            a ∈ ["DataRecords"; "Foo"; "a"] ->
            a ∉ Host.names (Host.Node [] ∅))
    by (intros a _ H; by apply elem_of_nil in H).
  assert (Hnodup : NoDup ["DataRecords"; "Foo"; "a"]).
  { apply (bool_decide_unpack _). by vm_compute. }
  exact (force_add_partial (fun _ _ _ => Host.ret tt) 0 (Demo.new Demo.Foo) 0
           Demo.bare (Host.Node [] ∅) eq_refl eq_refl eq_refl ltac:(done)
           ltac:(done) eq_refl Hnodup Hfresh).
Defined.

(** ** Scratch nodes *)

(** X19.  [create_node] never hands back the node it makes.  The call
    creates a node under a handle that was free, then raises: the
    error of the constructor of the class when that fails, else
    whatever the forced [get_data] on the new node raises.  The
    exception and the scene do not depend on the host's copy; the new
    node stays in the scene, and nothing that was there is lost. *)
Theorem create_node_never_returns (depth : nat) (c : BaseData.class)
        (s : gmap nat Host.node) :
  s !! Host.new_handle s = None /\
  exists e s',
    (forall copyAttr,
       BaseData.create_node (BaseData.get_data copyAttr depth) c s
       = (Raise e, s')) /\
    is_Some (s' !! Host.new_handle s) /\
    Effects.grows s s' /\
    (forall e0, BaseData.__init__ c ∅ = Raise e0 ->
                e = e0 /\
                s' = <[Host.new_handle s
                         := Host.Node Host.builtin_attrs ∅]> s).
Proof.
  split; [apply not_elem_of_dom, (is_fresh (dom s))|].
  set (n := Host.new_handle s).
  set (s0 := <[n := Host.Node Host.builtin_attrs ∅]> s : gmap nat Host.node).
  assert (Hcreate : Host.createNode s = (Ok n, s0)) by done.
  assert (Hn : s0 !! n = Some (Host.Node Host.builtin_attrs ∅))
    by apply lookup_insert_eq.
  destruct (BaseData.__init__ c ∅) as [classInstance|e] eqn:Hinit.
  - destruct (force_add_raises depth classInstance n s0 s0)
      as (e & s' & Hraise & Hgrows).
    { eapply get_record_none; [done|].
      apply (bool_decide_unpack _). by vm_compute. }
    exists e, s'. split; [|split; [|split; [|done]]].
    + intros copyAttr. unfold BaseData.create_node.
      erewrite mbind_ok by exact Hcreate.
      erewrite mbind_ok by (unfold Host.lift; by rewrite Hinit).
      by erewrite mbind_raise by apply Hraise.
    + destruct (Hgrows n _ Hn) as (nd' & -> & _). by eexists.
    + eapply grows_trans; [apply createNode_grows|done].
  - exists e, s0. split; [|split; [|split]].
    + intros copyAttr. unfold BaseData.create_node.
      erewrite mbind_ok by exact Hcreate.
      by erewrite mbind_raise by (unfold Host.lift; by rewrite Hinit).
    + by eexists.
    + apply createNode_grows.
    + by intros e0 [= <-].
Qed.

(** ** The classes by name *)

Section ClassFacts.
Import BaseData.

Lemma class_names_fold classes : forall (acc : gmap string class) name,
  fold_left (fun class_names subclass =>
               <[get_data_name subclass := subclass]> class_names)
            classes acc !! name
  = match last (filter (fun c => get_data_name c = name) classes) with
    | Some c => Some c
    | None => acc !! name
    end.
Proof.
  induction classes as [|c rest IH]; intros acc name; [done|].
  cbn [fold_left]. rewrite IH, filter_cons.
  destruct (decide (get_data_name c = name)) as [<-|Hne].
  - rewrite last_cons. destruct (last _); [done|].
    apply lookup_insert_eq.
  - destruct (last _); [done|]. by apply lookup_insert_ne.
Qed.

Lemma last_filter_nodup classes :
  NoDup (get_data_name <$> classes) ->
  forall c, c ∈ classes ->
    last (filter (fun c' => get_data_name c' = get_data_name c) classes)
    = Some c.
Proof.
  induction classes as [|c0 rest IH]; intros Hnodup c Hc;
    [by apply elem_of_nil in Hc|].
  rewrite fmap_cons in Hnodup. apply NoDup_cons in Hnodup as [Hfresh Hnodup].
  rewrite filter_cons.
  destruct (decide (get_data_name c0 = get_data_name c)) as [Hname|Hname].
  - rewrite last_cons.
    destruct (last _) as [c'|] eqn:Hlast.
    + apply last_Some_elem_of, list_elem_of_filter in Hlast as [Hname' Hin].
      destruct Hfresh. rewrite Hname, <- Hname'.
      apply list_elem_of_fmap. by exists c'.
    + apply elem_of_cons in Hc as [->|Hc]; [done|].
      apply last_None in Hlast.
      assert (c ∈ filter (fun c' => get_data_name c' = get_data_name c) rest)
        as Hin by by apply list_elem_of_filter.
      rewrite Hlast in Hin. by apply elem_of_nil in Hin.
  - apply elem_of_cons in Hc as [->|Hc]; [done|]. by apply IH.
Qed.

Lemma enter_names_lookup class_name attribute_names :
  forall (attrs : gmap string (list string)) name,
    Utils.enter_names class_name attribute_names attrs !! name
    = match replicate (length (filter (fun a => a = name) attribute_names))
                      class_name with
      | [] => attrs !! name
      | classes => Some (default [] (attrs !! name) ++ classes)
      end.
Proof.
  induction attribute_names as [|a rest IH]; intros attrs name; [done|].
  unfold Utils.enter_names in *. cbn [fold_left]. rewrite IH, filter_cons.
  assert (Hstep :
    (match attrs !! a with
     | Some classes => <[a := classes ++ [class_name]]> attrs
     | None => <[a := [class_name]]> attrs
     end) !! name
    = if decide (a = name)
      then Some (default [] (attrs !! name) ++ [class_name])
      else attrs !! name).
  { destruct (decide (a = name)) as [->|Hne].
    - destruct (attrs !! name); by rewrite lookup_insert_eq.
    - destruct (attrs !! a); by rewrite lookup_insert_ne. }
  rewrite Hstep. destruct (decide (a = name)) as [->|Hne]; [|done].
  cbn [length replicate default].
  destruct (replicate _ class_name) as [|x l] eqn:Hrest; [done|].
  cbn [default from_option id]. change (id ?x) with x.
  by rewrite <- app_assoc.
Qed.

Lemma gather_lookup classes : forall (attrs : gmap string (list string)),
  Forall (fun c =>
            exists flags,
              GetDefaultFlags c = Some flags /\
              (has_key flags "m" || has_key flags "multi" = false ->
               is_Some (GetAttributeNames c))) classes ->
  exists attrs',
    Utils.gather classes attrs = Ok attrs' /\
    forall name,
      attrs' !! name
      = match Reference.claimants classes name with
        | [] => attrs !! name
        | claimed => Some (default [] (attrs !! name) ++ claimed)
        end.
Proof.
  induction classes as [|c rest IH]; intros attrs Hdefined.
  - by exists attrs.
  - apply Forall_cons in Hdefined as [(flags & Hflags & Hnames) Hdefined].
    assert (Hclaim : forall name,
      Reference.claimants (c :: rest) name
      = (if has_key flags "m" || has_key flags "multi" then []
         else replicate
                (length (filter (fun a => a = name)
                                (default [] (GetAttributeNames c))))
                (__name__ c))
        ++ Reference.claimants rest name).
    { intros name. unfold Reference.claimants. cbn [flat_map].
      by rewrite Hflags. }
    cbn [Utils.gather]. rewrite Hflags.
    destruct (has_key flags "m" || has_key flags "multi") eqn:Hmulti.
    + destruct (IH attrs Hdefined) as (attrs' & Hrun & Hlookup).
      exists attrs'. split; [done|]. intros name.
      by rewrite Hclaim, Hlookup.
    + destruct (Hnames eq_refl) as [attribute_names Hattribute_names].
      rewrite Hattribute_names in Hclaim |- *.
      destruct (IH (Utils.enter_names (__name__ c) attribute_names attrs)
                   Hdefined) as (attrs' & Hrun & Hlookup).
      exists attrs'. split; [done|]. intros name.
      rewrite Hclaim, Hlookup, enter_names_lookup.
      change (default [] (Some attribute_names)) with attribute_names.
      destruct (replicate _ (__name__ c)) as [|x l];
        destruct (Reference.claimants rest name) as [|y k];
        cbn [app default from_option]; unfold id;
        rewrite ?app_nil_r, <- ?app_assoc; done.
Qed.

End ClassFacts.

(** X20.  [get_class_names] files each class under its data name, and
    of the classes that share a data name it keeps the one that comes
    last: the earlier ones cannot be found by name.  When all data
    names differ every class is found under its own. *)
Theorem get_class_names_last (get_classes : list BaseData.class) :
  (forall name,
     Utils.get_class_names get_classes !! name
     = last (filter (fun c => BaseData.get_data_name c = name) get_classes)) /\
  (forall name c,
     Utils.get_class_names get_classes !! name = Some c ->
     c ∈ get_classes /\ BaseData.get_data_name c = name) /\
  (NoDup (BaseData.get_data_name <$> get_classes) ->
   forall c, c ∈ get_classes ->
     Utils.get_class_names get_classes !! BaseData.get_data_name c = Some c).
Proof.
  assert (Hlookup : forall name,
    Utils.get_class_names get_classes !! name
    = last (filter (fun c => BaseData.get_data_name c = name) get_classes)).
  { intros name. unfold Utils.get_class_names. rewrite class_names_fold.
    by destruct (last _). }
  split; [done|]. split.
  - intros name c. rewrite Hlookup. intros Hlast%last_Some_elem_of.
    by apply list_elem_of_filter in Hlast as [? ?].
  - intros Hnodup c Hc. rewrite Hlookup. by apply last_filter_nodup.
Qed.

Lemma get_class_names_last_witness :
  Utils.get_class_names [Demo.Foo; Demo.Plain] !! "Plain" = Some Demo.Plain.
Proof.
  assert (Hnodup : NoDup (BaseData.get_data_name <$> [Demo.Foo; Demo.Plain])).
  { apply (bool_decide_unpack _). by vm_compute. }
  apply (proj2 (proj2 (get_class_names_last [Demo.Foo; Demo.Plain])) Hnodup
               Demo.Plain).
  right. by left.
Defined.

(** X21.  What [find_attribute_conflicts] computes for classes that do
    define [GetDefaultFlags] and, unless marked multi,
    [GetAttributeNames].  Under each name the classes not marked multi
    are collected in order, a class once for each time its list has the
    name; a name is a conflict when more than one entry was collected,
    so a class that lists a name twice conflicts with itself, and the
    attributes of a class marked multi never count.  Each conflict is
    warned about; with conflicts and [error_on_conflict] the call
    raises, otherwise it returns the conflicts. *)
Theorem find_attribute_conflicts_claimants
        (get_classes : list BaseData.class) (error_on_conflict : bool) :
  Forall (fun c =>
            exists flags,
              BaseData.GetDefaultFlags c = Some flags /\
              (has_key flags "m" || has_key flags "multi" = false ->
               is_Some (BaseData.GetAttributeNames c))) get_classes ->
  exists conflicts : gmap string (list string),
    (forall name,
       conflicts !! name
       = if bool_decide (1 < length (Reference.claimants get_classes name))%nat
         then Some (Reference.claimants get_classes name)
         else None) /\
    Utils.find_attribute_conflicts get_classes error_on_conflict
    = (if negb (bool_decide (conflicts = ∅)) && error_on_conflict
       then pm_error UtilsConflict
       else Ok conflicts,
       (map_to_list conflicts).*1) /\
    (forall name,
       name ∈ (map_to_list conflicts).*1 <->
       (1 < length (Reference.claimants get_classes name))%nat).
Proof.
  intros Hdefined.
  destruct (gather_lookup get_classes ∅ Hdefined) as (attrs & Hrun & Hattrs).
  set (conflicts := filter (fun kv : string * list string =>
                              (1 < length kv.2)%nat) attrs).
  assert (Hlookup : forall name,
    conflicts !! name
    = if bool_decide (1 < length (Reference.claimants get_classes name))%nat
      then Some (Reference.claimants get_classes name)
      else None).
  { intros name. unfold conflicts. rewrite map_lookup_filter, Hattrs.
    rewrite lookup_empty.
    destruct (Reference.claimants get_classes name) as [|x l] eqn:Hclaim.
    - by rewrite bool_decide_eq_false_2 by (cbn; lia).
    - cbn [default from_option app mbind option_bind].
      change (id (@nil string) ++ x :: l) with (x :: l).
      cbn [snd]. case_guard.
      + by rewrite bool_decide_eq_true_2.
      + by rewrite bool_decide_eq_false_2. }
  exists conflicts. split; [done|]. split.
  - unfold Utils.find_attribute_conflicts. rewrite Hrun. cbv zeta.
    fold conflicts. by destruct (negb _ && _).
  - intros name. split.
    + intros ((k & l) & -> & Hin%elem_of_map_to_list)%list_elem_of_fmap.
      cbn [fst] in *. rewrite Hlookup in Hin.
      by destruct (bool_decide_reflect
                     (1 < length (Reference.claimants get_classes k))%nat).
    + intros Hmany. apply list_elem_of_fmap.
      exists (name, Reference.claimants get_classes name).
      split; [done|]. apply elem_of_map_to_list.
      by rewrite Hlookup, bool_decide_eq_true_2.
Qed.

Lemma find_attribute_conflicts_claimants_witness :
  let twice : BaseData.class :=
    BaseData.Class "Twice" "Twice" [1; 0; 0] [] (Ok []) ∅
                   (fun _ _ => Host.ret false) (fun _ _ => Host.ret tt)
                   (fun _ => Host.ret tt) (Some ∅) (Some ["a"; "b"; "a"]) in
  exists conflicts : gmap string (list string),
    conflicts !! "a" = Some ["Twice"; "Twice"] /\
    conflicts !! "b" = None /\
    Utils.find_attribute_conflicts [twice] false
    = (Ok conflicts, (map_to_list conflicts).*1).
Proof.
  intros twice.
  assert (Hdefined : Forall (fun c =>
            exists flags,
              BaseData.GetDefaultFlags c = Some flags /\
              (has_key flags "m" || has_key flags "multi" = false ->
               is_Some (BaseData.GetAttributeNames c))) [twice]).
  { apply Forall_cons. split; [|apply Forall_nil_2].
    exists ∅. split; [done|]. intros _. by eexists. }
  destruct (find_attribute_conflicts_claimants [twice] false Hdefined)
    as (conflicts & Hlookup & Hrun & _).
  exists conflicts. split; [|split].
  - by rewrite Hlookup.
  - by rewrite Hlookup.
  - rewrite Hrun. by rewrite andb_false_r.
Defined.

(** ** What [get_data] never does *)

Section KeepFacts.
Import Host Effects BaseData.

Lemma keeps_raises {A B} (m : M A) (k : A -> M B) :
  (forall s, exists e s', m s = (Raise e, s') /\ grows s s') ->
  keeps (mbind m k).
Proof.
  intros Hraises s. destruct (Hraises s) as (e & s' & Hrun & Hgrows).
  by rewrite (mbind_raise _ _ _ _ _ Hrun).
Qed.

End KeepFacts.

(** X22.  [get_data] never deletes an attribute and never adds, removes
    or rewrites a record, whatever [force_add] is and whatever the host's
    copy would do, as long as [pre_update_version] itself does neither:
    every node of the scene is still there after the call, returned or
    raised, with the same elements in its records attribute and with
    all the attributes it had.  So no call of [get_data] ever brings a
    record up to the version of its class, and none ever files one. *)
Theorem get_data_keeps
        (copyAttr : nat -> nat -> list string -> Host.M unit) (depth : nat)
        (self : BaseData.instance) (node : nat) (force_add : bool) :
  (forall d v, Effects.keeps (BaseData.pre_update_version (BaseData.cls self)
                                                          d v)) ->
  forall (s : gmap nat Host.node) n nd,
    s !! n = Some nd ->
    exists nd',
      (BaseData.get_data copyAttr depth self node force_add s).2 !! n
      = Some nd' /\
      Host.multi nd' = Host.multi nd /\
      forall a, a ∈ Host.names nd -> a ∈ Host.names nd'.
Proof.
  intros Hhook s. change (Effects.grows s
    (BaseData.get_data copyAttr depth self node force_add s).2).
  destruct depth as [|depth]; [apply grows_refl|].
  destruct (BaseData.get_record (BaseData.cls self) node s) as [r s0] eqn:Hget.
  assert (s0 = s) as -> by (by eapply reads_run; [apply reads_get_record|]).
  destruct r as [[record|]|e].
  - rewrite (get_data_some _ _ _ _ _ _ _ Hget). cbv zeta.
    apply (keeps_bind _ _).
    + destruct (Py.tuple_lt _ _); [|apply reads_keeps, reads_ret].
      apply keeps_bind; [apply reads_keeps, reads_attr|]. intros old_data.
      apply keeps_bind; [apply Hhook|]. intros [|];
        [|apply reads_keeps, reads_ret].
      apply keeps_raises. intros s1.
      destruct (update_version_raises depth
                  (BaseData.Instance (BaseData.cls self)
                     (BaseData._flags self) None (Some node))
                  old_data (Record_.version record) s1)
        as (e & s2 & Hraise & _ & Hgrows).
      by exists e, s2.
    + intros _. apply keeps_bind; [apply reads_keeps, reads_attr|].
      intros data. apply reads_keeps, reads_ret.
  - destruct force_add.
    + destruct (force_add_raises (S depth) self node s s Hget)
        as (e & s' & Hraise & Hgrows).
      by rewrite Hraise.
    + rewrite (get_data_none _ _ _ _ _ Hget). apply grows_refl.
  - rewrite (get_data_raise _ _ _ _ _ _ _ _ Hget). apply grows_refl.
Qed.

Lemma get_data_keeps_witness :
  exists nd',
    (BaseData.get_data (fun _ _ _ => Host.ret tt) 2 (Demo.new Demo.FooAuto) 0
                       false Demo.stale).2 !! 0%nat = Some nd' /\
    Host.multi nd' = {[0 := Host.Plug (Some "Foo:0.9.0") true]}.
Proof.
  destruct (get_data_keeps (fun _ _ _ => Host.ret tt) 2 (Demo.new Demo.FooAuto)
              0 false (fun d v s => grows_refl s) Demo.stale 0%nat
              (Host.Node [("DataRecords", None); ("Foo", None);
                          ("b", Some "Foo")]
                         {[0 := Host.Plug (Some "Foo:0.9.0") true]})
              eq_refl)
    as (nd' & Hnode & Hmulti & _).
  by exists nd'.
Defined.
